(** * cas-alert: record identity, duplicate detection and merge planning

    A shallow embedding of the deduplication core of the CAS alert scraper:

    - [src/cas_alert/data/models.py]      (the [Alert] dataclass, its identity
      hash and the flat-row conversions [to_dict] / [from_dict]);
    - [src/cas_alert/data/duplicates.py]  ([DuplicateManager.is_duplicate] and
      [DuplicateManager.remove_duplicates]);
    - [src/cas_alert/storage/google_sheets.py] (the selection loop of
      [GoogleSheetsManager.update_with_new_alerts], and
      [get_existing_alerts]);
    - [src/cas_alert/scrapers/base.py]    ([clean_text], [parse_date],
      [extract_alert_url], [handle_request_errors], the file name of
      [save_raw_data]);
    - [src/cas_alert/scrapers/cas_mhra.py], [src/cas_alert/scrapers/govuk.py]
      (a row of the CAS table and an item of the GOV.UK list, up to the
      record constructed from it; the page numbers of the CAS table);
    - [src/cas_alert/data/processor.py]   ([process_and_deduplicate],
      [dataframe_to_alerts]) and the composition of [main.py].

    Python [str] values are modelled as [string] (text is taken to be ASCII,
    so that a character is a byte and [str.encode()] is the identity on the
    bytes), Python [int] as [Z], the [float] threshold as a binary64
    primitive float, [dict] as [gmap], [set] as [gset].  The wall clock
    ([datetime.now()]) and the [ValueError] of [datetime.strptime] are
    threaded through a small state-and-error monad. *)

From Stdlib Require Import ZArith List String Ascii Bool Lia Floats Uint63 Sorted.
From stdpp Require Import base option list gmap sets strings sorting.

Set Default Proof Using "Type".

(* ===================================================================== *)
(** * Part I. The embedding                                               *)
(* ===================================================================== *)

(** ** Text: the string primitives the program uses *)

Module Text.

(** Python truthiness of a [str]: the empty string is falsy. *)
Definition truthy (s : string) : bool :=
  match s with EmptyString => false | String _ _ => true end.

(** [str.lower()] on ASCII text: the letters [A]..[Z] are shifted to
    [a]..[z], every other character is kept. *)
Definition lower_char (c : ascii) : ascii :=
  let n := nat_of_ascii c in
  if (65 <=? n)%nat && (n <=? 90)%nat then ascii_of_nat (n + 32) else c.

Fixpoint lower (s : string) : string :=
  match s with
  | EmptyString => EmptyString
  | String c r => String (lower_char c) (lower r)
  end.

(** [str.encode()]: the bytes of the text, as integers in [0, 256). *)
Fixpoint encode (s : string) : list Z :=
  match s with
  | EmptyString => []
  | String c r => Z.of_nat (nat_of_ascii c) :: encode r
  end.

(** The decimal digit [0 <= d <= 9] as a character, and back. *)
Definition digit_char (d : Z) : ascii := ascii_of_nat (48 + Z.to_nat d).

Definition digit_val (c : ascii) : option Z :=
  let n := nat_of_ascii c in
  if (48 <=? n)%nat && (n <=? 57)%nat then Some (Z.of_nat (n - 48)) else None.

(** The regular-expression class [\s] on ASCII text. *)
Definition is_space (c : ascii) : bool :=
  let n := nat_of_ascii c in
  ((9 <=? n)%nat && (n <=? 13)%nat) || ((28 <=? n)%nat && (n <=? 32)%nat).

End Text.

(** ** Time: [datetime] values, [strftime] and [strptime] *)

Module Time.
Import Text.

Record date := mk_date { year : Z; month : Z; day : Z }.

Record datetime := mk_datetime {
  date_of : date;            (* [datetime.date()] *)
  hour : Z; minute : Z; second : Z; microsecond : Z
}.

#[global] Instance date_eq_dec : EqDecision date.
Proof. solve_decision. Defined.

#[global] Instance datetime_eq_dec : EqDecision datetime.
Proof. solve_decision. Defined.

Definition is_leap (y : Z) : bool :=
  ((y mod 4 =? 0) && negb (y mod 100 =? 0) || (y mod 400 =? 0))%Z.

Definition days_in_month (y m : Z) : Z :=
  if (m =? 2)%Z then (if is_leap y then 29 else 28)
  else if ((m =? 4) || (m =? 6) || (m =? 9) || (m =? 11))%Z then 30
  else 31.

(** The values the [datetime] constructor accepts; anything else raises
    [ValueError] there. *)
Definition valid_dateb (d : date) : bool :=
  ((1 <=? year d) && (year d <=? 9999) &&
   (1 <=? month d) && (month d <=? 12) &&
   (1 <=? day d) && (day d <=? days_in_month (year d) (month d)))%Z.

Definition valid_datetimeb (t : datetime) : bool :=
  valid_dateb (date_of t) &&
  ((0 <=? hour t) && (hour t <=? 23) &&
   (0 <=? minute t) && (minute t <=? 59) &&
   (0 <=? second t) && (second t <=? 59) &&
   (0 <=? microsecond t) && (microsecond t <=? 999999))%Z.

Definition midnight (d : date) : datetime := mk_datetime d 0 0 0 0.

(** *** Formatting *)

Definition pad2 (n : Z) (rest : string) : string :=
  String (digit_char (n / 10)) (String (digit_char (n mod 10)) rest).

Definition pad4 (n : Z) (rest : string) : string :=
  String (digit_char (n / 1000))
    (String (digit_char (n / 100 mod 10)) (pad2 (n mod 100) rest)).

Definition dash : ascii := "-"%char.
Definition colon : ascii := ":"%char.
Definition blank : ascii := " "%char.

(** [%Y].  The interpreter hands the directive to the C library.  From the
    year 1000 on every C library writes the four digits; for the years 1
    to 999 glibc, under which this development was checked against the
    interpreter, writes the number without leading zeros ([999], where
    some other C libraries write [0999]).  [strptime] reads [%Y] as
    exactly four digits, so a text written for such a year is not read
    back; the statements that need the text to be read back say
    [1000 <= year]. *)
Definition year_text (n : Z) (rest : string) : string :=
  if (n <? 10)%Z then String (digit_char n) rest
  else if (n <? 100)%Z then pad2 n rest
  else if (n <? 1000)%Z then String (digit_char (n / 100)) (pad2 (n mod 100) rest)
  else pad4 n rest.

(** [d.strftime('%Y-%m-%d')] *)
Definition strftime_date_into (d : date) (rest : string) : string :=
  year_text (year d) (String dash (pad2 (month d) (String dash (pad2 (day d) rest)))).

Definition strftime_date (t : datetime) : string :=
  strftime_date_into (date_of t) EmptyString.

(** [t.strftime('%Y-%m-%d %H:%M:%S')] *)
Definition strftime_timestamp (t : datetime) : string :=
  strftime_date_into (date_of t)
    (String blank (pad2 (hour t)
       (String colon (pad2 (minute t) (String colon (pad2 (second t) EmptyString)))))).

(** *** Parsing

    [datetime.strptime] compiles the format to a regular expression,
    matches it at the start of the text, rejects text left over, and hands
    the numbers to the [datetime] constructor.  For the two formats used
    here the expression is

      [(\d\d\d\d)-(1[0-2]|0[1-9]|[1-9])-(3[0-1]|[1-2]\d|0[1-9]|[1-9]| [1-9])]

    followed, for the timestamp, by

      [\s+(2[0-3]|[0-1]\d|\d):([0-5]\d|\d):(6[0-1]|[0-5]\d|\d)].

    Every directive is followed by a literal that no shorter alternative
    of the directive can reach, so ordered choice decides the match. *)

Definition parser (A : Type) : Type := string -> option (A * string).

Definition in_range (lo hi : Z) (c : ascii) : option Z :=
  match digit_val c with
  | Some v => if ((lo <=? v) && (v <=? hi))%Z then Some v else None
  | None => None
  end.

(** One alternative [[a-b][c-d]] of two digit classes. *)
Definition two_digits (l1 h1 l2 h2 : Z) : parser Z := fun s =>
  match s with
  | String c1 (String c2 r) =>
      match in_range l1 h1 c1, in_range l2 h2 c2 with
      | Some a, Some b => Some ((10 * a + b)%Z, r)
      | _, _ => None
      end
  | _ => None
  end.

(** One alternative [[a-b]] of a single digit class. *)
Definition one_digit (lo hi : Z) : parser Z := fun s =>
  match s with
  | String c r => match in_range lo hi c with Some a => Some (a, r) | None => None end
  | _ => None
  end.

(** The alternative [ [1-9]] of [%d]: a blank, then a digit. *)
Definition blank_digit : parser Z := fun s =>
  match s with
  | String c r => if Ascii.eqb c blank then one_digit 1 9 r else None
  | _ => None
  end.

Definition orelse {A} (p q : parser A) : parser A := fun s =>
  match p s with Some r => Some r | None => q s end.

Definition literal (c : ascii) : parser unit := fun s =>
  match s with
  | String c' r => if Ascii.eqb c' c then Some (tt, r) else None
  | _ => None
  end.

Fixpoint skip_spaces (s : string) : string :=
  match s with
  | String c r => if is_space c then skip_spaces r else s
  | EmptyString => s
  end.

(** [\s+] *)
Definition spaces1 : parser unit := fun s =>
  match s with
  | String c r => if is_space c then Some (tt, skip_spaces r) else None
  | _ => None
  end.

Definition parse_Y : parser Z := fun s =>
  match s with
  | String c1 (String c2 (String c3 (String c4 r))) =>
      match digit_val c1, digit_val c2, digit_val c3, digit_val c4 with
      | Some a, Some b, Some c, Some d => Some ((1000 * a + 100 * b + 10 * c + d)%Z, r)
      | _, _, _, _ => None
      end
  | _ => None
  end.

Definition parse_m : parser Z :=
  orelse (two_digits 1 1 0 2) (orelse (two_digits 0 0 1 9) (one_digit 1 9)).

Definition parse_d : parser Z :=
  orelse (two_digits 3 3 0 1)
    (orelse (two_digits 1 2 0 9)
       (orelse (two_digits 0 0 1 9) (orelse (one_digit 1 9) blank_digit))).

Definition parse_H : parser Z :=
  orelse (two_digits 2 2 0 3) (orelse (two_digits 0 1 0 9) (one_digit 0 9)).

Definition parse_M : parser Z :=
  orelse (two_digits 0 5 0 9) (one_digit 0 9).

Definition parse_S : parser Z :=
  orelse (two_digits 6 6 0 1) (orelse (two_digits 0 5 0 9) (one_digit 0 9)).

Definition bind {A B} (p : parser A) (k : A -> parser B) : parser B := fun s =>
  match p s with Some (a, r) => k a r | None => None end.

Definition ret {A} (a : A) : parser A := fun s => Some (a, s).

Definition parse_date : parser date :=
  bind parse_Y (fun y => bind (literal dash) (fun _ =>
  bind parse_m (fun m => bind (literal dash) (fun _ =>
  bind parse_d (fun d => ret (mk_date y m d)))))).

Definition parse_clock : parser (Z * Z * Z) :=
  bind spaces1 (fun _ => bind parse_H (fun h => bind (literal colon) (fun _ =>
  bind parse_M (fun mi => bind (literal colon) (fun _ =>
  bind parse_S (fun s => ret (h, mi, s))))))).

(** The whole text must be consumed and the numbers must form a value
    the constructor accepts; [None] stands for the [ValueError]. *)
Definition finish (r : option (datetime * string)) : option datetime :=
  match r with
  | Some (t, EmptyString) => if valid_datetimeb t then Some t else None
  | _ => None
  end.

(** [datetime.strptime(s, '%Y-%m-%d')] *)
Definition strptime_date (s : string) : option datetime :=
  finish (bind parse_date (fun d => ret (midnight d)) s).

(** [datetime.strptime(s, '%Y-%m-%d %H:%M:%S')] *)
Definition strptime_timestamp (s : string) : option datetime :=
  finish (bind parse_date (fun d => bind parse_clock (fun '(h, mi, sec) =>
            ret (mk_datetime d h mi sec 0))) s).

End Time.

(** ** MD5: [hashlib.md5(data).hexdigest()]

    The digest of RFC 1321 on 32-bit words held in [Z], every addition and
    rotation wrapped to 32 bits. *)

Module MD5.
Local Open Scope Z_scope.

Definition wrap32 (x : Z) : Z := x mod 2 ^ 32.
Definition add32 (a b : Z) : Z := wrap32 (a + b).
Definition not32 (x : Z) : Z := Z.lxor x 0xffffffff.
Definition rotl32 (x c : Z) : Z :=
  wrap32 (Z.lor (Z.shiftl x c) (Z.shiftr x (32 - c))).

(** [K i = floor (2^32 * |sin (i + 1)|)] *)
Definition K : list Z :=
  [ 0xd76aa478; 0xe8c7b756; 0x242070db; 0xc1bdceee; 0xf57c0faf; 0x4787c62a; 0xa8304613; 0xfd469501;
    0x698098d8; 0x8b44f7af; 0xffff5bb1; 0x895cd7be; 0x6b901122; 0xfd987193; 0xa679438e; 0x49b40821;
    0xf61e2562; 0xc040b340; 0x265e5a51; 0xe9b6c7aa; 0xd62f105d; 0x02441453; 0xd8a1e681; 0xe7d3fbc8;
    0x21e1cde6; 0xc33707d6; 0xf4d50d87; 0x455a14ed; 0xa9e3e905; 0xfcefa3f8; 0x676f02d9; 0x8d2a4c8a;
    0xfffa3942; 0x8771f681; 0x6d9d6122; 0xfde5380c; 0xa4beea44; 0x4bdecfa9; 0xf6bb4b60; 0xbebfbc70;
    0x289b7ec6; 0xeaa127fa; 0xd4ef3085; 0x04881d05; 0xd9d4d039; 0xe6db99e5; 0x1fa27cf8; 0xc4ac5665;
    0xf4292244; 0x432aff97; 0xab9423a7; 0xfc93a039; 0x655b59c3; 0x8f0ccc92; 0xffeff47d; 0x85845dd1;
    0x6fa87e4f; 0xfe2ce6e0; 0xa3014314; 0x4e0811a1; 0xf7537e82; 0xbd3af235; 0x2ad7d2bb; 0xeb86d391 ].

(** The per-round rotation amounts. *)
Definition R : list Z :=
  [ 7; 12; 17; 22; 7; 12; 17; 22; 7; 12; 17; 22; 7; 12; 17; 22;
    5;  9; 14; 20; 5;  9; 14; 20; 5;  9; 14; 20; 5;  9; 14; 20;
    4; 11; 16; 23; 4; 11; 16; 23; 4; 11; 16; 23; 4; 11; 16; 23;
    6; 10; 15; 21; 6; 10; 15; 21; 6; 10; 15; 21; 6; 10; 15; 21 ].

Definition state : Type := Z * Z * Z * Z.

Definition init : state := (0x67452301, 0xefcdab89, 0x98badcfe, 0x10325476).

(** One of the sixty-four operations on a block [M] of sixteen words. *)
Definition step (M : list Z) (st : state) (i : nat) : state :=
  let '(A, B, C, D) := st in
  let n := Z.of_nat i in
  let '(F, g) :=
    if n <? 16 then (Z.lor (Z.land B C) (Z.land (not32 B) D), n)
    else if n <? 32 then (Z.lor (Z.land D B) (Z.land (not32 D) C), (5 * n + 1) mod 16)
    else if n <? 48 then (Z.lxor (Z.lxor B C) D, (3 * n + 5) mod 16)
    else (Z.lxor C (Z.lor B (not32 D)), (7 * n) mod 16) in
  let F' := add32 (add32 (add32 F A) (nth i K 0)) (nth (Z.to_nat g) M 0) in
  (D, add32 B (rotl32 F' (nth i R 0)), B, C).

Definition block (M : list Z) (st : state) : state :=
  let '(a0, b0, c0, d0) := st in
  let '(A, B, C, D) := fold_left (step M) (seq 0 64) st in
  (add32 a0 A, add32 b0 B, add32 c0 C, add32 d0 D).

(** The [k] low bytes of [x], least significant first. *)
Fixpoint le_bytes (k : nat) (x : Z) : list Z :=
  match k with
  | O => []
  | S k' => x mod 256 :: le_bytes k' (x / 256)
  end.

(** Padding: a one bit, zeros up to 56 modulo 64 bytes, then the bit
    length on 64 bits. *)
Definition pad (msg : list Z) : list Z :=
  let n := Z.of_nat (length msg) in
  msg ++ [0x80] ++ repeat 0 (Z.to_nat ((55 - n) mod 64)) ++ le_bytes 8 ((8 * n) mod 2 ^ 64).

(** Little-endian 32-bit words of a byte sequence. *)
Fixpoint words (bs : list Z) : list Z :=
  match bs with
  | b0 :: b1 :: b2 :: b3 :: r => (b0 + 256 * b1 + 65536 * b2 + 16777216 * b3) :: words r
  | _ => []
  end.

Definition digest_state (msg : list Z) : state :=
  let ws := words (pad msg) in
  fold_left (fun st k => block (firstn 16 (skipn (16 * k) ws)) st)
            (seq 0 (length ws / 16)) init.

Definition hex_digit (n : Z) : ascii :=
  if n <? 10 then ascii_of_nat (48 + Z.to_nat n) else ascii_of_nat (87 + Z.to_nat n).

Definition hex_byte (b : Z) (rest : string) : string :=
  String (hex_digit (b / 16)) (String (hex_digit (b mod 16)) rest).

Definition hex_word (w : Z) (rest : string) : string :=
  fold_right hex_byte rest (le_bytes 4 w).

Definition hexdigest (msg : list Z) : string :=
  let '(a, b, c, d) := digest_state msg in
  hex_word a (hex_word b (hex_word c (hex_word d EmptyString))).

End MD5.

(** ** Effects: the wall clock and the exceptions of the library calls *)

Module Effects.
Import Time.

Inductive exn := ValueError.

(** The clock is an oracle: its [n]-th reading is [clock n], and [ticks]
    counts the readings taken so far. *)
Record world := mk_world { clock : nat -> datetime; ticks : nat }.

Inductive outcome (A : Type) :=
| Returned (a : A) (w : world)
| Raised (e : exn) (w : world).
Arguments Returned {A} a w.
Arguments Raised {A} e w.

Definition M (A : Type) : Type := world -> outcome A.

Definition ret {A} (a : A) : M A := fun w => Returned a w.

Definition bind {A B} (m : M A) (k : A -> M B) : M B := fun w =>
  match m w with
  | Returned a w' => k a w'
  | Raised e w' => Raised e w'
  end.

Definition raise {A} (e : exn) : M A := fun w => Raised e w.

(** [datetime.now()] *)
Definition now : M datetime := fun w =>
  Returned (clock w (ticks w)) (mk_world (clock w) (S (ticks w))).

(** A library call that returns or raises [ValueError]. *)
Definition or_ValueError {A} (r : option A) : M A :=
  match r with Some a => ret a | None => raise ValueError end.

Definition returned {A} (o : outcome A) : option A :=
  match o with Returned a _ => Some a | Raised _ _ => None end.

End Effects.

Notation "'let!' x ':=' m 'in' k" := (Effects.bind m (fun x => k))
  (at level 10, x name, m at level 100, k at level 200).

(** ** [models.py]: the [Alert] record *)

Module Models.
Import Text Time Effects.
Local Open Scope string_scope.

(** An [Alert] value is the object as it stands once [__init__] and
    [__post_init__] have run: [scraped_at] and [hash_id], which the
    constructor accepts as [None], hold a value from then on. *)
Record Alert := mk_Alert {
  reference : string;
  title : string;
  originator : string;
  issue_date : datetime;
  status : string;
  alert_type : string;
  source : string;
  url : string;
  medical_specialty : option string;
  scraped_at : datetime;
  hash_id : string;
  action_category : option string;
  broadcast_content : option string;
  additional_info : option string;
  action_underway_deadline : option string;
  action_complete_deadline : option string;
  attachments : option string
}.

#[global] Instance Alert_eq_dec : EqDecision Alert.
Proof. solve_decision. Defined.

(** [self.hash_id = h] *)
Definition with_hash_id (self : Alert) (h : string) : Alert :=
  mk_Alert (reference self) (title self) (originator self) (issue_date self)
    (status self) (alert_type self) (source self) (url self)
    (medical_specialty self) (scraped_at self) h
    (action_category self) (broadcast_content self) (additional_info self)
    (action_underway_deadline self) (action_complete_deadline self)
    (attachments self).

(** The text that is digested:
    [f"{reference}|{title}|{originator}|{issue_date.strftime('%Y-%m-%d')}"] *)
Definition content (reference title originator : string) (issue_date : datetime) : string :=
  reference +:+ "|" +:+ title +:+ "|" +:+ originator +:+ "|" +:+ strftime_date issue_date.

Definition generate_hash (self : Alert) : string :=
  MD5.hexdigest (encode (content (reference self) (title self) (originator self)
                                 (issue_date self))).

(** The constructor [Alert(...)]: the field assignments of the generated
    [__init__], then [__post_init__]. *)
Definition new_Alert
    (reference title originator : string) (issue_date : datetime)
    (status alert_type source url : string)
    (medical_specialty : option string)
    (scraped_at : option datetime) (hash_id : option string)
    (action_category broadcast_content additional_info
     action_underway_deadline action_complete_deadline attachments : option string)
  : M Alert :=
  let! scraped := match scraped_at with
                  | None => now
                  | Some t => ret t
                  end in
  let self :=
    mk_Alert reference title originator issue_date status alert_type source url
      medical_specialty scraped (default "" hash_id)
      action_category broadcast_content additional_info
      action_underway_deadline action_complete_deadline attachments in
  ret (match hash_id with
       | None => with_hash_id self (generate_hash self)
       | Some _ => self
       end).

(** [x or ''] on an optional text. *)
Definition or_empty (x : option string) : string :=
  match x with
  | Some s => if truthy s then s else ""
  | None => ""
  end.

(** [x or None] on the result of [dict.get]. *)
Definition or_None (x : option string) : option string :=
  match x with
  | Some s => if truthy s then Some s else None
  | None => None
  end.

(** [to_dict]: the flat row, a mapping from column name to text. *)
Definition to_dict (self : Alert) : gmap string string :=
  <[ "Reference" := reference self ]> (
  <[ "Title" := title self ]> (
  <[ "Originator" := originator self ]> (
  <[ "Issue Date" := strftime_date (issue_date self) ]> (
  <[ "Status" := status self ]> (
  <[ "Alert Type" := alert_type self ]> (
  <[ "Source" := source self ]> (
  <[ "URL" := url self ]> (
  <[ "Medical Specialty" := or_empty (medical_specialty self) ]> (
  <[ "Scraped At" := strftime_timestamp (scraped_at self) ]> (
  <[ "Hash ID" := hash_id self ]> (
  <[ "Action Category" := or_empty (action_category self) ]> (
  <[ "Broadcast Content" := or_empty (broadcast_content self) ]> (
  <[ "Additional Info" := or_empty (additional_info self) ]> (
  <[ "Action Underway Deadline" := or_empty (action_underway_deadline self) ]> (
  <[ "Action Complete Deadline" := or_empty (action_complete_deadline self) ]> (
  <[ "Attachments" := or_empty (attachments self) ]> ∅)))))))))))))))).

(** [data.get(key)] and [data.get(key, '')] *)
Definition get (data : gmap string string) (key : string) : option string :=
  data !! key.

Definition get_or_empty (data : gmap string string) (key : string) : string :=
  default "" (data !! key).

(** [from_dict].  The keyword arguments are evaluated left to right, so
    the clock is read for [issue_date] before it is read for
    [scraped_at]. *)
Definition from_dict (data : gmap string string) : M Alert :=
  let issue_date_str := get_or_empty data "Issue Date" in
  let scraped_at_str := get_or_empty data "Scraped At" in
  let! issue := (if truthy issue_date_str
                 then or_ValueError (strptime_date issue_date_str)
                 else now) in
  let! scraped := (if truthy scraped_at_str
                   then or_ValueError (strptime_timestamp scraped_at_str)
                   else now) in
  new_Alert
    (get_or_empty data "Reference")
    (get_or_empty data "Title")
    (get_or_empty data "Originator")
    issue
    (get_or_empty data "Status")
    (get_or_empty data "Alert Type")
    (get_or_empty data "Source")
    (get_or_empty data "URL")
    (or_None (get data "Medical Specialty"))
    (Some scraped)
    (get data "Hash ID")
    (or_None (get data "Action Category"))
    (or_None (get data "Broadcast Content"))
    (or_None (get data "Additional Info"))
    (or_None (get data "Action Underway Deadline"))
    (or_None (get data "Action Complete Deadline"))
    (or_None (get data "Attachments")).

End Models.

(** ** [duplicates.py]: the detector and the deduplication engine *)

Module Duplicates.
Import Text Time Models.

(** [DuplicateManager]: its only state is the threshold read from the
    settings, a [float]. *)
Record DuplicateManager := mk_DuplicateManager { duplicate_threshold : float }.

(** [settings.DUPLICATE_THRESHOLD] when the environment does not set it:
    [float('0.85')], the binary64 number nearest to 0.85. *)
Definition default_manager : DuplicateManager := mk_DuplicateManager 0x1.b333333333333p-1%float.

(** [n >= x] for an [int] and a [float].  The integer is a similarity
    score, far below [2^53], so its conversion to binary64 is exact. *)
Definition int_ge_float (n : Z) (x : float) : bool :=
  PrimFloat.leb x (PrimFloat.of_uint63 (Uint63.of_Z n)).

Record phase1_state := mk_phase1 {
  unique_alerts : list Alert;
  seen_hashes : gset string;
  seen_references : gset string
}.

Definition phase1_step (st : phase1_state) (alert : Alert) : phase1_state :=
  if truthy (reference alert) && bool_decide (reference alert ∈ seen_references st)
  then st
  else if truthy (hash_id alert) && bool_decide (hash_id alert ∈ seen_hashes st)
  then st
  else mk_phase1
         (unique_alerts st ++ [alert])
         (if truthy (hash_id alert)
          then seen_hashes st ∪ {[ hash_id alert ]} else seen_hashes st)
         (if truthy (reference alert)
          then seen_references st ∪ {[ reference alert ]} else seen_references st).

(** The first loop of [remove_duplicates]. *)
Definition phase1 (alerts : list Alert) : phase1_state :=
  fold_left phase1_step alerts (mk_phase1 [] ∅ ∅).

Section detector.

(** [fuzz.ratio] of the fuzzywuzzy package: a similarity score between
    two texts, an integer from 0 to 100. *)
Variable fuzz_ratio : string -> string -> Z.

Definition is_duplicate (self : DuplicateManager) (alert1 alert2 : Alert) : bool :=
  if truthy (reference alert1) && bool_decide (reference alert1 = reference alert2)
  then true
  else if bool_decide (source alert1 = source alert2)
          && (let title_similarity :=
                fuzz_ratio (lower (title alert1)) (lower (title alert2)) in
              int_ge_float title_similarity (duplicate_threshold self * 100)%float
              && bool_decide (date_of (issue_date alert1) = date_of (issue_date alert2)))
  then true
  else if truthy (hash_id alert1) && bool_decide (hash_id alert1 = hash_id alert2)
  then true
  else false.

(** The body of [for j in range(i + 1, len(unique_alerts))]. *)
Definition inner_step (self : DuplicateManager) (unique : list Alert)
    (current_alert : Alert) (processed_indices : gset nat) (j : nat) : gset nat :=
  if bool_decide (j ∈ processed_indices) then processed_indices
  else match unique !! j with
       | Some other_alert =>
           if is_duplicate self current_alert other_alert
           then processed_indices ∪ {[ j ]}
           else processed_indices
       | None => processed_indices   (* [j < len(unique)]: not reached *)
       end.

(** The body of [for i in range(len(unique_alerts))]; the state is
    [processed_indices] and [final_unique_alerts]. *)
Definition outer_step (self : DuplicateManager) (unique : list Alert)
    (st : gset nat * list Alert) (i : nat) : gset nat * list Alert :=
  let '(processed_indices, final_unique_alerts) := st in
  if bool_decide (i ∈ processed_indices) then st
  else match unique !! i with
       | Some current_alert =>
           (fold_left (inner_step self unique current_alert)
                      (seq (i + 1) (length unique - (i + 1))) processed_indices,
            final_unique_alerts ++ [current_alert])
       | None => st                  (* [i < len(unique)]: not reached *)
       end.

(** The second loop of [remove_duplicates]. *)
Definition phase2 (self : DuplicateManager) (unique : list Alert) : list Alert :=
  snd (fold_left (outer_step self unique) (seq 0 (length unique)) (∅, [])).

Definition remove_duplicates (self : DuplicateManager) (alerts : list Alert) : list Alert :=
  phase2 self (unique_alerts (phase1 alerts)).

End detector.

End Duplicates.

(** ** [google_sheets.py]: the selection loop of [update_with_new_alerts] *)

Module Sheets.
Import Text Models.

Record selection := mk_selection {
  existing_hashes : gset string;
  existing_references : gset string;
  alerts_to_add : list Alert
}.

(** [{alert.hash_id for alert in existing_alerts if alert.hash_id}] and
    [{alert.reference for alert in existing_alerts if alert.reference}] *)
Definition hashes_of (existing_alerts : list Alert) : gset string :=
  list_to_set (hash_id <$> filter (fun alert => Is_true (truthy (hash_id alert))) existing_alerts).

Definition references_of (existing_alerts : list Alert) : gset string :=
  list_to_set (reference <$> filter (fun alert => Is_true (truthy (reference alert))) existing_alerts).

Definition select_step (st : selection) (alert : Alert) : selection :=
  if truthy (hash_id alert) && bool_decide (hash_id alert ∈ existing_hashes st)
  then st
  else if truthy (reference alert) && bool_decide (reference alert ∈ existing_references st)
  then st
  else mk_selection
         (if truthy (hash_id alert)
          then existing_hashes st ∪ {[ hash_id alert ]} else existing_hashes st)
         (if truthy (reference alert)
          then existing_references st ∪ {[ reference alert ]} else existing_references st)
         (alerts_to_add st ++ [alert]).

(** The merge planner: from the records read back from the sheet and the
    new batch, the records that [update_with_new_alerts] goes on to
    append. *)
Definition plan_additions (existing_alerts new_alerts : list Alert) : list Alert :=
  alerts_to_add
    (fold_left select_step new_alerts
       (mk_selection (hashes_of existing_alerts) (references_of existing_alerts) [])).

End Sheets.

(** ** A reference similarity score

    [fuzz.ratio] belongs to the fuzzywuzzy package and stays a parameter of
    the detector.  To run the detector on concrete records the development
    instantiates it with the score the package computes over its
    Levenshtein backend: 100 for equal texts, 0 when one text is empty, and
    otherwise [2 * M / T] as a percentage rounded to the nearest integer
    (ties to even), where [T] is the total length and [M] the length of a
    longest common subsequence. *)

Module Fuzz.
Local Open Scope Z_scope.

(** One row of the longest-common-subsequence table: [prev] is the row of
    the shorter prefix, [diag] its entry to the left, [left] the entry
    just computed. *)
Fixpoint lcs_row (a : ascii) (t : string) (prev : list Z) (diag left : Z) : list Z :=
  match t, prev with
  | String b t', up :: prev' =>
      let v := if Ascii.eqb a b then diag + 1 else Z.max up left in
      v :: lcs_row a t' prev' up v
  | _, _ => []
  end.

Fixpoint lcs_rows (s t : string) (prev : list Z) : list Z :=
  match s with
  | EmptyString => prev
  | String a s' => lcs_rows s' t (lcs_row a t prev 0 0)
  end.

Definition lcs (s t : string) : Z :=
  List.last (lcs_rows s t (repeat 0 (String.length t))) 0.

(** [int(round(100 * n / d))], ties to even. *)
Definition round_percent (n d : Z) : Z :=
  let q := 100 * n / d in
  let r := 100 * n mod d in
  if 2 * r <? d then q
  else if d <? 2 * r then q + 1
  else if Z.even q then q else q + 1.

Definition ratio (s1 s2 : string) : Z :=
  if bool_decide (s1 = s2) then 100
  else if (String.length s1 =? 0)%nat || (String.length s2 =? 0)%nat then 0
  else round_percent (2 * lcs s1 s2)
                     (Z.of_nat (String.length s1) + Z.of_nat (String.length s2)).

End Fuzz.

(** ** [fuzz.ratio] without the Levenshtein extension

    When the [python-Levenshtein] extension is not installed, fuzzywuzzy
    warns and computes [fuzz.ratio] with [difflib.SequenceMatcher] of the
    standard library; this is that score.  [SequenceMatcher(None, a, b)]
    has no junk; its [autojunk] heuristic leaves the characters that
    stand more than [len(b) // 100 + 1] times in a [b] of 200 characters
    or more out of the index [b2j]. *)

Module Difflib.

Section matcher.

(** The characters of [b] that [__chain_b] purges as popular. *)
Variable popular : ascii -> bool.

(** One round of the outer loop of [find_longest_match]: [j2len] holds,
    for every [j], the length of the longest match that ends with the
    character before [c] in [a] and with [b[j]] (0 where the dictionary
    has no entry); [diag] is its entry for [j - 1]. *)
Fixpoint newj2len (c : ascii) (b : list ascii) (diag : nat) (j2len : list nat) : list nat :=
  match b, j2len with
  | cb :: b', k :: j2len' =>
      (if Ascii.eqb c cb && negb (popular c) then S diag else 0)
      :: newj2len c b' k j2len'
  | _, _ => []
  end.

(** [if k > bestsize: besti, bestj, bestsize = i-k+1, j-k+1, k], for the
    entries of the round in the order of [j]. *)
Fixpoint best_of_round (i j : nat) (round : list nat) (best : nat * nat * nat)
  : nat * nat * nat :=
  match round with
  | [] => best
  | k :: round' =>
      best_of_round i (S j) round'
        (if best.2 <? k then (i + 1 - k, j + 1 - k, k) else best)
  end.

Fixpoint longest (a b : list ascii) (i : nat) (j2len : list nat) (best : nat * nat * nat)
  : nat * nat * nat :=
  match a with
  | [] => best
  | c :: a' =>
      let round := newj2len c b 0 j2len in
      longest a' b (S i) round (best_of_round i 0 round best)
  end.

(** The first of the loops that extend the best match: to the left, while
    the characters before it agree. *)
Fixpoint extend_left (a b : list ascii) (besti bestj bestsize : nat) : nat * nat * nat :=
  match besti, bestj with
  | S i', S j' =>
      match a !! i', b !! j' with
      | Some ca, Some cb =>
          if Ascii.eqb ca cb then extend_left a b i' j' (S bestsize)
          else (besti, bestj, bestsize)
      | _, _ => (besti, bestj, bestsize)
      end
  | _, _ => (besti, bestj, bestsize)
  end.

(** The second: to the right, by the characters after it that agree. *)
Fixpoint agreeing (a b : list ascii) : nat :=
  match a, b with
  | ca :: a', cb :: b' => if Ascii.eqb ca cb then S (agreeing a' b') else 0
  | _, _ => 0
  end.

(** [find_longest_match(alo, ahi, blo, bhi)], on the slices [a[alo:ahi]]
    and [b[blo:bhi]], with positions counted from [alo] and [blo].  No
    character is junk, so the two loops over junk do nothing. *)
Definition find_longest_match (a b : list ascii) : nat * nat * nat :=
  let '(besti, bestj, bestsize) := longest a b 0 (repeat 0 (length b)) (0, 0, 0) in
  let '(besti, bestj, bestsize) := extend_left a b besti bestj bestsize in
  (besti, bestj,
   bestsize + agreeing (drop (besti + bestsize) a) (drop (bestj + bestsize) b)).

(** The sum of the sizes of the blocks of [get_matching_blocks]: the
    longest block of the slices, and the blocks of the slices on its left
    and on its right.  Each block takes a character of [a], so
    [length a] levels are enough. *)
Fixpoint matches (levels : nat) (a b : list ascii) : nat :=
  match levels with
  | O => 0
  | S levels' =>
      let '(i, j, k) := find_longest_match a b in
      if k =? 0 then 0
      else k
           + (if (0 <? i) && (0 <? j) then matches levels' (take i a) (take j b) else 0)
           + (if (i + k <? length a) && (j + k <? length b)
              then matches levels' (drop (i + k) a) (drop (j + k) b) else 0)
  end.

End matcher.

(** [len(idxs) > ntest], for a [b] of 200 elements and more. *)
Definition popular_in (b : list ascii) (c : ascii) : bool :=
  (200 <=? length b) && (length b / 100 + 1 <? count_occ ascii_dec b c).

Definition float_of_nat (n : nat) : float :=
  PrimFloat.of_uint63 (Uint63.of_Z (Z.of_nat n)).

(** [SequenceMatcher(None, a, b).ratio()] *)
Definition ratio (a b : string) : float :=
  let a := list_ascii_of_string a in
  let b := list_ascii_of_string b in
  let length := (length a + length b)%nat in
  if (length =? 0)%nat then 1%float
  else (2 * float_of_nat (matches (popular_in b) (List.length a) a b)
        / float_of_nat length)%float.

(** [int(round(x))] for [0 <= x <= 100]: the nearest integer, the even
    one of two that are equally near. *)
Fixpoint round_from (steps : nat) (n : Z) (x : float) : Z :=
  match steps with
  | O => n
  | S steps' =>
      let half := (PrimFloat.of_uint63 (Uint63.of_Z n) + 0.5)%float in
      if PrimFloat.ltb x half then n
      else if PrimFloat.eqb x half then (if Z.even n then n else n + 1)%Z
      else round_from steps' (n + 1)%Z x
  end.

Definition intr (x : float) : Z := round_from 100 0 x.

(** [fuzz.ratio(s1, s2)]: 100 for equal texts, 0 when one of them is
    empty, and [intr(100 * m.ratio())] otherwise. *)
Definition fuzz_ratio (s1 s2 : string) : Z :=
  if bool_decide (s1 = s2) then 100%Z
  else if (String.length s1 =? 0)%nat || (String.length s2 =? 0)%nat then 0%Z
  else intr (100 * ratio s1 s2)%float.

End Difflib.

(** ** First occurrence wins

    Both loops of [remove_duplicates] and the planner's loop have one shape:
    walk the list, and keep an element unless something kept before it
    matches it.  [pick R kept l] is the list of elements of [l] such a walk
    adds to what was [kept] already.  These notions serve to state and
    prove the properties of the loops; the loops themselves are the
    definitions above. *)

Module FirstWins.
Section first_wins.
Context {A : Type} (R : A -> A -> bool).

Definition matched (kept : list A) (y : A) : bool :=
  existsb (fun x => R x y) kept.

Fixpoint pick (kept : list A) (l : list A) : list A :=
  match l with
  | [] => []
  | y :: l' =>
      if matched kept y then pick kept l' else y :: pick (kept ++ [y]) l'
  end.

(** No element is matched by one that stands before it. *)
Definition unmatched (l : list A) : Prop :=
  StronglySorted (fun x y => R x y = false) l.

End first_wins.
End FirstWins.

(** ** Notions used in the statements *)

Module Notions.
Import Text Time Models Duplicates Sheets.

(** [x] was seen before [y] with the same non-empty reference or the same
    non-empty identity hash. *)
Definition exact_match (x y : Alert) : bool :=
  (truthy (reference y) && bool_decide (reference x = reference y))
  || (truthy (hash_id y) && bool_decide (hash_id x = hash_id y)).

(** The two tests of the loop, against the records of the sheet and the
    records accepted so far. *)
Definition already_recorded (recorded : list Alert) (alert : Alert) : bool :=
  (truthy (hash_id alert) && bool_decide (hash_id alert ∈ hashes_of recorded))
  || (truthy (reference alert) && bool_decide (reference alert ∈ references_of recorded)).

(** What [from_dict] rebuilds from [to_dict self]: the day of [issue_date]
    at midnight, [scraped_at] without its microseconds, an optional text
    that was empty as [None], every other field as it was. *)
Definition row_image (self : Alert) : Alert :=
  mk_Alert (reference self) (title self) (originator self)
    (midnight (date_of (issue_date self)))
    (status self) (alert_type self) (source self) (url self)
    (or_None (Some (or_empty (medical_specialty self))))
    (mk_datetime (date_of (scraped_at self)) (hour (scraped_at self))
       (minute (scraped_at self)) (second (scraped_at self)) 0)
    (hash_id self)
    (or_None (Some (or_empty (action_category self))))
    (or_None (Some (or_empty (broadcast_content self))))
    (or_None (Some (or_empty (additional_info self))))
    (or_None (Some (or_empty (action_underway_deadline self))))
    (or_None (Some (or_empty (action_complete_deadline self))))
    (or_None (Some (or_empty (attachments self)))).

(** The state of the outer loop of phase 2 after [k] rounds: the records
    kept are those a first-occurrence walk keeps among the first [k], and
    an index from [k] on is marked exactly when a kept record matches its
    record. *)
Definition outer_inv (dup : Alert -> Alert -> bool) (unique : list Alert) (k : nat)
    (st : gset nat * list Alert) : Prop :=
  st.2 = FirstWins.pick dup [] (take k unique)
  /\ forall j, k <= j ->
       (j ∈ st.1 <->
        exists other, unique !! j = Some other
                      /\ FirstWins.matched dup st.2 other = true).

End Notions.

(** ** Concrete records

    Records and rows on which the statements are run. *)

Module Examples.
Import Text Time Effects Models.
Local Open Scope string_scope.

(** A clock that reads 30 June 2025, 10:30 and some seconds. *)
Definition clock0 : world :=
  mk_world (fun n => mk_datetime (mk_date 2025 6 30) 10 30 (Z.of_nat n) 0) 0.

(** A record as a scraper builds it: the fields of the listing, with
    [scraped_at] and [hash_id] left to the constructor, which reads the
    clock and digests the four identity fields. *)
Definition listed (reference title originator : string) (issue_date : datetime)
    (source : string) : Alert :=
  let self :=
    mk_Alert reference title originator issue_date "Issued" "Alert" source
      "https://example.org/alert" None (clock clock0 0) ""
      None None None None None None in
  with_hash_id self (generate_hash self).

Definition on_day (y m d : Z) : datetime := midnight (mk_date y m d).

(** Two pairs of listings whose titles score 85 and 84. *)
Definition a85 : Alert := listed "" "Pump recall 2025/041" "MHRA" (on_day 2025 6 26) "CAS".
Definition b85 : Alert := listed "" "Pump recall 2025/987" "MHRA" (on_day 2025 6 26) "CAS".
Definition a84 : Alert := listed "" "Pump recall 2025/04" "MHRA" (on_day 2025 6 26) "CAS".
Definition b84 : Alert := listed "" "Pump recall 2024/98" "MHRA" (on_day 2025 6 26) "CAS".

(** Three listings of one day on GOV.UK, each under its own address.  The
    first and the second title score 85, the second and the third 90, the
    first and the third 75. *)
Definition chain_w : Alert :=
  listed "https://www.gov.uk/a" "Pump recall 2025/041" "MHRA/GOV.UK" (on_day 2025 6 26) "GOVUK".
Definition chain_x : Alert :=
  listed "https://www.gov.uk/b" "Pump recall 2025/987" "MHRA/GOV.UK" (on_day 2025 6 26) "GOVUK".
Definition chain_y : Alert :=
  listed "https://www.gov.uk/c" "Pump recall 2019/987" "MHRA/GOV.UK" (on_day 2025 6 26) "GOVUK".

(** The first pair again, one title in capitals; and the second pair under
    one reference. *)
Definition a85_caps : Alert :=
  listed "" "PUMP RECALL 2025/041" "MHRA" (on_day 2025 6 26) "CAS".
Definition a84_ref : Alert :=
  listed "NatPSA/2025/003" "Pump recall 2025/04" "MHRA" (on_day 2025 6 26) "CAS".
Definition b84_ref : Alert :=
  listed "NatPSA/2025/003" "Pump recall 2024/98" "MHRA" (on_day 2025 6 26) "CAS".

(** Two listings of one day whose titles [difflib] scores 75 in one order
    and 88 in the other. *)
Definition pump_pump : Alert :=
  listed "" "Pump pump" "MHRA" (on_day 2025 6 26) "CAS".
Definition pump_up : Alert :=
  listed "" "Pump up" "MHRA" (on_day 2025 6 26) "CAS".


(** A row whose date cell is empty, and the record [from_dict] makes of it
    at 10:30 on 30 June 2025. *)
Definition undated_row : gmap string string :=
  <[ "Reference" := "X9" ]> (<[ "Title" := "Device recall" ]> (
  <[ "Originator" := "MHRA" ]> (<[ "Issue Date" := ""%string ]> (
  <[ "Source" := "CAS" ]> (<[ "Scraped At" := "2025-06-29 08:00:00" ]> ∅))))).

(** The same row after someone typed into its timestamp cell. *)
Definition mistyped_row : gmap string string :=
  <[ "Scraped At" := "yesterday" ]> undated_row.

(** A row that holds a title and nothing else. *)
Definition bare_row : gmap string string := <[ "Title" := "Device recall" ]> ∅.

(** A row whose hash cell was emptied, and that has no reference. *)
Definition unhashed_row : gmap string string :=
  <[ "Title" := "Device recall" ]> (<[ "Issue Date" := "2025-06-26" ]> (
  <[ "Scraped At" := "2025-06-26 09:00:00" ]> (<[ "Hash ID" := "" ]> ∅))).

(** The record [from_dict] makes of it. *)
Definition unhashed : Alert :=
  mk_Alert "" "Device recall" "" (on_day 2025 6 26) "" "" "" "" None
    (mk_datetime (mk_date 2025 6 26) 9 0 0 0) "" None None None None None None.

End Examples.

(** ** [scrapers/base.py]: the text and date helpers of the scrapers *)

Module Base.
Import Text Time.
Local Open Scope string_scope.

(** [s.lstrip(chars)] and [s.rstrip(chars)], for the characters [p] holds of. *)
Fixpoint lstrip_by (p : ascii -> bool) (s : string) : string :=
  match s with
  | String c r => if p c then lstrip_by p r else s
  | EmptyString => s
  end.

Fixpoint rstrip_by (p : ascii -> bool) (s : string) : string :=
  match s with
  | String c r =>
      match rstrip_by p r with
      | EmptyString => if p c then EmptyString else String c EmptyString
      | r' => String c r'
      end
  | EmptyString => s
  end.

(** [s.strip()]: white space is removed at both ends. *)
Definition strip (s : string) : string := rstrip_by is_space (lstrip_by is_space s).

(** [s.split()]: the maximal runs of characters that are not white space. *)
Fixpoint split (s : string) : list string :=
  match s with
  | EmptyString => []
  | String c r =>
      if is_space c then split r
      else match r with
           | EmptyString => [String c EmptyString]
           | String c' _ =>
               if is_space c' then String c EmptyString :: split r
               else match split r with
                    | w :: ws => String c w :: ws
                    | [] => [String c EmptyString]    (* not reached *)
                    end
           end
  end.

(** [sep.join(words)] *)
Fixpoint join (sep : string) (words : list string) : string :=
  match words with
  | [] => ""
  | [w] => w
  | w :: ws => w +:+ sep +:+ join sep ws
  end.

Definition clean_text (text : string) : string :=
  if truthy text then strip (join " " (split text)) else "".

(** The formats the program hands to [datetime.strptime]. *)
Inductive format :=
| Fmt_d_b_Y          (* ['%d-%b-%Y'], the CAS table: 26-Jun-2025 *)
| Fmt_d_B_Y          (* ['%d %B %Y'], the GOV.UK list: 30 June 2025 *)
| Fmt_Y_m_d          (* ['%Y-%m-%d'] *)
| Fmt_Y_m_d_H_M_S.   (* ['%Y-%m-%d %H:%M:%S'] *)

(** A name of the regular expression, matched without regard to case. *)
Fixpoint ignorecase (name : string) : parser unit := fun s =>
  match name with
  | EmptyString => Some (tt, s)
  | String n name' =>
      match s with
      | String c r => if Ascii.eqb (lower_char c) n then ignorecase name' r else None
      | EmptyString => None
      end
  end.

Fixpoint one_of (names : list (string * Z)) : parser Z := fun s =>
  match names with
  | [] => None
  | (name, m) :: names' =>
      match ignorecase name s with
      | Some (_, r) => Some (m, r)
      | None => one_of names' s
      end
  end.

(** [%b] and [%B] in the C locale, the alternatives in the order of the
    compiled expression (longest first). *)
Definition parse_b : parser Z :=
  one_of [ ("jan", 1); ("feb", 2); ("mar", 3); ("apr", 4); ("may", 5); ("jun", 6);
           ("jul", 7); ("aug", 8); ("sep", 9); ("oct", 10); ("nov", 11); ("dec", 12) ]%Z.

Definition parse_B : parser Z :=
  one_of [ ("september", 9); ("february", 2); ("november", 11); ("december", 12);
           ("january", 1); ("october", 10); ("august", 8); ("march", 3);
           ("april", 4); ("june", 6); ("july", 7); ("may", 5) ]%Z.

(** [(%d)-(%b)-(%Y)] and [(%d)\s+(%B)\s+(%Y)] *)
Definition parse_d_b_Y : parser date :=
  Time.bind parse_d (fun d => Time.bind (literal dash) (fun _ =>
  Time.bind parse_b (fun m => Time.bind (literal dash) (fun _ =>
  Time.bind parse_Y (fun y => Time.ret (mk_date y m d)))))).

Definition parse_d_B_Y : parser date :=
  Time.bind parse_d (fun d => Time.bind spaces1 (fun _ =>
  Time.bind parse_B (fun m => Time.bind spaces1 (fun _ =>
  Time.bind parse_Y (fun y => Time.ret (mk_date y m d)))))).

(** [datetime.strptime(s, fmt)]; [None] stands for the [ValueError]. *)
Definition strptime (s : string) (fmt : format) : option datetime :=
  match fmt with
  | Fmt_d_b_Y => finish (Time.bind parse_d_b_Y (fun d => Time.ret (midnight d)) s)
  | Fmt_d_B_Y => finish (Time.bind parse_d_B_Y (fun d => Time.ret (midnight d)) s)
  | Fmt_Y_m_d => strptime_date s
  | Fmt_Y_m_d_H_M_S => strptime_timestamp s
  end.

(** The loop of [parse_date]: the first format that does not raise. *)
Fixpoint first_format (date_str : string) (formats : list format) : option datetime :=
  match formats with
  | [] => None
  | fmt :: formats' =>
      match strptime date_str fmt with
      | Some t => Some t
      | None => first_format date_str formats'
      end
  end.

Definition parse_date (date_str : string) (formats : list format) : option datetime :=
  if truthy date_str then first_format (strip date_str) formats else None.

Definition is_digit (c : ascii) : bool :=
  match digit_val c with Some _ => true | None => false end.

Definition is_letter (c : ascii) : bool :=
  let n := nat_of_ascii c in
  ((65 <=? n)%nat && (n <=? 90)%nat) || ((97 <=? n)%nat && (n <=? 122)%nat).

(** [date_pattern.match(s)] for [^\d{2}-[A-Za-z]{3}-\d{4}$]; the [$] also
    stands before a final line feed. *)
Definition date_pattern_match (s : string) : bool :=
  match s with
  | String d1 (String d2 (String h1 (String a1 (String a2 (String a3
      (String h2 (String y1 (String y2 (String y3 (String y4 rest)))))))))) =>
      is_digit d1 && is_digit d2 && Ascii.eqb h1 dash
      && is_letter a1 && is_letter a2 && is_letter a3 && Ascii.eqb h2 dash
      && is_digit y1 && is_digit y2 && is_digit y3 && is_digit y4
      && (bool_decide (rest = "") || bool_decide (rest = String "010"%char ""))
  | _ => false
  end.

(** The issue date of a row of the CAS table ([parse_alert_table]): the
    text is parsed only if it has the shape of the pattern. *)
Definition cas_issue_date (issue_date_str : string) : option datetime :=
  if date_pattern_match issue_date_str
  then parse_date issue_date_str [Fmt_d_b_Y]
  else None.

(** The issue date of an item of the GOV.UK list ([parse_alert_list]). *)
Definition govuk_issue_date (issue_date_str : string) : option datetime :=
  parse_date issue_date_str [Fmt_d_B_Y].

(** [re.sub(r'[^A-Za-z0-9._-]', '_', filename)] of [save_raw_data] *)
Definition safe_char (c : ascii) : bool :=
  is_letter c || is_digit c
  || Ascii.eqb c "."%char || Ascii.eqb c "_"%char || Ascii.eqb c "-"%char.

Fixpoint safe_filename (filename : string) : string :=
  match filename with
  | EmptyString => EmptyString
  | String c r => String (if safe_char c then c else "_"%char) (safe_filename r)
  end.

Definition is_slash (c : ascii) : bool := Ascii.eqb c "/"%char.

Section urls.

(** [urllib.parse.urljoin] *)
Variable urljoin : string -> string -> string.

Definition extract_alert_url (base_url relative_url : string) : string :=
  if String.prefix "http" relative_url then relative_url
  else if String.prefix "/" relative_url then urljoin base_url relative_url
  else rstrip_by is_slash base_url +:+ "/" +:+ lstrip_by is_slash relative_url.

End urls.

End Base.

(** ** [scrapers/base.py]: requests with retries *)

Module Requests.
Local Open Scope Z_scope.

Section session.
Variable Response : Type.

(** The network as the session sees it: [answer url n] is what the
    [n]-th request of the run returns when it asks for [url], [None]
    standing for a [RequestException] (no connection, a timeout, or the
    status [raise_for_status] rejects).  [sent] counts the requests and
    [slept] lists the arguments of [time.sleep], oldest first. *)
Record net := mk_net {
  answer : string -> nat -> option Response;
  sent : nat;
  slept : list Z
}.

(** [self.session.get(url, ...)] followed by [raise_for_status()] *)
Definition get (url : string) (w : net) : option Response * net :=
  (answer w url (sent w), mk_net (answer w) (S (sent w)) (slept w)).

(** [time.sleep(secs)] *)
Definition sleep (secs : Z) (w : net) : net :=
  mk_net (answer w) (sent w) (slept w ++ [secs]).

(** The recursion of [handle_request_errors]; [budget] bounds its depth
    and is not reached when it starts at [MAX_RETRIES - retries]. *)
Fixpoint retry (budget : nat) (MAX_RETRIES : Z) (url : string) (retries : Z) (w : net)
  : option Response * net :=
  match get url w with
  | (Some response, w') => (Some response, w')
  | (None, w') =>
      if retries <? MAX_RETRIES then
        match budget with
        | S budget' => retry budget' MAX_RETRIES url (retries + 1) (sleep (2 ^ retries) w')
        | O => (None, w')
        end
      else (None, w')
  end.

(** [handle_request_errors(url, retries)], for [retries >= 0] (every
    caller starts at the default 0). *)
Definition handle_request_errors (MAX_RETRIES : Z) (url : string) (retries : Z) (w : net)
  : option Response * net :=
  retry (Z.to_nat (MAX_RETRIES - retries)) MAX_RETRIES url retries w.

End session.

Arguments answer {Response} _ _ _.
Arguments sent {Response} _.
Arguments slept {Response} _.
Arguments mk_net {Response} _ _ _.
Arguments get {Response} _ _.
Arguments sleep {Response} _ _.
Arguments retry {Response} _ _ _ _ _.
Arguments handle_request_errors {Response} _ _ _ _.

End Requests.

(** ** [scrapers/cas_mhra.py], [scrapers/govuk.py]: from a page to its records

    The pages are read with BeautifulSoup.  What its look-ups return is
    taken as given: a row of the table is the text of its cells and its
    link, a detail page is the texts that the look-ups of
    [enrich_alert_with_detail] find on it.  A detail page that cannot be
    fetched or parsed is [None]: the exception is caught and the record
    is left as it was. *)

Module Scrapers.
Import Text Time Effects Models Base.
Local Open Scope string_scope.

(** [sub in s] *)
Fixpoint contains (sub s : string) : bool :=
  String.prefix sub s
  || match s with
     | EmptyString => false
     | String _ r => contains sub r
     end.

(** [s.endswith(suffix)] *)
Fixpoint endswith (suffix s : string) : bool :=
  String.eqb s suffix
  || match s with
     | EmptyString => false
     | String _ r => endswith suffix r
     end.

(** An [a] element: its text and its [href] attribute, if it has one. *)
Record anchor := mk_anchor { anchor_text : string; href : option string }.

(** [f"{text} ({href})"], and [", ".join(attachments) if attachments else ""] *)
Definition attachment (link : string * string) : string :=
  link.1 +:+ " (" +:+ link.2 +:+ ")".

Definition attachments_text (links : list (string * string)) : string :=
  join ", " (attachment <$> links).

Section site.

Variable urljoin : string -> string -> string.
Variable base_url : string.

(** [self.extract_alert_url(self.base_url, str(title_element['href']))
     if title_element and 'href' in title_element.attrs else ''] *)
Definition alert_url_of (title_element : option anchor) : string :=
  match title_element with
  | Some (mk_anchor _ (Some h)) => extract_alert_url urljoin base_url h
  | _ => ""
  end.

End site.

(** The body of the loop of [parse_alert_table] and of [parse_alert_list]:
    the record of a row is appended; a row that adds nothing, or that
    raises (it is logged), is passed over. *)
Definition collect {X : Type} (parse : X -> M (option Alert))
    (st : list Alert * world) (x : X) : list Alert * world :=
  match parse x st.2 with
  | Returned (Some alert) w' => ((st.1 ++ [alert])%list, w')
  | Returned None w' => (st.1, w')
  | Raised _ w' => (st.1, w')
  end.

End Scrapers.

(** *** [CASMHRAScraper] *)

Module CasMhra.
Import Text Time Effects Models Base Scrapers.
Local Open Scope string_scope.

(** The detail page of an alert, as [enrich_alert_with_detail] reads it:
    [get_text_by_label] (the empty text for a label that is not found),
    the text after [Broadcast content:], and text and address of the links
    of the attachments. *)
Record detail_page := mk_detail_page {
  get_text_by_label : string -> string;
  broadcast : string;
  attachment_links : list (string * string)
}.

(** A [tr] of the table: the text of its [td] cells, the link in the
    second cell, and what the page of the alert gives when it is asked
    for. *)
Record table_row := mk_table_row {
  cols : list string;
  title_element : option anchor;
  detail : option detail_page
}.

(** [enrich_alert_with_detail]: the fields are assigned on the record;
    [hash_id] is not among them. *)
Definition enrich_alert_with_detail (page : option detail_page) (alert : Alert) : Alert :=
  match page with
  | None => alert
  | Some page =>
      let originator := get_text_by_label page "Originator:" in
      mk_Alert (reference alert) (title alert)
        (if truthy originator then originator else Models.originator alert)
        (issue_date alert) (status alert) (alert_type alert) (source alert) (url alert)
        (medical_specialty alert) (scraped_at alert) (hash_id alert)
        (Some (get_text_by_label page "Action category:"))
        (Some (broadcast page))
        (Some (get_text_by_label page "Additional information:"))
        (Some (get_text_by_label page "Action underway deadline:"))
        (Some (get_text_by_label page "Action complete deadline:"))
        (Some (attachments_text (attachment_links page)))
  end.

(** The categorisation of a row by its originator. *)
Definition alert_type_of (originator : string) : string :=
  if contains "National Patient Safety Alert" originator then "National Patient Safety Alert"
  else if contains "CMO Messaging" originator then "CMO Messaging"
  else "Unknown".

Section table.

Variable urljoin : string -> string -> string.
Variable base_url : string.

(** The body of the loop of [parse_alert_table]: [None] is a row that
    adds nothing. *)
Definition parse_row (row : table_row) : M (option Alert) :=
  match cols row with
  | c0 :: c1 :: c2 :: c3 :: c4 :: _ =>
      let reference := clean_text c0 in
      let title := match title_element row with
                   | Some a => clean_text (anchor_text a)
                   | None => clean_text c1
                   end in
      let alert_url := alert_url_of urljoin base_url (title_element row) in
      let originator := clean_text c2 in
      let issue_date_str := clean_text c3 in
      let status := clean_text c4 in
      match cas_issue_date issue_date_str with
      | Some issue_date =>
          let! alert := new_Alert reference title originator issue_date status
                          (alert_type_of originator) "CAS" alert_url
                          None None None None None None None None None in
          Effects.ret (Some (if truthy alert_url
                             then enrich_alert_with_detail (detail row) alert
                             else alert))
      | None => Effects.ret None
      end
  | _ => Effects.ret None
  end.

(** [parse_alert_table]: [table] is the [tr] elements of the table of
    results, [None] when the page has no such table; the first [tr] is the
    header. *)
Definition parse_alert_table (table : option (list table_row)) (w : world)
  : list Alert * world :=
  match table with
  | None => ([], w)
  | Some rows => fold_left (collect parse_row) (tail rows) ([], w)
  end.

End table.
End CasMhra.

(** *** [GOVUKScraper] *)

Module GovUk.
Import Text Time Effects Models Base Scrapers.
Local Open Scope string_scope.

(** [re.search(r"(DMRC[-\s:]?\d+)", content_text)]: the leftmost place
    where [DMRC], at most one of a hyphen, a white space and a colon, and
    then digits stand; the match takes all the digits. *)
Fixpoint digits_of (s : string) : string :=
  match s with
  | String c r => if is_digit c then String c (digits_of r) else EmptyString
  | EmptyString => EmptyString
  end.

Definition is_separator (c : ascii) : bool :=
  Ascii.eqb c "-"%char || is_space c || Ascii.eqb c ":"%char.

Definition match_DMRC (s : string) : option string :=
  match s with
  | String "D" (String "M" (String "R" (String "C" r))) =>
      match r with
      | String c r' =>
          if is_separator c
          then (if truthy (digits_of r')
                then Some ("DMRC" +:+ String c (digits_of r')) else None)
          else (if truthy (digits_of r) then Some ("DMRC" +:+ digits_of r) else None)
      | EmptyString => None
      end
  | _ => None
  end.

Fixpoint search_DMRC (content_text : string) : option string :=
  match match_DMRC content_text with
  | Some m => Some m
  | None =>
      match content_text with
      | String _ r => search_DMRC r
      | EmptyString => None
      end
  end.

(** The detail page of an alert, as [enrich_alert_with_detail] reads it:
    the text of the first [h1] if there is one, the [datetime] attribute
    of the publication time if there is one and it is a text, the text of
    the whole page, [extract_section], and text and address of every link
    that has an address. *)
Record detail_page := mk_detail_page {
  page_title : option string;
  published : option string;
  content_text : string;
  extract_section : string -> string;
  links : list (string * string)
}.

(** An item of the list: the link of its title, the text of its [dd]
    elements, and what the page of the alert gives when it is asked for. *)
Record list_item := mk_list_item {
  title_element : option anchor;
  metadata_elements : list string;
  detail : option detail_page
}.

(** The links that are listed as attachments. *)
Definition is_attachment (link : string * string) : bool :=
  contains "download" (lower link.1) || endswith ".pdf" link.2.

(** [enrich_alert_with_detail]: the fields are assigned on the record;
    [hash_id] is not among them.  A publication time that is not a date
    leaves the issue date as it was. *)
Definition enrich_alert_with_detail (page : option detail_page) (alert : Alert) : Alert :=
  match page with
  | None => alert
  | Some page =>
      let title := match page_title page with
                   | Some t => t
                   | None => Models.title alert
                   end in
      let issue_date :=
        match published page with
        | Some dt_val =>
            if truthy dt_val then
              match strptime_date (String.substring 0 10 dt_val) with
              | Some t => t
              | None => Models.issue_date alert
              end
            else Models.issue_date alert
        | None => Models.issue_date alert
        end in
      let reference := match search_DMRC (content_text page) with
                       | Some m => m
                       | None => Models.reference alert
                       end in
      let additional_info :=
        if truthy (extract_section page "Additional information")
        then extract_section page "Additional information"
        else extract_section page "Additional Information" in
      mk_Alert reference title (originator alert) issue_date
        (status alert) (alert_type alert) (source alert) (url alert)
        (medical_specialty alert) (scraped_at alert) (hash_id alert)
        (Some (extract_section page "Advice for Healthcare Professionals"))
        (Some (extract_section page "Background"))
        (Some additional_info)
        (action_underway_deadline alert) (action_complete_deadline alert)
        (Some (attachments_text (List.filter is_attachment (links page))))
  end.

Section list.

Variable urljoin : string -> string -> string.
Variable base_url : string.

(** The body of the loop of [parse_alert_list]: [None] is an item that
    adds nothing. *)
Definition parse_item (item : list_item) : M (option Alert) :=
  let title := match title_element item with
               | Some a => clean_text (anchor_text a)
               | None => ""
               end in
  let alert_url := alert_url_of urljoin base_url (title_element item) in
  let alert_type := match metadata_elements item with
                    | m0 :: _ => clean_text m0
                    | [] => "Unknown"
                    end in
  let medical_specialty := match metadata_elements item with
                           | _ :: m1 :: _ => Some (clean_text m1)
                           | _ => None
                           end in
  let issue_date_str := match metadata_elements item with
                        | _ :: _ => clean_text (List.last (metadata_elements item) "")
                        | [] => ""
                        end in
  let issue_date := govuk_issue_date issue_date_str in
  let reference := if truthy alert_url then alert_url else title in
  if truthy title && truthy alert_url then
    match issue_date with
    | Some issue_date =>
        let! alert := new_Alert reference title "MHRA/GOV.UK" issue_date "Issued"
                        alert_type "GOVUK" alert_url medical_specialty
                        None None None None None None None None in
        Effects.ret (Some (if truthy alert_url
                           then enrich_alert_with_detail (detail item) alert
                           else alert))
    | None => Effects.ret None
    end
  else Effects.ret None.

(** [parse_alert_list]: [alert_items] is the items of the list on the
    page. *)
Definition parse_alert_list (alert_items : list list_item) (w : world)
  : list Alert * world :=
  fold_left (collect parse_item) alert_items ([], w).

End list.
End GovUk.

(** ** [processor.py] and the read side of [google_sheets.py] *)

Module Processor.
Import Text Time Effects Models Duplicates Sheets.

(** A frame of text cells: the column labels, and each row as the mapping
    [row.to_dict()] returns. *)
Record DataFrame := mk_DataFrame {
  columns : list string;
  rows : list (gmap string string)
}.

(** [df.empty]: no row, or no column. *)
Definition empty (df : DataFrame) : bool :=
  bool_decide (rows df = []) || bool_decide (columns df = []).

(** The body of the loop of [dataframe_to_alerts]: a row that
    [from_dict] rejects is logged and skipped. *)
Definition convert_row (st : list Alert * world) (row : gmap string string)
  : list Alert * world :=
  match from_dict row st.2 with
  | Returned alert w' => (st.1 ++ [alert], w')
  | Raised _ w' => (st.1, w')
  end.

Definition dataframe_to_alerts (df : DataFrame) (w : world) : list Alert * world :=
  if empty df then ([], w)
  else fold_left convert_row (rows df) ([], w).

(** [get_existing_alerts]: [None] is a worksheet that is missing or
    cannot be read. *)
Definition get_existing_alerts (sheet : option DataFrame) (w : world)
  : list Alert * world :=
  match sheet with
  | Some df => dataframe_to_alerts df w
  | None => ([], w)
  end.

Section pipeline.
Variable fuzz_ratio : string -> string -> Z.
Variable duplicate_manager : DuplicateManager.

Definition process_and_deduplicate (alerts : list Alert) : list Alert :=
  remove_duplicates fuzz_ratio duplicate_manager alerts.

(** The records a run goes on to append once the worksheet is open
    ([main] and [update_with_new_alerts]): the two scrapes deduplicated,
    then planned against what is read from the sheet. *)
Definition run_additions (sheet : option DataFrame) (cas_alerts govuk_alerts : list Alert)
    (w : world) : list Alert * world :=
  let all_alerts := process_and_deduplicate (cas_alerts ++ govuk_alerts) in
  let (existing_alerts, w') := get_existing_alerts sheet w in
  (plan_additions existing_alerts all_alerts, w').

End pipeline.
End Processor.

(** ** [scrapers/cas_mhra.py]: the pages of the table *)

Module Pages.
Import Text Base.
Local Open Scope Z_scope.

(** [s.isdigit()] *)
Fixpoint all_digits (s : string) : bool :=
  match s with
  | EmptyString => true
  | String c r => is_digit c && all_digits r
  end.

Definition isdigit (s : string) : bool := truthy s && all_digits s.

(** [int(s)] on a text of digits *)
Fixpoint int_from (acc : Z) (s : string) : Z :=
  match s with
  | EmptyString => acc
  | String c r => int_from (10 * acc + default 0 (digit_val c)) r
  end.

Definition int (s : string) : Z := int_from 0 s.

(** The links that count in [scrape]: their text is a number and is not
    the text of the current page ([None] when the pager shows none). *)
Definition is_page_link (current_page_text : option string) (link_text : string) : bool :=
  isdigit link_text && negb (bool_decide (Some link_text = current_page_text)).

(** [page_numbers] as [scrape] computes it: the numbers of those links,
    then [sorted(list(set(page_numbers)))]. *)
Definition page_numbers (link_texts : list string) (current_page_text : option string)
  : list Z :=
  let collected :=
    int <$> filter (fun t => is_page_link current_page_text t = true) link_texts in
  merge_sort Z.le (elements (list_to_set collected : gset Z)).

End Pages.

(** ** Notions for the scrapers and the sheet *)

Module TextNotions.
Import Text Time.

(** A word: not empty, and free of white space. *)
Fixpoint no_space (s : string) : bool :=
  match s with
  | EmptyString => true
  | String c r => negb (is_space c) && no_space r
  end.

Definition wordb (w : string) : bool := truthy w && no_space w.

(** A tidy text: no white space but single blanks, each between two
    characters of words.  [prev] tells that the character before was one
    of a word. *)
Fixpoint tidy_after (prev : bool) (s : string) : bool :=
  match s with
  | EmptyString => prev
  | String c r =>
      if Ascii.eqb c blank then prev && tidy_after false r
      else negb (is_space c) && tidy_after true r
  end.

Definition tidy (s : string) : bool :=
  match s with
  | EmptyString => true
  | _ => tidy_after false s
  end.

(** Every character of the text satisfies [p]. *)
Fixpoint all_chars (p : ascii -> bool) (s : string) : bool :=
  match s with
  | EmptyString => true
  | String c r => p c && all_chars p r
  end.

End TextNotions.

Module DateNotions.
Import Text Time.
Local Open Scope string_scope.

(** The names [strftime] writes for [%b] and [%B] in the C locale. *)
Definition month_abbr (m : Z) : string :=
  nth (Z.to_nat (m - 1))
    ["Jan"; "Feb"; "Mar"; "Apr"; "May"; "Jun"; "Jul"; "Aug"; "Sep"; "Oct"; "Nov"; "Dec"] "".

Definition month_name (m : Z) : string :=
  nth (Z.to_nat (m - 1))
    ["January"; "February"; "March"; "April"; "May"; "June"; "July"; "August";
     "September"; "October"; "November"; "December"] "".

(** The day of the month as [%d] prints it, or without the leading zero
    as the GOV.UK list prints it. *)
Definition day_text (padded : bool) (n : Z) (rest : string) : string :=
  if padded || negb (n <? 10)%Z then pad2 n rest else String (digit_char n) rest.

(** [26-Jun-2025], the date of a row of the CAS table: [%d-%b-%Y]. *)
Definition show_d_b_Y (padded : bool) (d : date) : string :=
  day_text padded (day d)
    (String dash (month_abbr (month d) +:+ String dash (pad4 (year d) ""))).

(** [30 June 2025], the date of an item of the GOV.UK list: [%d %B %Y]. *)
Definition show_d_B_Y (padded : bool) (d : date) : string :=
  day_text padded (day d)
    (String blank (month_name (month d) +:+ String blank (pad4 (year d) ""))).

End DateNotions.

Module RowNotions.
Import Text Time Effects Models.
Local Open Scope string_scope.

(** A row [from_dict] accepts: each of its two date cells is absent,
    empty, or text of its format. *)
Definition readable (row : gmap string string) : bool :=
  let issue_date_str := get_or_empty row "Issue Date" in
  let scraped_at_str := get_or_empty row "Scraped At" in
  (negb (truthy issue_date_str) || bool_decide (is_Some (strptime_date issue_date_str)))
  && (negb (truthy scraped_at_str)
      || bool_decide (is_Some (strptime_timestamp scraped_at_str))).

(** A row whose date cell holds text that is not a date: [from_dict]
    raises on it before anything else happens. *)
Definition bad_issue_date (row : gmap string string) : bool :=
  truthy (get_or_empty row "Issue Date")
  && bool_decide (strptime_date (get_or_empty row "Issue Date") = None).

End RowNotions.

(** ** Listings for the examples *)

Module Listings.
Import Text Time Effects Models Base Scrapers Examples.
Local Open Scope string_scope.

(** A row, or an item, with the page of its alert out of reach. *)
Definition row_listing_only (row : CasMhra.table_row) : CasMhra.table_row :=
  CasMhra.mk_table_row (CasMhra.cols row) (CasMhra.title_element row) None.


(** [urljoin] is not reached when every link is absolute. *)
Definition no_urljoin (base_url relative_url : string) : string := relative_url.

Definition CAS_MHRA_URL : string := "https://www.cas.mhra.gov.uk/SearchAlerts.aspx".
Definition GOVUK_ALERTS_URL : string := "https://www.gov.uk/drug-device-alerts".

(** A row of the CAS table, with the white space of the page. *)
Definition cas_cols : list string :=
  [ " NatPSA/2025/003/MHRA "; "Pump  recall"; "National Patient Safety Alert - MHRA";
    "26-Jun-2025"; " Issued" ].

Definition cas_link : option anchor :=
  Some (mk_anchor "Pump
   recall" (Some "https://www.cas.mhra.gov.uk/ViewAlert.aspx?AlertID=1")).

(** The page of the alert: it names the originator in full. *)
Definition cas_page : CasMhra.detail_page :=
  CasMhra.mk_detail_page
    (fun label =>
       if String.eqb label "Originator:" then "Medicines and Healthcare products Regulatory Agency"
       else if String.eqb label "Action category:" then "Immediate"
       else "")
    "Withdraw the pump from use."
    [ ("Alert letter", "https://www.cas.mhra.gov.uk/ViewAndAcknowledgment/a.pdf") ].

(** The table: its header, and the row. *)
Definition cas_table : option (list CasMhra.table_row) :=
  Some [ CasMhra.mk_table_row [] None None;
         CasMhra.mk_table_row cas_cols cas_link (Some cas_page) ].

(** The record the CAS scraper constructs from the row at [clock0], and
    the record it returns once the page of the alert has been read. *)
Definition cas_listed : Alert :=
  let self :=
    mk_Alert "NatPSA/2025/003/MHRA" "Pump recall" "National Patient Safety Alert - MHRA"
      (on_day 2025 6 26) "Issued" "National Patient Safety Alert" "CAS"
      "https://www.cas.mhra.gov.uk/ViewAlert.aspx?AlertID=1" None (clock clock0 0) ""
      None None None None None None in
  with_hash_id self (generate_hash self).

Definition cas_returned : Alert :=
  mk_Alert "NatPSA/2025/003/MHRA" "Pump recall"
    "Medicines and Healthcare products Regulatory Agency"
    (on_day 2025 6 26) "Issued" "National Patient Safety Alert" "CAS"
    "https://www.cas.mhra.gov.uk/ViewAlert.aspx?AlertID=1" None (clock clock0 0)
    (hash_id cas_listed)
    (Some "Immediate") (Some "Withdraw the pump from use.") (Some "") (Some "") (Some "")
    (Some "Alert letter (https://www.cas.mhra.gov.uk/ViewAndAcknowledgment/a.pdf)").

(** An item of the GOV.UK list, and the page of its alert: the title is
    longer there, the publication is dated a day earlier, and the text
    holds a reference number. *)
Definition govuk_link : option anchor :=
  Some (mk_anchor " Field safety notice: pump " (Some "https://www.gov.uk/drug-device-alerts/pump")).

Definition govuk_metadata : list string :=
  [ "Field safety notice"; "Anaesthetics"; "5 June 2025" ].

Definition govuk_page : GovUk.detail_page :=
  GovUk.mk_detail_page
    (Some "Field safety notice: infusion pump")
    (Some "2025-06-04T09:00:00+01:00")
    "Field safety notice: infusion pump
Reference DMRC-12345
Published 4 June 2025"
    (fun label => if String.eqb label "Background" then "A fault was found." else "")
    [ ("Download the notice", "/media/notice"); ("Home", "/") ].

Definition govuk_items : list GovUk.list_item :=
  [ GovUk.mk_list_item govuk_link govuk_metadata (Some govuk_page) ].

Definition govuk_listed : Alert :=
  let self :=
    mk_Alert "https://www.gov.uk/drug-device-alerts/pump" "Field safety notice: pump"
      "MHRA/GOV.UK" (on_day 2025 6 5) "Issued" "Field safety notice" "GOVUK"
      "https://www.gov.uk/drug-device-alerts/pump" (Some "Anaesthetics") (clock clock0 0) ""
      None None None None None None in
  with_hash_id self (generate_hash self).

Definition govuk_returned : Alert :=
  mk_Alert "DMRC-12345" "Field safety notice: infusion pump"
    "MHRA/GOV.UK" (on_day 2025 6 4) "Issued" "Field safety notice" "GOVUK"
    "https://www.gov.uk/drug-device-alerts/pump" (Some "Anaesthetics") (clock clock0 0)
    (hash_id govuk_listed)
    (Some "") (Some "A fault was found.") (Some "") None None
    (Some "Download the notice (/media/notice)").

End Listings.

(** ** Sheets for the examples *)

Module SheetExamples.
Import Text Time Effects Models Processor Examples.
Local Open Scope string_scope.

Definition headers : list string :=
  [ "Reference"; "Title"; "Originator"; "Issue Date"; "Status"; "Alert Type";
    "Source"; "URL"; "Medical Specialty"; "Scraped At"; "Hash ID" ].

(** The row of the first listing of the chain, and the same row with a
    time of day after its date, as a timestamp column shows it. *)
Definition chain_w_row : gmap string string := to_dict chain_w.

Definition stamped_row : gmap string string :=
  <[ "Issue Date" := "2025-06-26T00:00:00" ]> (to_dict chain_w).

End SheetExamples.

(* ===================================================================== *)
(** * Part II. Properties                                                 *)
(* ===================================================================== *)

(** ** Formatting and parsing of dates *)

Module TimeFacts.
Import Text Time.
Local Open Scope Z_scope.

Lemma small_cases (P : Z -> Prop) (n : nat) (lo : Z) :
  (forall k, (k < n)%nat -> P (lo + Z.of_nat k)) ->
  forall x, lo <= x < lo + Z.of_nat n -> P x.
Proof.
  intros H x Hx. replace x with (lo + Z.of_nat (Z.to_nat (x - lo))) by lia.
  apply H. lia.
Qed.

Lemma forall_below (P : nat -> Prop) (n : nat) :
  Forall P (seq 0 n) -> forall k, (k < n)%nat -> P k.
Proof.
  intros H k Hk. rewrite Forall_forall in H. apply H, elem_of_seq. lia.
Qed.

(** Discharge a statement about every [x] of an interval by running it. *)
Ltac by_cases x Hx :=
  revert x Hx;
  match goal with
  | |- forall x, ?lo <= x <= ?hi -> @?P x =>
      let n := eval compute in (Z.to_nat (hi - lo + 1)) in
      intros x Hx; apply (small_cases P n lo); [ | lia ];
      apply forall_below; repeat constructor
  end.

Lemma digit_val_digit_char k :
  0 <= k <= 9 -> digit_val (digit_char k) = Some k.
Proof. intros Hk. by_cases k Hk. Qed.

Lemma is_space_digit_char k :
  0 <= k <= 9 -> is_space (digit_char k) = false.
Proof. intros Hk. by_cases k Hk. Qed.

Lemma parse_Y_pad4 y rest :
  0 <= y <= 9999 -> parse_Y (pad4 y rest) = Some (y, rest).
Proof.
  intros Hy. unfold parse_Y, pad4, pad2.
  rewrite !digit_val_digit_char by (Z.div_mod_to_equations; lia).
  do 3 f_equal. Z.div_mod_to_equations; lia.
Qed.

Lemma parse_m_pad2 m rest :
  1 <= m <= 12 -> parse_m (pad2 m rest) = Some (m, rest).
Proof. intros Hm. by_cases m Hm. Qed.

Lemma parse_d_pad2 d rest :
  1 <= d <= 31 -> parse_d (pad2 d rest) = Some (d, rest).
Proof. intros Hd. by_cases d Hd. Qed.

Lemma parse_H_pad2 h rest :
  0 <= h <= 23 -> parse_H (pad2 h rest) = Some (h, rest).
Proof. intros Hh. by_cases h Hh. Qed.

Lemma parse_M_pad2 m rest :
  0 <= m <= 59 -> parse_M (pad2 m rest) = Some (m, rest).
Proof. intros Hm. by_cases m Hm. Qed.

Lemma parse_S_pad2 s rest :
  0 <= s <= 59 -> parse_S (pad2 s rest) = Some (s, rest).
Proof. intros Hs. by_cases s Hs. Qed.

Lemma days_in_month_le y m : days_in_month y m <= 31.
Proof. unfold days_in_month. repeat case_match; lia. Qed.

Lemma valid_dateb_bounds d :
  valid_dateb d = true ->
  1 <= year d <= 9999 /\ 1 <= month d <= 12 /\ 1 <= day d <= 31.
Proof.
  unfold valid_dateb. rewrite !andb_true_iff, !Z.leb_le.
  pose proof (days_in_month_le (year d) (month d)). lia.
Qed.

Lemma valid_datetimeb_bounds t :
  valid_datetimeb t = true ->
  valid_dateb (date_of t) = true /\
  0 <= hour t <= 23 /\ 0 <= minute t <= 59 /\ 0 <= second t <= 59.
Proof.
  unfold valid_datetimeb. rewrite !andb_true_iff, !Z.leb_le. intuition lia.
Qed.

Lemma year_text_pad4 y rest : 1000 <= y -> year_text y rest = pad4 y rest.
Proof.
  intros Hy. unfold year_text.
  by rewrite !(proj2 (Z.ltb_ge _ _)) by lia.
Qed.

Lemma parse_date_strftime d rest :
  valid_dateb d = true -> 1000 <= year d ->
  parse_date (strftime_date_into d rest) = Some (d, rest).
Proof.
  intros Hd Hmodern. destruct (valid_dateb_bounds d Hd) as (Hy & Hm & Hday).
  unfold parse_date, strftime_date_into, bind. rewrite year_text_pad4 by done.
  rewrite parse_Y_pad4 by lia. cbn [literal]. rewrite Ascii.eqb_refl.
  rewrite parse_m_pad2 by lia. cbn [literal]. rewrite Ascii.eqb_refl.
  rewrite parse_d_pad2 by lia. unfold ret. by destruct d.
Qed.

Lemma digit_val_dash : digit_val dash = None.
Proof. reflexivity. Qed.

(** The text written for a year below 1000 does not start with four
    digits, so [%Y] does not read it. *)
Lemma parse_date_strftime_early d rest :
  valid_dateb d = true -> year d < 1000 ->
  parse_date (strftime_date_into d rest) = None.
Proof.
  intros Hd Hearly. destruct (valid_dateb_bounds d Hd) as (Hy & Hm & Hday).
  unfold parse_date, strftime_date_into, bind, year_text.
  destruct (Z.ltb_spec (year d) 10); [|destruct (Z.ltb_spec (year d) 100);
    [|destruct (Z.ltb_spec (year d) 1000); [|lia]]];
    unfold parse_Y, pad2;
    rewrite ?digit_val_digit_char by (Z.div_mod_to_equations; lia);
    by rewrite digit_val_dash.
Qed.

(** Parsing undoes formatting, at the granularity of the format. *)
Lemma strptime_date_strftime t :
  valid_dateb (date_of t) = true -> 1000 <= year (date_of t) ->
  strptime_date (strftime_date t) = Some (midnight (date_of t)).
Proof.
  intros Hd Hmodern. unfold strptime_date, strftime_date, bind.
  rewrite parse_date_strftime by done. unfold ret, finish, valid_datetimeb.
  cbn [date_of midnight hour minute second microsecond]. by rewrite Hd.
Qed.

Lemma strptime_date_strftime_early t :
  valid_dateb (date_of t) = true -> year (date_of t) < 1000 ->
  strptime_date (strftime_date t) = None.
Proof.
  intros Hd Hearly. unfold strptime_date, strftime_date, bind.
  by rewrite parse_date_strftime_early.
Qed.

Lemma digit_char_inj j k :
  0 <= j <= 9 -> 0 <= k <= 9 -> digit_char j = digit_char k -> j = k.
Proof.
  intros Hj Hk E. apply (f_equal digit_val) in E.
  rewrite !digit_val_digit_char in E by done. by injection E.
Qed.

Lemma digit_char_not_dash k : 0 <= k <= 9 -> digit_char k <> dash.
Proof.
  intros Hk E. apply (f_equal digit_val) in E.
  by rewrite digit_val_digit_char in E by done.
Qed.

(** The text of a day tells the day, padded year or not. *)
Lemma strftime_date_into_inj d1 d2 :
  valid_dateb d1 = true -> valid_dateb d2 = true ->
  strftime_date_into d1 "" = strftime_date_into d2 "" -> d1 = d2.
Proof.
  intros H1 H2. destruct (valid_dateb_bounds d1 H1) as (Hy1 & Hm1 & Hd1).
  destruct (valid_dateb_bounds d2 H2) as (Hy2 & Hm2 & Hd2).
  destruct d1 as [y1 m1 dd1], d2 as [y2 m2 dd2]. cbn [year month day] in *.
  unfold strftime_date_into, year_text, pad4, pad2. cbn [year month day].
  destruct (Z.ltb_spec y1 10); [|destruct (Z.ltb_spec y1 100);
    [|destruct (Z.ltb_spec y1 1000)]];
  (destruct (Z.ltb_spec y2 10); [|destruct (Z.ltb_spec y2 100);
    [|destruct (Z.ltb_spec y2 1000)]]);
    intros E;
    repeat match goal with
           | H : String _ _ = String _ _ |- _ => injection H as ? H
           end;
    try (exfalso;
         match goal with
         | H : digit_char ?k = dash |- _ =>
             apply (digit_char_not_dash k); [Z.div_mod_to_equations; lia | exact H]
         | H : dash = digit_char ?k |- _ =>
             apply (digit_char_not_dash k); [Z.div_mod_to_equations; lia | by symmetry]
         end);
    repeat match goal with
           | H : digit_char _ = digit_char _ |- _ =>
               apply digit_char_inj in H; [|Z.div_mod_to_equations; lia..]
           end;
    f_equal; Z.div_mod_to_equations; lia.
Qed.

Lemma skip_spaces_pad2 n rest :
  0 <= n <= 99 -> skip_spaces (pad2 n rest) = pad2 n rest.
Proof.
  intros Hn. unfold pad2. cbn [skip_spaces].
  rewrite is_space_digit_char by (Z.div_mod_to_equations; lia). done.
Qed.

Lemma strptime_timestamp_strftime t :
  valid_datetimeb t = true -> 1000 <= year (date_of t) ->
  strptime_timestamp (strftime_timestamp t)
  = Some (mk_datetime (date_of t) (hour t) (minute t) (second t) 0).
Proof.
  intros Ht Hmodern. pose proof (valid_datetimeb_bounds t Ht) as (Hd & Hh & Hm & Hs).
  unfold strptime_timestamp, strftime_timestamp, bind at 1.
  rewrite parse_date_strftime by done.
  unfold parse_clock, bind, spaces1.
  replace (is_space blank) with true by reflexivity.
  rewrite skip_spaces_pad2 by lia.
  rewrite parse_H_pad2 by lia. cbn [literal]. rewrite Ascii.eqb_refl.
  rewrite parse_M_pad2 by lia. cbn [literal]. rewrite Ascii.eqb_refl.
  rewrite parse_S_pad2 by lia. unfold ret, finish.
  replace (valid_datetimeb _) with true; [done|].
  symmetry. revert Ht. unfold valid_datetimeb.
  cbn [date_of hour minute second microsecond].
  rewrite !andb_true_iff, !Z.leb_le. intuition lia.
Qed.

Lemma truthy_year_text n rest : truthy (year_text n rest) = true.
Proof. unfold year_text. by repeat case_match. Qed.

Lemma truthy_strftime_date t : truthy (strftime_date t) = true.
Proof. apply truthy_year_text. Qed.

Lemma truthy_strftime_timestamp t : truthy (strftime_timestamp t) = true.
Proof. apply truthy_year_text. Qed.

End TimeFacts.

(** ** The identity hash and the flat row *)

Module ModelsFacts.
Import Text Time Effects Models Notions Examples TimeFacts.
Local Open Scope string_scope.

Lemma truthy_nonempty s : truthy s = true <-> s <> "".
Proof. by destruct s. Qed.

(** A digest is thirty-two hexadecimal characters, so never empty. *)
Lemma hexdigest_length msg : String.length (MD5.hexdigest msg) = 32%nat.
Proof. unfold MD5.hexdigest. by destruct (MD5.digest_state msg) as [[[a b] c] d]. Qed.

Lemma truthy_hexdigest msg : truthy (MD5.hexdigest msg) = true.
Proof. unfold MD5.hexdigest. by destruct (MD5.digest_state msg) as [[[a b] c] d]. Qed.

Lemma truthy_generate_hash self : truthy (generate_hash self) = true.
Proof. apply truthy_hexdigest. Qed.

(** The digested text reads [issue_date] at the granularity of a day. *)
Lemma content_day reference title originator t1 t2 :
  date_of t1 = date_of t2 ->
  content reference title originator t1 = content reference title originator t2.
Proof. unfold content, strftime_date. by intros ->. Qed.

(** A record constructed with [hash_id] unset carries a hash, and the hash
    is not empty. *)
Lemma new_Alert_hash_nonempty
    reference title originator issue_date status alert_type source url
    medical_specialty scraped_at action_category broadcast_content
    additional_info action_underway_deadline action_complete_deadline
    attachments w a w' :
  new_Alert reference title originator issue_date status alert_type source url
    medical_specialty scraped_at None action_category broadcast_content
    additional_info action_underway_deadline action_complete_deadline
    attachments w = Returned a w' ->
  hash_id a <> "".
Proof.
  unfold new_Alert, bind. destruct scraped_at; cbn; intros [= <- _];
    apply truthy_nonempty, truthy_generate_hash.
Qed.

(** Reading back the row of a record: no clock is read, nothing is
    raised. *)
Lemma from_dict_to_dict self w :
  valid_dateb (date_of (issue_date self)) = true ->
  valid_datetimeb (scraped_at self) = true ->
  (1000 <= year (date_of (issue_date self)))%Z ->
  (1000 <= year (date_of (scraped_at self)))%Z ->
  from_dict (to_dict self) w = Returned (row_image self) w.
Proof.
  intros Hi Hs Hyi Hys. unfold from_dict, get_or_empty, get, to_dict.
  repeat first [ rewrite lookup_insert_eq | rewrite lookup_insert_ne by discriminate ].
  cbn [default from_option id]. rewrite truthy_strftime_date, truthy_strftime_timestamp.
  rewrite strptime_date_strftime, strptime_timestamp_strftime by done.
  reflexivity.
Qed.

(** [listed] is what the constructor returns at [clock0]. *)
Lemma listed_constructed reference title originator issue_date source :
  new_Alert reference title originator issue_date "Issued" "Alert" source
    "https://example.org/alert" None None None None None None None None None clock0
  = Returned (listed reference title originator issue_date source)
             (mk_world (clock clock0) 1).
Proof. reflexivity. Qed.

End ModelsFacts.

(** ** First occurrence wins: the walk and its invariants *)

Module FirstWinsFacts.
Section first_wins.
Context {A : Type} (R : A -> A -> bool).

Local Abbreviation matched := (FirstWins.matched R).
Local Abbreviation pick := (FirstWins.pick R).
Local Abbreviation unmatched := (FirstWins.unmatched R).

Lemma matched_app kept1 kept2 y :
  matched (kept1 ++ kept2) y = matched kept1 y || matched kept2 y.
Proof. apply existsb_app. Qed.

Lemma matched_snoc kept x y :
  matched (kept ++ [x]) y = matched kept y || R x y.
Proof. rewrite matched_app. cbn. by rewrite orb_false_r. Qed.

Lemma matched_false kept y :
  matched kept y = false <-> Forall (fun x => R x y = false) kept.
Proof.
  unfold FirstWins.matched. induction kept as [|x kept IH]; cbn.
  - split; [constructor | done].
  - rewrite orb_false_iff, IH. split.
    + intros [? ?]. by constructor.
    + by inversion 1.
Qed.

Lemma matched_true kept y :
  matched kept y = true <-> exists x, x ∈ kept /\ R x y = true.
Proof.
  unfold FirstWins.matched. rewrite existsb_exists. setoid_rewrite <- list_elem_of_In. done.
Qed.

Lemma pick_app kept l1 l2 :
  pick kept (l1 ++ l2) = pick kept l1 ++ pick (kept ++ pick kept l1) l2.
Proof.
  revert kept. induction l1 as [|y l1 IH]; intros kept; cbn.
  - by rewrite app_nil_r.
  - destruct (matched kept y); [apply IH|].
    cbn. rewrite IH. by rewrite <- app_assoc.
Qed.

Lemma pick_snoc kept l y :
  pick kept (l ++ [y])
  = pick kept l ++ (if matched (kept ++ pick kept l) y then [] else [y]).
Proof. rewrite pick_app. cbn. by destruct (matched _ y). Qed.

(** Whatever the walk leaves out is matched by something it kept. *)
Lemma pick_complete kept l y :
  y ∈ l -> y ∈ pick kept l \/ matched (kept ++ pick kept l) y = true.
Proof.
  revert kept. induction l as [|z l IH]; intros kept Hy; [by inversion Hy|].
  cbn. apply elem_of_cons in Hy as [->|Hy].
  - destruct (matched kept z) eqn:Hz.
    + right. by rewrite matched_app, Hz.
    + left. by left.
  - destruct (matched kept z) eqn:Hz; [by apply IH|].
    destruct (IH (kept ++ [z]) Hy) as [H|H].
    + left. by right.
    + right. by rewrite <- app_assoc in H.
Qed.

Lemma pick_nil kept l :
  Forall (fun y => matched kept y = true) l -> pick kept l = [].
Proof. induction 1 as [|y l Hy _ IH]; cbn; [done|]. by rewrite Hy. Qed.

(** The walk commutes with a change of the records that the matching
    does not see. *)
Lemma pick_fmap (f : A -> A) kept l :
  (forall x y, R (f x) (f y) = R x y) ->
  pick (f <$> kept) (f <$> l) = f <$> pick kept l.
Proof.
  intros Hf. revert kept. induction l as [|y l IH]; intros kept; cbn; [done|].
  assert (matched (f <$> kept) (f y) = matched kept y) as ->.
  { unfold FirstWins.matched. induction kept as [|x kept IHk]; cbn; [done|].
    by rewrite Hf, IHk. }
  destruct (matched kept y); [apply IH|].
  cbn. f_equal. rewrite <- IH. by rewrite fmap_app.
Qed.

Lemma pick_sublist kept l : pick kept l `sublist_of` l.
Proof.
  revert kept. induction l as [|y l IH]; intros kept; cbn; [constructor|].
  destruct (matched kept y); [apply sublist_cons | apply sublist_skip]; apply IH.
Qed.

Lemma unmatched_snoc l y :
  unmatched l -> matched l y = false -> unmatched (l ++ [y]).
Proof.
  unfold FirstWins.unmatched. intros Hl Hy. apply matched_false in Hy.
  induction Hl as [|x l Hl IH Hx]; cbn.
  - repeat constructor.
  - inversion Hy; subst. constructor; [by apply IH|].
    apply Forall_app; split; [done | by constructor].
Qed.

Lemma pick_unmatched kept l :
  unmatched kept -> unmatched (kept ++ pick kept l).
Proof.
  revert kept. induction l as [|y l IH]; intros kept Hk; cbn.
  - by rewrite app_nil_r.
  - destruct (matched kept y) eqn:Hy; [by apply IH|].
    replace (kept ++ y :: pick (kept ++ [y]) l)
      with ((kept ++ [y]) ++ pick (kept ++ [y]) l) by (by rewrite <- app_assoc).
    apply IH. by apply unmatched_snoc.
Qed.

Lemma unmatched_app_inv l1 l2 :
  unmatched (l1 ++ l2) ->
  unmatched l1 /\ unmatched l2 /\
  Forall (fun y => matched l1 y = false) l2.
Proof.
  unfold FirstWins.unmatched. induction l1 as [|x l1 IH]; cbn; intros H.
  - repeat split; [constructor | done |]. by apply Forall_forall.
  - inversion H as [|? ? Hs Hx]; subst. destruct (IH Hs) as (H1 & H2 & H3).
    apply Forall_app in Hx as [Hx1 Hx2].
    repeat split; [by constructor | done |].
    rewrite Forall_forall in *. intros y Hy. unfold FirstWins.matched in *. cbn.
    rewrite (H3 y Hy), (Hx2 y Hy). done.
Qed.

(** A list in which nothing is matched from the left is kept whole. *)
Lemma pick_fixpoint kept l :
  unmatched (kept ++ l) -> pick kept l = l.
Proof.
  revert kept. induction l as [|y l IH]; intros kept H; cbn; [done|].
  pose proof (unmatched_app_inv _ _ H) as (_ & _ & Hall).
  inversion Hall as [|? ? Hy _]; subst. rewrite Hy. f_equal.
  apply IH. by rewrite <- app_assoc.
Qed.

Lemma unmatched_sublist l1 l2 :
  l1 `sublist_of` l2 -> unmatched l2 -> unmatched l1.
Proof.
  unfold FirstWins.unmatched. intros Hsub. induction Hsub as [|x l1 l2 Hsub IH|x l1 l2 Hsub IH];
    intros H; [done| |]; inversion H as [|? ? Hs Hx]; subst; [|by apply IH].
  constructor; [by apply IH|].
  rewrite Forall_forall in *. intros y Hy. apply Hx. by eapply elem_of_sublist.
Qed.

Lemma unmatched_lookup l i j x y :
  unmatched l -> (i < j)%nat -> l !! i = Some x -> l !! j = Some y -> R x y = false.
Proof.
  intros Hl. revert i j. induction Hl as [|a l Hl IH Ha]; intros i j Hij Hi Hj.
  - by rewrite lookup_nil in Hi.
  - destruct j as [|j]; [lia|]. cbn in Hj. destruct i as [|i]; cbn in Hi.
    + injection Hi as ->. rewrite Forall_forall in Ha.
      apply Ha. by eapply list_elem_of_lookup_2.
    + eapply (IH i j); [lia | done | done].
Qed.

End first_wins.
End FirstWinsFacts.

(** ** The exact filter: phase 1 of the engine and the planner *)

Module ExactFacts.
Import Text Models Duplicates Sheets FirstWins Notions FirstWinsFacts.

Lemma elem_of_hashes_of h l :
  h ∈ hashes_of l <-> exists x, x ∈ l /\ hash_id x = h /\ truthy h = true.
Proof.
  unfold hashes_of. rewrite elem_of_list_to_set, list_elem_of_fmap.
  setoid_rewrite list_elem_of_filter. split.
  - intros (x & -> & Ht & Hx). exists x. split_and!; [done..|]. by apply Is_true_true.
  - intros (x & Hx & <- & Ht). exists x. split_and!; [done| |done]. by apply Is_true_true.
Qed.

Lemma elem_of_references_of r l :
  r ∈ references_of l <-> exists x, x ∈ l /\ reference x = r /\ truthy r = true.
Proof.
  unfold references_of. rewrite elem_of_list_to_set, list_elem_of_fmap.
  setoid_rewrite list_elem_of_filter. split.
  - intros (x & -> & Ht & Hx). exists x. split_and!; [done..|]. by apply Is_true_true.
  - intros (x & Hx & <- & Ht). exists x. split_and!; [done| |done]. by apply Is_true_true.
Qed.

Lemma hashes_of_snoc l y :
  hashes_of (l ++ [y])
  = if truthy (hash_id y) then hashes_of l ∪ {[ hash_id y ]} else hashes_of l.
Proof.
  apply set_eq. intros h. destruct (truthy (hash_id y)) eqn:Hy;
    rewrite ?elem_of_union, ?elem_of_singleton, !elem_of_hashes_of;
    setoid_rewrite elem_of_app; setoid_rewrite list_elem_of_singleton.
  - split.
    + intros (x & [Hx | ->] & <- & Ht); [left; eauto | by right].
    + intros [(x & Hx & <- & Ht) | ->]; eauto 6.
  - split.
    + intros (x & [Hx | ->] & <- & Ht); [eauto | congruence].
    + intros (x & Hx & <- & Ht); eauto 6.
Qed.

Lemma references_of_snoc l y :
  references_of (l ++ [y])
  = if truthy (reference y) then references_of l ∪ {[ reference y ]} else references_of l.
Proof.
  apply set_eq. intros h. destruct (truthy (reference y)) eqn:Hy;
    rewrite ?elem_of_union, ?elem_of_singleton, !elem_of_references_of;
    setoid_rewrite elem_of_app; setoid_rewrite list_elem_of_singleton.
  - split.
    + intros (x & [Hx | ->] & <- & Ht); [left; eauto | by right].
    + intros [(x & Hx & <- & Ht) | ->]; eauto 6.
  - split.
    + intros (x & [Hx | ->] & <- & Ht); [eauto | congruence].
    + intros (x & Hx & <- & Ht); eauto 6.
Qed.

(** The two set look-ups of the loops decide [exact_match] against
    everything kept so far. *)
Lemma matched_exact kept y :
  matched exact_match kept y
  = (truthy (reference y) && bool_decide (reference y ∈ references_of kept))
    || (truthy (hash_id y) && bool_decide (hash_id y ∈ hashes_of kept)).
Proof.
  apply eq_true_iff_eq. rewrite matched_true. unfold exact_match.
  rewrite orb_true_iff, !andb_true_iff, !bool_decide_eq_true,
    elem_of_references_of, elem_of_hashes_of.
  split.
  - intros (x & Hx & H). apply orb_true_iff in H.
    rewrite !andb_true_iff, !bool_decide_eq_true in H.
    destruct H as [[Ht He] | [Ht He]]; [left | right]; eauto 6.
  - intros [(Ht & x & Hx & He & _) | (Ht & x & Hx & He & _)];
      exists x; (split; [done|]); rewrite Ht; cbn.
    + by rewrite bool_decide_true.
    + rewrite (bool_decide_true (hash_id x = hash_id y)) by done. apply orb_true_r.
Qed.

Lemma phase1_step_pick st y :
  seen_hashes st = hashes_of (unique_alerts st) ->
  seen_references st = references_of (unique_alerts st) ->
  let st' := phase1_step st y in
  unique_alerts st' =
    unique_alerts st ++ (if matched exact_match (unique_alerts st) y then [] else [y])
  /\ seen_hashes st' = hashes_of (unique_alerts st')
  /\ seen_references st' = references_of (unique_alerts st').
Proof.
  intros Hh Hr. cbv zeta. rewrite matched_exact. unfold phase1_step. rewrite Hh, Hr.
  destruct (truthy (reference y) && _); cbn [orb].
  - by rewrite app_nil_r.
  - destruct (truthy (hash_id y) && _);
      cbn [unique_alerts seen_hashes seen_references].
    + by rewrite app_nil_r.
    + by rewrite hashes_of_snoc, references_of_snoc.
Qed.

Lemma phase1_fold l st :
  seen_hashes st = hashes_of (unique_alerts st) ->
  seen_references st = references_of (unique_alerts st) ->
  unique_alerts (fold_left phase1_step l st)
  = unique_alerts st ++ pick exact_match (unique_alerts st) l.
Proof.
  revert st. induction l as [|y l IH]; intros st Hh Hr; cbn.
  - by rewrite app_nil_r.
  - destruct (phase1_step_pick st y Hh Hr) as (Hu & Hh' & Hr').
    rewrite IH by done. rewrite Hu.
    destruct (matched exact_match (unique_alerts st) y).
    + by rewrite !app_nil_r.
    + by rewrite <- app_assoc.
Qed.

(** Phase 1 keeps the first occurrence under [exact_match]. *)
Lemma phase1_pick alerts :
  unique_alerts (phase1 alerts) = pick exact_match [] alerts.
Proof. unfold phase1. by rewrite phase1_fold. Qed.

Lemma select_step_pick known st y :
  existing_hashes st = hashes_of (known ++ alerts_to_add st) ->
  existing_references st = references_of (known ++ alerts_to_add st) ->
  let st' := select_step st y in
  alerts_to_add st' =
    alerts_to_add st
    ++ (if matched exact_match (known ++ alerts_to_add st) y then [] else [y])
  /\ existing_hashes st' = hashes_of (known ++ alerts_to_add st')
  /\ existing_references st' = references_of (known ++ alerts_to_add st').
Proof.
  intros Hh Hr. cbv zeta. rewrite matched_exact, orb_comm. unfold select_step.
  rewrite Hh, Hr.
  destruct (truthy (hash_id y) && _); cbn [orb].
  - by rewrite app_nil_r.
  - destruct (truthy (reference y) && _);
      cbn [alerts_to_add existing_hashes existing_references].
    + by rewrite app_nil_r.
    + by rewrite !app_assoc, hashes_of_snoc, references_of_snoc.
Qed.

Lemma select_fold known l st :
  existing_hashes st = hashes_of (known ++ alerts_to_add st) ->
  existing_references st = references_of (known ++ alerts_to_add st) ->
  alerts_to_add (fold_left select_step l st)
  = alerts_to_add st ++ pick exact_match (known ++ alerts_to_add st) l.
Proof.
  revert st. induction l as [|y l IH]; intros st Hh Hr; cbn.
  - by rewrite app_nil_r.
  - destruct (select_step_pick known st y Hh Hr) as (Hu & Hh' & Hr').
    rewrite IH by done. rewrite Hu.
    destruct (matched exact_match (known ++ alerts_to_add st) y).
    + by rewrite !app_nil_r.
    + by rewrite <- !app_assoc.
Qed.

(** The planner keeps the first occurrence under [exact_match], counting
    the records of the sheet as already kept. *)
Lemma plan_additions_pick known new_alerts :
  plan_additions known new_alerts = pick exact_match known new_alerts.
Proof.
  unfold plan_additions. rewrite (select_fold known); cbn; by rewrite ?app_nil_r.
Qed.

End ExactFacts.

(** ** The fuzzy filter: phase 2 of the engine *)

Module FuzzyFacts.
Import Text Models Duplicates FirstWins Notions FirstWinsFacts.

Section phase2.
Variable fuzz_ratio : string -> string -> Z.
Variable self : DuplicateManager.

Local Abbreviation dup := (is_duplicate fuzz_ratio self).

Implicit Types unique kept : list Alert.
Implicit Types processed : gset nat.

(** The inner loop marks exactly the later records the current one
    matches. *)
Lemma inner_loop unique current n a processed j :
  j ∈ fold_left (inner_step fuzz_ratio self unique current) (seq a n) processed
  <-> j ∈ processed
      \/ (a <= j < a + n
          /\ exists other, unique !! j = Some other /\ dup current other = true).
Proof.
  revert a processed. induction n as [|n IH]; intros a processed; cbn [seq fold_left].
  - split; [by left | intros [?|[? _]]; [done | lia]].
  - rewrite IH. unfold inner_step.
    destruct (bool_decide (a ∈ processed)) eqn:Ha.
    + apply bool_decide_eq_true in Ha. split.
      * intros [?|[? ?]]; [by left | right; split; [lia | done]].
      * intros [?|[? ?]]; [by left|].
        destruct (decide (j = a)) as [->|]; [by left | right; split; [lia | done]].
    + apply bool_decide_eq_false in Ha.
      destruct (unique !! a) as [other|] eqn:Hu;
        [destruct (dup current other) eqn:Hd|].
      * rewrite elem_of_union, elem_of_singleton. split.
        -- intros [[?| ->]|[? ?]]; [by left | right | right; split; [lia | done]].
           split; [lia | eauto].
        -- intros [?|[? ?]]; [by left; left|].
           destruct (decide (j = a)) as [->|]; [left; by right | right; split; [lia | done]].
      * split.
        -- intros [?|[? ?]]; [by left | right; split; [lia | done]].
        -- intros [?|[? (o & Ho & Hdo)]]; [by left|].
           destruct (decide (j = a)) as [->|]; [congruence | right; split; [lia | eauto]].
      * split.
        -- intros [?|[? ?]]; [by left | right; split; [lia | done]].
        -- intros [?|[? (o & Ho & Hdo)]]; [by left|].
           destruct (decide (j = a)) as [->|]; [congruence | right; split; [lia | eauto]].
Qed.

(** A round of the outer loop keeps the invariant. *)
Lemma outer_step_inv unique k st :
  k < length unique ->
  outer_inv dup unique k st ->
  outer_inv dup unique (S k) (outer_step fuzz_ratio self unique st k).
Proof.
  intros Hk [HF HP]. destruct st as [processed final]. cbn [fst snd] in *.
  destruct (lookup_lt_is_Some_2 unique k Hk) as [current Hc].
  unfold outer_inv. rewrite (take_S_r _ _ _ Hc), pick_snoc, <- HF, app_nil_l.
  unfold outer_step.
  destruct (bool_decide (k ∈ processed)) eqn:Hin.
  - apply bool_decide_eq_true in Hin.
    apply HP in Hin as (other & Ho & Hm); [|lia].
    assert (other = current) as -> by congruence.
    rewrite Hm, app_nil_r. split; [done|]. intros j Hj. apply HP. lia.
  - apply bool_decide_eq_false in Hin. rewrite Hc.
    destruct (matched dup final current) eqn:Hm.
    { exfalso. apply Hin, HP; [lia | eauto]. }
    cbn [fst snd]. split; [done|]. intros j Hj.
    rewrite inner_loop, HP by lia. split.
    + intros [(o & Ho & Hmo)|[_ (o & Ho & Hdo)]]; exists o; (split; [done|]);
        rewrite matched_snoc; [by rewrite Hmo | by rewrite Hdo, orb_true_r].
    + intros (o & Ho & Hmo). rewrite matched_snoc in Hmo.
      apply orb_true_iff in Hmo as [Hmo|Hdo]; [left; eauto|].
      right. split; [|eauto]. apply lookup_lt_Some in Ho. lia.
Qed.

Lemma outer_loop_inv unique k :
  k <= length unique ->
  outer_inv dup unique k (fold_left (outer_step fuzz_ratio self unique) (seq 0 k) (∅, [])).
Proof.
  induction k as [|k IH]; intros Hk.
  - split; [done|]. intros j _. cbn. split; [set_solver|]. by intros (? & _ & ?).
  - rewrite seq_S, fold_left_app. cbn [fold_left]. apply outer_step_inv; [lia|].
    apply IH. lia.
Qed.

(** Phase 2 keeps the first occurrence under [is_duplicate]. *)
Lemma phase2_pick unique :
  phase2 fuzz_ratio self unique = pick dup [] unique.
Proof.
  unfold phase2.
  destruct (outer_loop_inv unique (length unique) ltac:(done)) as [-> _].
  by rewrite firstn_all.
Qed.

End phase2.
End FuzzyFacts.

(** ** The score of [difflib] *)

Module DifflibFacts.
Import Difflib.

Section matcher.
Variable popular : ascii -> bool.

Lemma newj2len_le c b : forall diag j2len m,
  diag <= m -> Forall (fun k => k <= m) j2len ->
  Forall (fun k => k <= S m) (newj2len popular c b diag j2len).
Proof.
  induction b as [|cb b IH]; intros diag j2len m Hd Hj; cbn [newj2len]; [constructor|].
  destruct j2len as [|k j2len]; [constructor|].
  apply Forall_cons_1 in Hj as [Hk Hj]. constructor; [case_match; lia|].
  by apply IH.
Qed.

Lemma best_of_round_le i round : forall j best,
  Forall (fun k => k <= S i) round ->
  best.1.1 + best.2 <= S i ->
  (best_of_round i j round best).1.1 + (best_of_round i j round best).2 <= S i.
Proof.
  induction round as [|k round IH]; intros j best Hr Hb; cbn [best_of_round]; [done|].
  apply Forall_cons_1 in Hr as [Hk Hr]. apply IH; [done|].
  destruct (best.2 <? k); cbn [fst snd]; lia.
Qed.

Lemma longest_le a b : forall i j2len best,
  Forall (fun k => k <= i) j2len ->
  best.1.1 + best.2 <= i ->
  (longest popular a b i j2len best).1.1 + (longest popular a b i j2len best).2
  <= i + length a.
Proof.
  induction a as [|c a IH]; intros i j2len best Hj Hb; cbn [longest length]; [lia|].
  pose proof (newj2len_le c b 0 j2len i ltac:(lia) Hj) as Hround.
  specialize (IH (S i) (newj2len popular c b 0 j2len)
                (best_of_round i 0 (newj2len popular c b 0 j2len) best) Hround).
  etrans; [apply IH|lia]. apply best_of_round_le; [done | lia].
Qed.

Lemma extend_left_sum a b besti : forall bestj bestsize,
  (extend_left a b besti bestj bestsize).1.1 + (extend_left a b besti bestj bestsize).2
  = besti + bestsize.
Proof.
  induction besti as [|i IH]; intros bestj bestsize; cbn [extend_left]; [done|].
  destruct bestj as [|j]; [done|].
  destruct (a !! i) as [ca|]; [|done]. destruct (b !! j) as [cb|]; [|done].
  destruct (Ascii.eqb ca cb); [|done]. rewrite IH. lia.
Qed.

Lemma agreeing_le a : forall b, agreeing a b <= length a.
Proof.
  induction a as [|ca a IH]; intros [|cb b]; cbn [agreeing length]; try lia.
  destruct (Ascii.eqb ca cb); [|lia]. specialize (IH b). lia.
Qed.

(** The block that is found lies within [a]. *)
Lemma find_longest_match_within a b :
  (find_longest_match popular a b).1.1 + (find_longest_match popular a b).2 <= length a.
Proof.
  unfold find_longest_match.
  pose proof (longest_le a b 0 (repeat 0 (length b)) (0, 0, 0)) as Hl.
  destruct (longest popular a b 0 (repeat 0 (length b)) (0, 0, 0)) as [[i j] k].
  pose proof (extend_left_sum a b i j k) as He.
  destruct (extend_left a b i j k) as [[i' j'] k']. cbn [fst snd] in *.
  pose proof (agreeing_le (drop (i' + k') a) (drop (j' + k') b)) as Ha.
  rewrite length_drop in Ha.
  assert (i + k <= length a).
  { apply Hl; [|lia]. apply Forall_forall. intros x Hx.
    apply list_elem_of_In, repeat_spec in Hx. lia. }
  lia.
Qed.

Lemma matches_nil levels b : matches popular levels [] b = 0.
Proof. destruct levels; [done|]. cbn. by destruct b. Qed.

(** The levels are enough: more of them give the same sum. *)
Lemma matches_enough levels : forall levels' a b,
  length a <= levels -> length a <= levels' ->
  matches popular levels a b = matches popular levels' a b.
Proof.
  induction levels as [|levels IH]; intros levels' a b Hl Hl'.
  - destruct a; [|cbn in Hl; lia]. by rewrite !matches_nil.
  - destruct levels' as [|levels'].
    { destruct a; [|cbn in Hl'; lia]. by rewrite !matches_nil. }
    cbn [matches]. pose proof (find_longest_match_within a b) as Hw.
    destruct (find_longest_match popular a b) as [[i j] k]. cbn [fst snd] in Hw.
    destruct (Nat.eqb_spec k 0) as [|Hk]; [done|].
    rewrite (IH levels' (take i a) (take j b)) by (rewrite length_take; lia).
    rewrite (IH levels' (drop (i + k) a) (drop (j + k) b)) by (rewrite length_drop; lia).
    done.
Qed.

End matcher.
End DifflibFacts.

(** ** The detector *)

Module DetectorTheorems.
Import Text Time Effects Models Duplicates Examples ModelsFacts.
Local Open Scope string_scope.

Section detector.
Variable fuzz_ratio : string -> string -> Z.

(** The three rules, read off the code. *)
Lemma is_duplicate_iff self a b :
  is_duplicate fuzz_ratio self a b = true <->
    (reference a <> "" /\ reference a = reference b)
    \/ (source a = source b
        /\ int_ge_float (fuzz_ratio (lower (title a)) (lower (title b)))
             (duplicate_threshold self * 100)%float = true
        /\ date_of (issue_date a) = date_of (issue_date b))
    \/ (hash_id a <> "" /\ hash_id a = hash_id b).
Proof.
  unfold is_duplicate. rewrite <- !truthy_nonempty.
  repeat match goal with
         | |- context [bool_decide ?P] => destruct (bool_decide_reflect P)
         end;
    repeat match goal with
           | |- context [truthy ?s] => destruct (truthy s)
           | |- context [int_ge_float ?n ?x] => destruct (int_ge_float n x)
           end;
    cbn; intuition congruence.
Qed.

(** At the default threshold the cutoff is 85: the product [0.85 * 100]
    is the binary64 number 85. *)
Lemma default_cutoff :
  int_ge_float 85 (duplicate_threshold default_manager * 100)%float = true
  /\ int_ge_float 84 (duplicate_threshold default_manager * 100)%float = false.
Proof. split; reflexivity. Qed.

(** C1, amended.  [is_duplicate a b] holds exactly when the references are
    equal and not empty, or the sources are equal, the similarity of the
    lower-cased titles reaches [duplicate_threshold * 100] and the issue
    dates fall on the same day, or the identity hashes are equal and not
    empty.  With the default threshold 0.85, two records of the same source
    and day are duplicates at similarity 85; at similarity 84 the fuzzy
    rule does not apply to them, and they are duplicates exactly when an
    exact reference or hash makes them so. *)
Theorem is_duplicate_rules self a b :
  (is_duplicate fuzz_ratio self a b = true <->
     (reference a <> "" /\ reference a = reference b)
     \/ (source a = source b
         /\ int_ge_float (fuzz_ratio (lower (title a)) (lower (title b)))
              (duplicate_threshold self * 100)%float = true
         /\ date_of (issue_date a) = date_of (issue_date b))
     \/ (hash_id a <> "" /\ hash_id a = hash_id b))
  /\ (source a = source b ->
      date_of (issue_date a) = date_of (issue_date b) ->
      fuzz_ratio (lower (title a)) (lower (title b)) = 85%Z ->
      is_duplicate fuzz_ratio default_manager a b = true)
  /\ (source a = source b ->
      date_of (issue_date a) = date_of (issue_date b) ->
      fuzz_ratio (lower (title a)) (lower (title b)) = 84%Z ->
      (is_duplicate fuzz_ratio default_manager a b = true <->
         (reference a <> "" /\ reference a = reference b)
         \/ (hash_id a <> "" /\ hash_id a = hash_id b))).
Proof.
  destruct default_cutoff as [H85 H84].
  split; [apply is_duplicate_iff|]. split; intros Hs Hd Hr.
  - apply is_duplicate_iff. right; left. by rewrite Hr.
  - rewrite is_duplicate_iff, Hr, H84. intuition congruence.
Qed.

(** C9, amended.  The detector gives the same verdict in either order on
    every pair of records whose lower-cased titles the similarity score
    rates the same in either order: the left-to-right checks of the
    reference and of the hash test only the left record for emptiness, but
    equality carries that over to the right record. *)
Theorem is_duplicate_symmetric self a b :
  fuzz_ratio (lower (title a)) (lower (title b))
  = fuzz_ratio (lower (title b)) (lower (title a)) ->
  is_duplicate fuzz_ratio self a b = is_duplicate fuzz_ratio self b a.
Proof.
  intros Hsym. apply eq_true_iff_eq. rewrite !is_duplicate_iff, Hsym.
  intuition congruence.
Qed.

End detector.


(** [str.lower()] on a text with letters of both cases, digits and the
    characters next to the letters in the table. *)
Example lower_example :
  lower "AZ az @[`{ The QUICK brown fox, 2025/041" = "az az @[`{ the quick brown fox, 2025/041".
Proof. reflexivity. Qed.

(** Two records of one source and day under one reference, with titles
    that score 84: they are duplicates, by the first rule. *)
Lemma is_duplicate_84_counterexample :
  source a84_ref = source b84_ref
  /\ date_of (issue_date a84_ref) = date_of (issue_date b84_ref)
  /\ Fuzz.ratio (lower (title a84_ref)) (lower (title b84_ref)) = 84%Z
  /\ is_duplicate Fuzz.ratio default_manager a84_ref b84_ref = true.
Proof. split_and!; vm_compute; reflexivity. Qed.

(** The pairs at 85 and at 84; and a pair that is one only without regard
    to case: the titles as written score 40, in lower case 85. *)
Lemma is_duplicate_rules_witness :
  Fuzz.ratio (lower (title a85)) (lower (title b85)) = 85%Z
  /\ is_duplicate Fuzz.ratio default_manager a85 b85 = true
  /\ Fuzz.ratio (lower (title a84)) (lower (title b84)) = 84%Z
  /\ is_duplicate Fuzz.ratio default_manager a84 b84 = false
  /\ Fuzz.ratio (title a85_caps) (title b85) = 40%Z
  /\ Fuzz.ratio (lower (title a85_caps)) (lower (title b85)) = 85%Z
  /\ is_duplicate Fuzz.ratio default_manager a85_caps b85 = true.
Proof.
  split; [reflexivity|]. split.
  { apply (proj1 (proj2 (is_duplicate_rules Fuzz.ratio default_manager a85 b85)));
      reflexivity. }
  split; [reflexivity|]. split.
  { apply not_true_is_false. intros E.
    apply (proj2 (proj2 (is_duplicate_rules Fuzz.ratio default_manager a84 b84))) in E;
      [|reflexivity..].
    destruct E as [[E _]|[_ E]]; [by apply E | by vm_compute in E]. }
  split; [reflexivity|]. split; [reflexivity|].
  apply (proj1 (proj2 (is_duplicate_rules Fuzz.ratio default_manager a85_caps b85)));
    reflexivity.
Defined.

(** With the score of [difflib] the detector depends on the order of the
    two records: [pump pump] against [pump up] scores 75, [pump up]
    against [pump pump] scores 88. *)
Lemma is_duplicate_order_counterexample :
  Difflib.fuzz_ratio (lower (title pump_pump)) (lower (title pump_up)) = 75%Z
  /\ Difflib.fuzz_ratio (lower (title pump_up)) (lower (title pump_pump)) = 88%Z
  /\ is_duplicate Difflib.fuzz_ratio default_manager pump_pump pump_up = false
  /\ is_duplicate Difflib.fuzz_ratio default_manager pump_up pump_pump = true.
Proof. split_and!; vm_compute; reflexivity. Qed.

Lemma is_duplicate_symmetric_witness :
  is_duplicate Fuzz.ratio default_manager a85 b85
  = is_duplicate Fuzz.ratio default_manager b85 a85.
Proof. apply is_duplicate_symmetric. reflexivity. Defined.

End DetectorTheorems.

(** ** The record: identity hash and flat row *)

Module RecordTheorems.
Import Text Time Effects Models Notions Examples TimeFacts ModelsFacts.
Local Open Scope string_scope.



(** The hash of a listing, as [hashlib] gives it for
    [X1|Device recall|MHRA|2025-01-01]. *)
Example identity_hash_example :
  hash_id (listed "X1" "Device recall" "MHRA" (on_day 2025 1 1) "CAS")
  = "cdf0118f90b3ddc6a3c599d68002c546".
Proof. vm_compute. reflexivity. Qed.

(** The round trip resets the time of day of [issue_date]: the record read
    from [undated_row] is issued at 10:30, its row says 2025-06-30, and the
    record read back from that row is issued at midnight. *)
Example roundtrip_resets_time_of_day :
  exists a a' w w',
    from_dict undated_row clock0 = Returned a w
    /\ from_dict (to_dict a) w = Returned a' w'
    /\ issue_date a = mk_datetime (mk_date 2025 6 30) 10 30 0 0
    /\ issue_date a' = mk_datetime (mk_date 2025 6 30) 0 0 0 0
    /\ issue_date a' <> issue_date a.
Proof.
  do 4 eexists. split; [vm_compute; reflexivity|].
  split; [vm_compute; reflexivity|]. cbn. split_and!; [done..|discriminate].
Qed.




Lemma append_inj_r (s a b : string) : s +:+ a = s +:+ b -> a = b.
Proof. induction s as [|c s IH]; cbn; [done|]. intros [= H]. by apply IH. Qed.

(** The digested text determines the day. *)
Lemma content_inj_day reference title originator t1 t2 :
  valid_dateb (date_of t1) = true -> valid_dateb (date_of t2) = true ->
  content reference title originator t1 = content reference title originator t2 ->
  date_of t1 = date_of t2.
Proof.
  intros H1 H2 Hc. unfold content in Hc.
  do 6 apply append_inj_r in Hc. by apply strftime_date_into_inj.
Qed.

(** With no date the row is read, but not with an unreadable timestamp:
    [from_dict] raises [ValueError] on [mistyped_row]. *)
Lemma from_dict_missing_date_counterexample :
  mistyped_row !! "Issue Date" = Some ""
  /\ mistyped_row !! "Scraped At" = Some "yesterday"
  /\ from_dict mistyped_row clock0 = Raised ValueError (mk_world (clock clock0) 1).
Proof. split_and!; vm_compute; reflexivity. Qed.

(** C10, amended.  When the row has no issue date, or an empty one,
    [from_dict] takes the clock's reading as [issue_date], and it raises
    only if the row's timestamp is a text that [strptime] rejects: with the
    timestamp absent or empty it returns and takes the next reading as
    [scraped_at], with a readable one it returns with that timestamp.  If
    the row has no hash either, the hash of the record digests the day of
    the reading, so readings on different days digest different texts. *)
Theorem from_dict_missing_issue_date data w :
  data !! "Issue Date" = None \/ data !! "Issue Date" = Some "" ->
  let t0 := clock w (ticks w) in
  let scraped_at_str := get_or_empty data "Scraped At" in
  let digested t :=
    content (get_or_empty data "Reference") (get_or_empty data "Title")
            (get_or_empty data "Originator") t in
  (scraped_at_str = "" ->
     exists self w', from_dict data w = Returned self w'
       /\ issue_date self = t0
       /\ scraped_at self = clock w (S (ticks w))
       /\ (data !! "Hash ID" = None ->
           hash_id self = MD5.hexdigest (encode (digested t0))))
  /\ (forall t, scraped_at_str <> "" -> strptime_timestamp scraped_at_str = Some t ->
     exists self w', from_dict data w = Returned self w'
       /\ issue_date self = t0
       /\ scraped_at self = t
       /\ (data !! "Hash ID" = None ->
           hash_id self = MD5.hexdigest (encode (digested t0))))
  /\ (scraped_at_str <> "" -> strptime_timestamp scraped_at_str = None ->
     exists w', from_dict data w = Raised ValueError w')
  /\ (forall t1 t2, valid_dateb (date_of t1) = true -> valid_dateb (date_of t2) = true ->
     date_of t1 <> date_of t2 -> digested t1 <> digested t2).
Proof.
  intros Hdate t0 scraped_at_str digested.
  assert (get_or_empty data "Issue Date" = "") as Hi
    by (unfold get_or_empty; by destruct Hdate as [-> | ->]).
  subst scraped_at_str. unfold from_dict, get. rewrite Hi. cbn [truthy].
  split_and!.
  - intros ->. destruct (data !! "Hash ID") as [h|];
      do 2 eexists; (split; [reflexivity|]); by cbn.
  - intros t Hne Ht. apply truthy_nonempty in Hne.
    unfold bind, now. rewrite Hne, Ht.
    destruct (data !! "Hash ID") as [h|];
      do 2 eexists; (split; [reflexivity|]); by cbn.
  - intros Hne Ht. apply truthy_nonempty in Hne.
    unfold bind, now. rewrite Hne, Ht. by eexists.
  - intros t1 t2 H1 H2 Hd Hc. by apply Hd, (content_inj_day _ _ _ _ _ H1 H2 Hc).
Qed.

Lemma from_dict_missing_issue_date_witness :
  exists self w',
    from_dict bare_row clock0 = Returned self w'
    /\ issue_date self = mk_datetime (mk_date 2025 6 30) 10 30 0 0
    /\ scraped_at self = mk_datetime (mk_date 2025 6 30) 10 30 1 0
    /\ (bare_row !! "Hash ID" = None ->
        hash_id self
        = MD5.hexdigest (encode (content "" "Device recall" ""
                                   (mk_datetime (mk_date 2025 6 30) 10 30 0 0)))).
Proof.
  apply (proj1 (from_dict_missing_issue_date bare_row clock0 (or_introl eq_refl))).
  reflexivity.
Defined.

(** The same bare row read a day apart gives two different hashes. *)
Example bare_row_hash_drifts :
  hash_id <$> returned (from_dict bare_row clock0)
  = Some "07bafd500228cde9c66121dbda05133f"
  /\ hash_id <$> returned
        (from_dict bare_row (mk_world (fun _ => mk_datetime (mk_date 2025 7 1) 10 30 0 0) 0))
     = Some "de3442ac1ac4f3641fd5c0097bfb8a0f".
Proof. split; vm_compute; reflexivity. Qed.

End RecordTheorems.

(** ** The deduplication engine *)

Module EngineTheorems.
Import Text Time Effects Models Duplicates FirstWins Notions Examples FirstWinsFacts ExactFacts FuzzyFacts.

Section engine.
Variable fuzz_ratio : string -> string -> Z.
Variable self : DuplicateManager.

Local Abbreviation dup := (is_duplicate fuzz_ratio self).

(** The engine is two first-occurrence walks, one after the other. *)
Lemma remove_duplicates_pick alerts :
  remove_duplicates fuzz_ratio self alerts
  = pick dup [] (pick exact_match [] alerts).
Proof. unfold remove_duplicates. by rewrite phase2_pick, phase1_pick. Qed.

(** C3, amended.  In the output no record is matched by one that stands
    before it.  A record that survives the exact filter is dropped by the
    fuzzy filter exactly when one of the records retained before it
    matches it: the records retained from [before] are [phase2 before],
    and [y] follows them in the output unless one of them matches it.
    Records already removed take no part. *)
Theorem remove_duplicates_first_wins alerts :
  (forall i j x y,
     i < j ->
     remove_duplicates fuzz_ratio self alerts !! i = Some x ->
     remove_duplicates fuzz_ratio self alerts !! j = Some y ->
     is_duplicate fuzz_ratio self x y = false)
  /\ (forall before y after,
       unique_alerts (phase1 alerts) = before ++ y :: after ->
       exists rest,
         remove_duplicates fuzz_ratio self alerts
         = phase2 fuzz_ratio self before
           ++ (if existsb (fun x => is_duplicate fuzz_ratio self x y)
                          (phase2 fuzz_ratio self before)
               then [] else [y])
           ++ rest).
Proof.
  split.
  - intros i j x y Hij Hi Hj. eapply unmatched_lookup; [|done..].
    rewrite remove_duplicates_pick. apply (pick_unmatched dup [] _). constructor.
  - intros before y after Hu. unfold remove_duplicates. rewrite Hu, !phase2_pick.
    rewrite pick_app. cbn [pick app]. fold (matched dup (pick dup [] before) y).
    destruct (matched dup (pick dup [] before) y); eauto.
Qed.


(** C5.  Running the engine on its own output changes nothing. *)
Theorem remove_duplicates_idempotent alerts :
  remove_duplicates fuzz_ratio self (remove_duplicates fuzz_ratio self alerts)
  = remove_duplicates fuzz_ratio self alerts.
Proof.
  rewrite (remove_duplicates_pick (remove_duplicates _ _ _)).
  assert (unmatched exact_match (remove_duplicates fuzz_ratio self alerts)) as He.
  { rewrite remove_duplicates_pick.
    eapply unmatched_sublist; [apply pick_sublist|].
    apply (pick_unmatched exact_match [] alerts). constructor. }
  assert (unmatched dup (remove_duplicates fuzz_ratio self alerts)) as Hd.
  { rewrite remove_duplicates_pick. apply (pick_unmatched dup [] _). constructor. }
  rewrite (pick_fixpoint exact_match []) by done.
  by rewrite (pick_fixpoint dup []).
Qed.

End engine.


(** The second and the third record match, yet it is the third, the one
    with the higher index, that the engine retains: the second was removed
    by the first and is not compared with anything after that. *)
Lemma remove_duplicates_chain_counterexample :
  is_duplicate Fuzz.ratio default_manager chain_x chain_y = true
  /\ ([chain_w; chain_x; chain_y] !! 1) = Some chain_x
  /\ ([chain_w; chain_x; chain_y] !! 2) = Some chain_y
  /\ remove_duplicates Fuzz.ratio default_manager [chain_w; chain_x; chain_y]
     = [chain_w; chain_y]
  /\ (chain_x ∉ [chain_w; chain_y])
  /\ (chain_y ∈ [chain_w; chain_y]).
Proof.
  split_and!; [by vm_compute..| |].
  - rewrite !not_elem_of_cons. split_and!; [by vm_compute..|]. apply not_elem_of_nil.
  - set_solver.
Qed.

Lemma remove_duplicates_first_wins_witness :
  is_duplicate Fuzz.ratio default_manager chain_w chain_y = false
  /\ exists rest,
       remove_duplicates Fuzz.ratio default_manager [chain_w; chain_x; chain_y]
       = phase2 Fuzz.ratio default_manager [chain_w]
         ++ (if existsb (fun x => is_duplicate Fuzz.ratio default_manager x chain_x)
                        (phase2 Fuzz.ratio default_manager [chain_w])
             then [] else [chain_x])
         ++ rest.
Proof.
  pose proof (remove_duplicates_first_wins Fuzz.ratio default_manager
                [chain_w; chain_x; chain_y]) as [Hpair Hdrop].
  split.
  - apply (Hpair 0 1); [lia | by vm_compute..].
  - apply (Hdrop [chain_w] chain_x [chain_y]). by vm_compute.
Defined.

End EngineTheorems.

(** ** The merge planner *)

Module PlannerTheorems.
Import Text Time Effects Models Duplicates Sheets FirstWins Notions Examples FirstWinsFacts ExactFacts.


Lemma matched_already_recorded recorded alert :
  matched exact_match recorded alert = already_recorded recorded alert.
Proof. rewrite matched_exact. apply orb_comm. Qed.

Lemma exact_match_fields x y :
  exact_match x y = true <->
    (hash_id y <> ""%string /\ hash_id x = hash_id y)
    \/ (reference y <> ""%string /\ reference x = reference y).
Proof.
  unfold exact_match.
  rewrite orb_true_iff, !andb_true_iff, !bool_decide_eq_true.
  assert (forall s, truthy s = true <-> s <> ""%string) as Ht by (by intros []).
  rewrite !Ht. tauto.
Qed.

(** C6.  The planner walks the candidates in order and accepts a candidate
    exactly when its hash, if not empty, is not among the hashes, and its
    reference, if not empty, is not among the references, of the records
    of the sheet and of the candidates accepted before it.  What it
    accepts is a subsequence of the candidates.  Nothing but hash and
    reference enters: changing any other field of the records changes the
    plan in the same way. *)
Theorem plan_additions_exact existing_alerts :
  plan_additions existing_alerts [] = []
  /\ (forall earlier alert,
       plan_additions existing_alerts (earlier ++ [alert])
       = plan_additions existing_alerts earlier
         ++ (if already_recorded
                  (existing_alerts ++ plan_additions existing_alerts earlier) alert
             then [] else [alert]))
  /\ (forall new_alerts,
       plan_additions existing_alerts new_alerts `sublist_of` new_alerts)
  /\ (forall (f : Alert -> Alert) new_alerts,
       (forall a, hash_id (f a) = hash_id a /\ reference (f a) = reference a) ->
       plan_additions (f <$> existing_alerts) (f <$> new_alerts)
       = f <$> plan_additions existing_alerts new_alerts).
Proof.
  split_and!.
  - done.
  - intros earlier alert. rewrite !plan_additions_pick, pick_snoc.
    by rewrite matched_already_recorded.
  - intros new_alerts. rewrite plan_additions_pick. apply pick_sublist.
  - intros f new_alerts Hf. rewrite !plan_additions_pick. apply pick_fmap.
    intros x y. unfold exact_match.
    destruct (Hf x) as [-> ->], (Hf y) as [-> ->]. done.
Qed.


(** A record with neither hash nor reference is accepted on every run. *)
Lemma plan_additions_rerun_counterexample :
  returned (from_dict unhashed_row clock0) = Some unhashed
  /\ plan_additions [] [unhashed] = [unhashed]
  /\ plan_additions ([] ++ plan_additions [] [unhashed]) [unhashed] = [unhashed].
Proof. split_and!; by vm_compute. Qed.

(** C7, amended.  When every candidate has a hash or a reference that is
    not empty, planning the same candidates again, against the sheet
    extended by what the first plan accepted, accepts nothing.  Against an
    empty sheet the plan is what the exact filter of the engine keeps: a
    candidate is left out only when a candidate accepted from the batch has
    its hash or its reference, and a batch without such pairs is accepted
    whole. *)
Theorem plan_additions_idempotent existing_alerts new_alerts :
  Forall (fun a => hash_id a <> ""%string \/ reference a <> ""%string) new_alerts ->
  plan_additions (existing_alerts ++ plan_additions existing_alerts new_alerts) new_alerts
  = []
  /\ plan_additions [] new_alerts = unique_alerts (phase1 new_alerts)
  /\ (forall a, a ∈ new_alerts -> a ∉ plan_additions [] new_alerts ->
      exists a', a' ∈ plan_additions [] new_alerts
        /\ ((hash_id a <> ""%string /\ hash_id a' = hash_id a)
            \/ (reference a <> ""%string /\ reference a' = reference a)))
  /\ (unmatched exact_match new_alerts -> plan_additions [] new_alerts = new_alerts).
Proof.
  intros Hid. split_and!.
  - rewrite !plan_additions_pick. apply pick_nil.
    rewrite Forall_forall in *. intros y Hy.
    destruct (pick_complete exact_match existing_alerts new_alerts y Hy) as [Hin|Hm];
      [|done].
    apply matched_true. exists y. split; [set_solver|].
    apply exact_match_fields. destruct (Hid y Hy); [left | right]; done.
  - by rewrite plan_additions_pick, phase1_pick.
  - intros a Ha Hout. rewrite plan_additions_pick in *.
    destruct (pick_complete exact_match [] new_alerts a Ha) as [Hin|Hm]; [done|].
    apply matched_true in Hm as (a' & Ha' & Hm). exists a'. split; [done|].
    by apply exact_match_fields.
  - intros Hu. rewrite plan_additions_pick. by apply pick_fixpoint.
Qed.

Lemma plan_additions_idempotent_witness :
  plan_additions ([chain_w] ++ plan_additions [chain_w] [chain_w; chain_x; chain_x; chain_y])
                 [chain_w; chain_x; chain_x; chain_y]
  = []
  /\ plan_additions [chain_w] [chain_w; chain_x; chain_x; chain_y] = [chain_x; chain_y].
Proof.
  split; [|by vm_compute].
  apply (plan_additions_idempotent [chain_w] [chain_w; chain_x; chain_x; chain_y]).
  repeat (constructor; [left; by vm_compute|]). constructor.
Defined.

End PlannerTheorems.

(** ** The pipeline on concrete batches *)

Module Scenarios.
Import Text Time Effects Models Duplicates Sheets Examples ModelsFacts.
Local Open Scope string_scope.

(** The digest on the test suite of RFC 1321. *)
Example md5_empty : MD5.hexdigest (encode "") = "d41d8cd98f00b204e9800998ecf8427e".
Proof. by vm_compute. Qed.

Example md5_abc : MD5.hexdigest (encode "abc") = "900150983cd24fb0d6963f7d28e17f72".
Proof. by vm_compute. Qed.

Example md5_message_digest :
  MD5.hexdigest (encode "message digest") = "f96b697d7cb7938d525a2f31aaf161d0".
Proof. by vm_compute. Qed.

(** What [strptime] takes and what it refuses. *)
Example strptime_short_fields :
  strptime_date "2025-1-3" = Some (on_day 2025 1 3).
Proof. reflexivity. Qed.

Example strptime_left_over : strptime_date "2025-01-311" = None.
Proof. reflexivity. Qed.

Example strptime_no_such_day : strptime_date "2025-02-30" = None.
Proof. reflexivity. Qed.

Example strptime_hour_24 : strptime_timestamp "2025-01-01 24:00:00" = None.
Proof. reflexivity. Qed.

Example strptime_wide_gap :
  strptime_timestamp "2025-01-01  10:00:00"
  = Some (mk_datetime (mk_date 2025 1 1) 10 0 0 0).
Proof. reflexivity. Qed.

(** Equal references that are not empty make two records duplicates,
    whatever their titles. *)
Lemma reference_precedence fuzz_ratio self a b :
  reference a <> "" -> reference a = reference b ->
  is_duplicate fuzz_ratio self a b = true.
Proof.
  intros Hne Heq. unfold is_duplicate.
  apply truthy_nonempty in Hne. by rewrite Hne, bool_decide_true.
Qed.

(** One reference under two titles: the batch is reduced to the first
    record, and with an empty sheet that record is planned. *)
Example same_reference_kept_once :
  let A := listed "X1" "Device recall" "MHRA" (on_day 2025 1 1) "CAS" in
  let B := listed "X1" "Device recall - urgent" "MHRA" (on_day 2025 1 1) "CAS" in
  plan_additions [] (remove_duplicates Fuzz.ratio default_manager [A; B]) = [A].
Proof. by vm_compute. Qed.

(** A record whose four identity fields reproduce a hash of the sheet is
    not planned, even under another reference-free listing. *)
Example known_hash_not_planned :
  let known := listed "" "Device recall" "MHRA" (on_day 2025 1 1) "CAS" in
  let fresh := listed "" "Device recall" "MHRA"
                 (mk_datetime (mk_date 2025 1 1) 16 20 0 0) "GOVUK" in
  hash_id fresh = hash_id known /\ plan_additions [known] [fresh] = [].
Proof. split; by vm_compute. Qed.

(** Titles one character apart, same source, same day: the fuzzy rule
    applies, with a score of 98. *)
Example one_character_apart :
  let a := listed "" "Insulin pump battery fault" "MHRA/GOV.UK" (on_day 2025 6 26) "GOVUK" in
  let b := listed "" "Insulin pump battery faults" "MHRA/GOV.UK" (on_day 2025 6 26) "GOVUK" in
  Fuzz.ratio (lower (title a)) (lower (title b)) = 98%Z
  /\ is_duplicate Fuzz.ratio default_manager a b = true
  /\ remove_duplicates Fuzz.ratio default_manager [a; b] = [a].
Proof. split_and!; by vm_compute. Qed.

(** The planner does not look at titles: a near-duplicate of a record of
    the sheet, under another reference, is planned. *)
Example planner_is_exact :
  plan_additions [chain_w] [chain_x] = [chain_x]
  /\ is_duplicate Fuzz.ratio default_manager chain_w chain_x = true.
Proof. split; by vm_compute. Qed.

End Scenarios.

(* ===================================================================== *)
(** * Part III. The scrapers, the sheet and the run                       *)
(* ===================================================================== *)

(** ** [clean_text]: the words of a text *)

Module CleanTextFacts.
Import Text Time Base Notions TextNotions.
Local Open Scope string_scope.

Lemma wordb_inv w :
  wordb w = true ->
  exists c w', w = String c w' /\ is_space c = false /\ no_space w' = true.
Proof.
  destruct w as [|c w']; [done|]. unfold wordb. cbn.
  destruct (is_space c) eqn:Hc; [done|]. eauto.
Qed.

Lemma append_cons c u v : String c u +:+ v = String c (u +:+ v).
Proof. done. Qed.

Lemma append_empty_l v : "" +:+ v = v.
Proof. done. Qed.

Lemma append_assoc u v w : (u +:+ v) +:+ w = u +:+ (v +:+ w).
Proof. induction u as [|c u IH]; [done|]. by rewrite !append_cons, IH. Qed.

Lemma split_eq s :
  split s =
  match s with
  | EmptyString => []
  | String c r =>
      if is_space c then split r
      else match r with
           | EmptyString => [String c EmptyString]
           | String c' _ =>
               if is_space c' then String c EmptyString :: split r
               else match split r with
                    | w :: ws => String c w :: ws
                    | [] => [String c EmptyString]
                    end
           end
  end.
Proof. by destruct s. Qed.

(** A word put before the end, or before white space, is the first word. *)
Lemma split_word_app w r :
  wordb w = true ->
  (r = "" \/ exists c r', r = String c r' /\ is_space c = true) ->
  split (w +:+ r) = w :: split r.
Proof.
  intros Hw Hr. apply wordb_inv in Hw as (c & w' & -> & Hc & Hw').
  revert c Hc. induction w' as [|c2 w'' IH]; intros c Hc;
    rewrite ?append_cons, ?append_empty_l; rewrite split_eq, Hc.
  - destruct Hr as [-> | (c' & r' & -> & Hc')]; [done|]. by rewrite Hc'.
  - cbn [no_space] in Hw'. destruct (is_space c2) eqn:Hc2; [done|].
    specialize (IH Hw' c2 Hc2). rewrite append_cons in IH. by rewrite IH.
Qed.

Lemma split_words s : Forall (fun w => wordb w = true) (split s).
Proof.
  induction s as [|c r IH]; rewrite split_eq; [constructor|].
  destruct (is_space c) eqn:Hc; [done|].
  destruct r as [|c' r']; [by repeat constructor; unfold wordb; cbn; rewrite Hc|].
  destruct (is_space c') eqn:Hc'.
  - constructor; [|done]. unfold wordb. cbn. by rewrite Hc.
  - destruct (split (String c' r')) as [|w ws]; [by repeat constructor; unfold wordb; cbn; rewrite Hc|].
    inversion IH as [|? ? Hw Hws]; subst. constructor; [|done].
    unfold wordb in *. cbn. rewrite Hc. cbn.
    apply andb_true_iff in Hw as [_ Hw]. done.
Qed.

Lemma join_cons sep w ws :
  join sep (w :: ws) = match ws with [] => w | _ => w +:+ sep +:+ join sep ws end.
Proof. done. Qed.

Lemma append_empty_r s : s +:+ "" = s.
Proof. induction s as [|c s IH]; [done|]. by rewrite append_cons, IH. Qed.

(** Splitting undoes joining by single blanks. *)
Lemma split_join ws :
  Forall (fun w => wordb w = true) ws -> split (join " " ws) = ws.
Proof.
  induction 1 as [|w ws Hw Hws IH]; [done|].
  rewrite join_cons. destruct ws as [|w2 ws].
  - rewrite <- (append_empty_r w) at 1. rewrite split_word_app; [done..|by left].
  - rewrite split_word_app; [|done|right; by eexists _, _].
    f_equal. rewrite append_cons, append_empty_l, split_eq.
    replace (is_space " ") with true by done. exact IH.
Qed.

Lemma lstrip_word w r :
  wordb w = true -> lstrip_by is_space (w +:+ r) = w +:+ r.
Proof.
  intros (c & w' & -> & Hc & _)%wordb_inv. rewrite append_cons.
  cbn [lstrip_by]. by rewrite Hc.
Qed.

Lemma rstrip_by_eq p s :
  rstrip_by p s =
  match s with
  | String c r =>
      match rstrip_by p r with
      | EmptyString => if p c then EmptyString else String c EmptyString
      | r' => String c r'
      end
  | EmptyString => s
  end.
Proof. by destruct s. Qed.

Lemma rstrip_no_space_nonempty w :
  wordb w = true -> rstrip_by is_space w = w.
Proof.
  intros (c & w' & -> & Hc & Hw')%wordb_inv. revert c Hc.
  induction w' as [|c2 w'' IH]; intros c Hc; rewrite rstrip_by_eq.
  - cbn [rstrip_by]. by rewrite Hc.
  - cbn [no_space] in Hw'. destruct (is_space c2) eqn:Hc2; [done|].
    specialize (IH Hw' c2 Hc2). by rewrite IH.
Qed.

Lemma rstrip_app_nonempty p u v :
  rstrip_by p v <> "" ->
  rstrip_by p (u +:+ v) = u +:+ rstrip_by p v.
Proof.
  intros Hv. induction u as [|c u IH]; [done|].
  rewrite !append_cons, rstrip_by_eq.
  rewrite IH. destruct (u +:+ rstrip_by p v) eqn:E; [|done].
  exfalso. destruct u; [by rewrite append_empty_l in E | by rewrite append_cons in E].
Qed.

Lemma rstrip_join ws :
  Forall (fun w => wordb w = true) ws ->
  rstrip_by is_space (join " " ws) = join " " ws.
Proof.
  induction 1 as [|w ws Hw Hws IH]; [done|].
  rewrite join_cons. destruct ws as [|w2 ws]; [by apply rstrip_no_space_nonempty|].
  assert (join " " (w2 :: ws) <> "") as Hne.
  { inversion Hws as [|? ? Hw2 _]; subst.
    apply wordb_inv in Hw2 as (c & w' & -> & _). rewrite join_cons.
    by destruct ws. }
  assert (rstrip_by is_space (" " +:+ join " " (w2 :: ws))
          = " " +:+ join " " (w2 :: ws)) as Hblank.
  { rewrite rstrip_app_nonempty; rewrite IH; done. }
  rewrite rstrip_app_nonempty; rewrite Hblank; done.
Qed.

Lemma strip_join ws :
  Forall (fun w => wordb w = true) ws -> strip (join " " ws) = join " " ws.
Proof.
  intros Hws. unfold strip. destruct Hws as [|w ws Hw Hws]; [done|].
  assert (lstrip_by is_space (join " " (w :: ws)) = join " " (w :: ws)) as ->.
  { rewrite join_cons. destruct ws; [|by apply lstrip_word].
    rewrite <- (append_empty_r w). by apply lstrip_word. }
  apply rstrip_join. by constructor.
Qed.

(** [clean_text] is the words of the text joined by single blanks. *)
Lemma clean_text_join text : clean_text text = join " " (split text).
Proof.
  unfold clean_text. destruct text as [|c r]; [done|].
  cbn [truthy]. apply strip_join, split_words.
Qed.

Lemma tidy_after_word u prev rest :
  no_space u = true ->
  tidy_after prev (u +:+ rest) = tidy_after (if u is "" then prev else true) rest.
Proof.
  revert prev. induction u as [|c u IH]; intros prev Hu; [done|].
  cbn [no_space] in Hu. apply andb_true_iff in Hu as [Hc Hu].
  rewrite append_cons. cbn [tidy_after].
  destruct (Ascii.eqb_spec c blank) as [->|_]; [done|].
  rewrite Hc, IH by done. by destruct u.
Qed.

Lemma tidy_after_join ws :
  Forall (fun w => wordb w = true) ws -> ws <> [] ->
  tidy_after false (join " " ws) = true.
Proof.
  induction 1 as [|w ws Hw Hws IH]; [done|]. intros _.
  apply wordb_inv in Hw as Hw'. destruct Hw' as (c & w' & -> & Hc & Hw').
  assert (no_space (String c w') = true) as Hn by (cbn; by rewrite Hc).
  rewrite join_cons. destruct ws as [|w2 ws].
  - rewrite <- (append_empty_r (String c w')). by rewrite tidy_after_word.
  - rewrite tidy_after_word by done. rewrite append_cons, append_empty_l.
    cbn [tidy_after]. replace (Ascii.eqb " " blank) with true by done.
    by apply IH.
Qed.

Lemma tidy_join ws :
  Forall (fun w => wordb w = true) ws -> tidy (join " " ws) = true.
Proof.
  intros Hws. destruct ws as [|w ws]; [done|].
  pose proof (tidy_after_join (w :: ws) Hws) as H.
  unfold tidy. destruct (join " " (w :: ws)); [done|]. by apply H.
Qed.

Lemma clean_text_tidy text : tidy (clean_text text) = true.
Proof. rewrite clean_text_join. apply tidy_join, split_words. Qed.

Lemma clean_text_words text : split (clean_text text) = split text.
Proof. rewrite clean_text_join. apply split_join, split_words. Qed.

Lemma tidy_after_false_head c r :
  tidy_after false (String c r) = true ->
  is_space c = false /\ tidy_after true r = true.
Proof.
  cbn [tidy_after]. destruct (Ascii.eqb c blank); [done|].
  intros [Hc Hr]%andb_true_iff. by apply negb_true_iff in Hc.
Qed.

(** A tidy text is its words joined by single blanks. *)
Lemma tidy_after_join_split s :
  (tidy_after false s = true -> join " " (split s) = s /\ split s <> [])
  /\ (forall c, tidy_after false (String c s) = true ->
        join " " (split (String c s)) = String c s /\ split (String c s) <> []).
Proof.
  induction s as [|c2 r [IHr IHcr]].
  - split; [done|]. intros c [Hc _]%tidy_after_false_head.
    rewrite split_eq, Hc. done.
  - split; [apply IHcr|].
    intros c [Hc Hr]%tidy_after_false_head. rewrite split_eq, Hc.
    cbn [tidy_after] in Hr. destruct (Ascii.eqb_spec c2 blank) as [->|Hb].
    + replace (is_space blank) with true by done.
      rewrite (split_eq (String blank r)). replace (is_space blank) with true by done.
      destruct (IHr Hr) as [Hj Hne]. split; [|done].
      rewrite join_cons. destruct (split r) as [|w ws]; [done|].
      rewrite Hj. done.
    + assert (tidy_after false (String c2 r) = true) as Hr'.
      { cbn [tidy_after]. by destruct (Ascii.eqb_spec c2 blank). }
      destruct (IHcr c2 Hr') as [Hj Hne].
      apply tidy_after_false_head in Hr' as [Hc2 _]. rewrite Hc2.
      destruct (split (String c2 r)) as [|w ws]; [done|]. split; [|done].
      rewrite <- Hj, !join_cons. by destruct ws.
Qed.

End CleanTextFacts.

(** ** [parse_date] and the dates of the two sites *)

Module ParseDateFacts.
Import Text Time Effects Models Base Notions TextNotions DateNotions TimeFacts ModelsFacts CleanTextFacts.
Local Open Scope string_scope.

Lemma finish_Some r t :
  finish r = Some t -> r = Some (t, "") /\ valid_datetimeb t = true.
Proof.
  unfold finish. destruct r as [[t' [|c rest]]|]; [|done..].
  destruct (valid_datetimeb t') eqn:Hv; [|done]. by intros [= ->].
Qed.

Lemma bind_midnight (p : parser date) s t rest :
  Time.bind p (fun d => Time.ret (midnight d)) s = Some (t, rest) ->
  t = midnight (date_of t).
Proof.
  unfold Time.bind, Time.ret. destruct (p s) as [[d r]|]; [|done]. by intros [= <- _].
Qed.

(** What [strptime] returns is a value of [datetime]; for the formats
    without a clock time it is a midnight. *)
Lemma strptime_sound s fmt t :
  strptime s fmt = Some t ->
  valid_datetimeb t = true /\ (fmt <> Fmt_Y_m_d_H_M_S -> t = midnight (date_of t)).
Proof.
  destruct fmt; cbn [strptime]; unfold strptime_date, strptime_timestamp;
    intros [Hr Hv]%finish_Some; (split; [done|]); intros Hf; try done;
    by eapply bind_midnight.
Qed.

Lemma strptime_empty fmt : strptime "" fmt = None.
Proof. by destruct fmt. Qed.

Lemma first_format_sound s formats t :
  first_format s formats = Some t ->
  exists fmt, fmt ∈ formats /\ strptime s fmt = Some t.
Proof.
  induction formats as [|fmt formats IH]; cbn [first_format]; [done|].
  destruct (strptime s fmt) as [t'|] eqn:E.
  - intros [= ->]. exists fmt. split; [by left | done].
  - intros (fmt' & Hin & Hs)%IH. exists fmt'. split; [by right | done].
Qed.

Lemma first_format_empty formats : first_format "" formats = None.
Proof.
  induction formats as [|fmt formats IH]; cbn [first_format]; [done|].
  by rewrite strptime_empty.
Qed.

Local Open Scope Z_scope.

Lemma is_digit_digit_char k : 0 <= k <= 9 -> is_digit (digit_char k) = true.
Proof. intros Hk. unfold is_digit. by rewrite digit_val_digit_char. Qed.

Lemma parse_b_abbr m rest :
  1 <= m <= 12 -> parse_b (month_abbr m +:+ rest) = Some (m, rest).
Proof. intros Hm. by_cases m Hm. Qed.

Lemma parse_B_name m rest :
  1 <= m <= 12 -> parse_B (month_name m +:+ rest) = Some (m, rest).
Proof. intros Hm. by_cases m Hm. Qed.

Lemma skip_spaces_name m rest :
  1 <= m <= 12 -> skip_spaces (month_name m +:+ rest) = month_name m +:+ rest.
Proof. intros Hm. by_cases m Hm. Qed.

Lemma abbr_letters m :
  1 <= m <= 12 ->
  match month_abbr m with
  | String a1 (String a2 (String a3 "")) => is_letter a1 && is_letter a2 && is_letter a3
  | _ => false
  end = true.
Proof. intros Hm. by_cases m Hm. Qed.

Lemma parse_d_plain_dash k rest :
  1 <= k <= 9 ->
  parse_d (String (digit_char k) (String dash rest)) = Some (k, String dash rest).
Proof. intros Hk. by_cases k Hk. Qed.

Lemma parse_d_plain_blank k rest :
  1 <= k <= 9 ->
  parse_d (String (digit_char k) (String blank rest)) = Some (k, String blank rest).
Proof. intros Hk. by_cases k Hk. Qed.

Lemma skip_spaces_pad4 y rest :
  0 <= y <= 9999 -> skip_spaces (pad4 y rest) = pad4 y rest.
Proof.
  intros Hy. unfold pad4. cbn [skip_spaces].
  by rewrite is_space_digit_char by (Z.div_mod_to_equations; lia).
Qed.

Lemma finish_midnight d :
  valid_dateb d = true -> finish (Some (midnight d, "")) = Some (midnight d).
Proof.
  intros Hd. unfold finish, valid_datetimeb.
  cbn [date_of midnight hour minute second microsecond]. by rewrite Hd.
Qed.

Lemma parse_d_day_text padded n c rest :
  1 <= n <= 31 -> c = dash \/ c = blank ->
  parse_d (day_text padded n (String c rest)) = Some (n, String c rest).
Proof.
  intros Hn Hc. unfold day_text.
  destruct (padded || negb (n <? 10)) eqn:E; [by apply parse_d_pad2|].
  apply orb_false_iff in E as [_ E]. apply negb_false_iff, Z.ltb_lt in E.
  destruct Hc as [-> | ->]; [apply parse_d_plain_dash | apply parse_d_plain_blank]; lia.
Qed.

Lemma strptime_d_b_Y padded d :
  valid_dateb d = true ->
  strptime (day_text padded (day d)
              (String dash (month_abbr (month d) +:+ String dash (pad4 (year d) ""))))
    Fmt_d_b_Y = Some (midnight d).
Proof.
  intros Hd. destruct (valid_dateb_bounds d Hd) as (Hy & Hm & Hday).
  cbn [strptime]. unfold parse_d_b_Y, Time.bind.
  rewrite parse_d_day_text by (lia || by left). cbn [literal]. rewrite Ascii.eqb_refl.
  rewrite parse_b_abbr by lia. cbn [literal]. rewrite Ascii.eqb_refl.
  rewrite parse_Y_pad4 by lia. unfold Time.ret.
  destruct d as [y m dd]. cbn [year month day]. by apply finish_midnight.
Qed.

Lemma strptime_d_B_Y padded d :
  valid_dateb d = true ->
  strptime (day_text padded (day d)
              (String blank (month_name (month d) +:+ String blank (pad4 (year d) ""))))
    Fmt_d_B_Y = Some (midnight d).
Proof.
  intros Hd. destruct (valid_dateb_bounds d Hd) as (Hy & Hm & Hday).
  cbn [strptime]. unfold parse_d_B_Y, Time.bind.
  rewrite parse_d_day_text by (lia || by right). unfold spaces1 at 1.
  replace (is_space blank) with true by reflexivity.
  rewrite skip_spaces_name by lia. rewrite parse_B_name by lia.
  unfold spaces1. replace (is_space blank) with true by reflexivity.
  rewrite skip_spaces_pad4 by lia. rewrite parse_Y_pad4 by lia. unfold Time.ret.
  destruct d as [y m dd]. cbn [year month day]. by apply finish_midnight.
Qed.

Lemma day_text_head padded n rest :
  1 <= n <= 31 ->
  exists c u, day_text padded n rest = String c (u +:+ rest) /\ is_space c = false.
Proof.
  intros Hn. unfold day_text. destruct (padded || negb (n <? 10)) eqn:E.
  - exists (digit_char (n / 10)), (String (digit_char (n mod 10)) ""). split; [done|].
    apply is_space_digit_char. Z.div_mod_to_equations; lia.
  - apply orb_false_iff in E as [_ E]. apply negb_false_iff, Z.ltb_lt in E.
    exists (digit_char n), "". split; [done|]. apply is_space_digit_char. lia.
Qed.

(** A text that starts with a digit and ends with the four digits of a
    year has no white space to strip. *)
Lemma strip_day_text padded n mid y :
  1 <= n <= 31 -> 0 <= y <= 9999 ->
  strip (day_text padded n (mid +:+ pad4 y "")) = day_text padded n (mid +:+ pad4 y "").
Proof.
  intros Hn Hy. unfold strip.
  assert (rstrip_by is_space (pad4 y "") = pad4 y "") as Hr.
  { unfold pad4, pad2. cbn [rstrip_by].
    by rewrite !is_space_digit_char by (Z.div_mod_to_equations; lia). }
  assert (forall u, rstrip_by is_space (u +:+ pad4 y "") = u +:+ pad4 y "") as Hu.
  { intros u. rewrite rstrip_app_nonempty; rewrite Hr; done. }
  destruct (day_text_head padded n (mid +:+ pad4 y "") Hn) as (c & u & -> & Hc).
  cbn [lstrip_by]. rewrite Hc.
  rewrite <- append_cons, <- append_assoc. apply Hu.
Qed.

Lemma truthy_day_text padded n rest : truthy (day_text padded n rest) = true.
Proof. unfold day_text. by destruct (padded || negb (n <? 10)). Qed.

Lemma parse_date_show_d_b_Y padded d :
  valid_dateb d = true ->
  Base.parse_date (show_d_b_Y padded d) [Fmt_d_b_Y] = Some (midnight d).
Proof.
  intros Hd. destruct (valid_dateb_bounds d Hd) as (Hy & Hm & Hday).
  unfold Base.parse_date, show_d_b_Y. rewrite truthy_day_text.
  assert (String dash (month_abbr (month d) +:+ String dash (pad4 (year d) ""))
          = String dash (month_abbr (month d) +:+ String dash "") +:+ pad4 (year d) "") as E.
  { by rewrite append_cons, append_assoc. }
  rewrite E, strip_day_text by lia. rewrite <- E.
  cbn [first_format]. by rewrite strptime_d_b_Y.
Qed.

Lemma parse_date_show_d_B_Y padded d :
  valid_dateb d = true ->
  Base.parse_date (show_d_B_Y padded d) [Fmt_d_B_Y] = Some (midnight d).
Proof.
  intros Hd. destruct (valid_dateb_bounds d Hd) as (Hy & Hm & Hday).
  unfold Base.parse_date, show_d_B_Y. rewrite truthy_day_text.
  assert (String blank (month_name (month d) +:+ String blank (pad4 (year d) ""))
          = String blank (month_name (month d) +:+ String blank "") +:+ pad4 (year d) "") as E.
  { by rewrite append_cons, append_assoc. }
  rewrite E, strip_day_text by lia. rewrite <- E.
  cbn [first_format]. by rewrite strptime_d_B_Y.
Qed.

Lemma date_pattern_match_padded d :
  valid_dateb d = true -> date_pattern_match (show_d_b_Y true d) = true.
Proof.
  intros Hd. destruct (valid_dateb_bounds d Hd) as (Hy & Hm & Hday).
  pose proof (abbr_letters (month d) Hm) as Ha.
  unfold show_d_b_Y, day_text. cbn [orb]. unfold pad2 at 1.
  destruct (month_abbr (month d)) as [|a1 [|a2 [|a3 [|]]]]; try done.
  rewrite !append_cons, append_empty_l. unfold pad4, pad2, date_pattern_match.
  rewrite !is_digit_digit_char by (Z.div_mod_to_equations; lia).
  apply andb_true_iff in Ha as [[H1 H2]%andb_true_iff H3]. by rewrite H1, H2, H3.
Qed.

Lemma date_pattern_match_plain d :
  day d < 10 -> date_pattern_match (show_d_b_Y false d) = false.
Proof.
  intros Hd. unfold show_d_b_Y, day_text.
  replace (day d <? 10) with true by (symmetry; by apply Z.ltb_lt).
  cbn [orb negb]. unfold date_pattern_match.
  destruct (month_abbr (month d) +:+ String dash (pad4 (year d) "")) as [|a1 s1]; [done|].
  repeat (match goal with |- context [match ?s with "" => _ | String _ _ => _ end] =>
            destruct s; [done|] end).
  replace (is_digit dash) with false by done. by rewrite andb_false_r.
Qed.

(** What [parse_date] reads with a format without a clock time. *)
Lemma parse_date_midnight date_str fmt t :
  fmt <> Fmt_Y_m_d_H_M_S ->
  Base.parse_date date_str [fmt] = Some t ->
  valid_datetimeb t = true /\ t = midnight (date_of t).
Proof.
  intros Hf. unfold Base.parse_date. destruct (truthy date_str); [|done].
  cbn [first_format]. destruct (strptime (strip date_str) fmt) as [t'|] eqn:E; [|done].
  intros [= ->]. destruct (strptime_sound _ _ _ E) as [Hv Hm]. auto.
Qed.

Lemma cas_issue_date_midnight s t :
  cas_issue_date s = Some t -> valid_datetimeb t = true /\ t = midnight (date_of t).
Proof.
  unfold cas_issue_date. destruct (date_pattern_match s); [|done].
  by apply parse_date_midnight.
Qed.

Lemma govuk_issue_date_midnight s t :
  govuk_issue_date s = Some t -> valid_datetimeb t = true /\ t = midnight (date_of t).
Proof. by apply parse_date_midnight. Qed.

End ParseDateFacts.

(** ** Addresses and file names *)

Module UrlFacts.
Import Text Time Base Notions TextNotions CleanTextFacts.
Local Open Scope string_scope.

Lemma prefix_slash_false rel :
  String.prefix "/" rel = false -> lstrip_by is_slash rel = rel.
Proof.
  destruct rel as [|c r]; [done|]. cbn [String.prefix lstrip_by]. unfold is_slash.
  destruct (ascii_dec "/" c) as [<-|Hc]; [by destruct r|].
  intros _. destruct (Ascii.eqb_spec c "/") as [->|_]; done.
Qed.

(** A character that is stripped adds nothing at the end. *)
Lemma rstrip_by_snoc p s c :
  p c = true -> rstrip_by p (s +:+ String c "") = rstrip_by p s.
Proof.
  intros Hc. induction s as [|a s IH].
  - rewrite append_empty_l. cbn [rstrip_by]. by rewrite Hc.
  - rewrite append_cons, (rstrip_by_eq p (String a s)), rstrip_by_eq. by rewrite IH.
Qed.

Lemma safe_char_underscore : safe_char "_" = true.
Proof. reflexivity. Qed.

End UrlFacts.

(** ** The records the scrapers return *)

Module ScrapersFacts.
Import Text Time Effects Models Base Scrapers Notions TextNotions.
Import TimeFacts ModelsFacts CleanTextFacts ParseDateFacts.
Local Open Scope string_scope.

(** The constructor with [scraped_at] and [hash_id] unset: one reading of
    the clock, and the digest of the four identity fields. *)
Lemma new_Alert_unset reference title originator issue_date status alert_type source url
    medical_specialty w :
  new_Alert reference title originator issue_date status alert_type source url
    medical_specialty None None None None None None None None w
  = Returned
      (mk_Alert reference title originator issue_date status alert_type source url
         medical_specialty (clock w (ticks w))
         (MD5.hexdigest (encode (content reference title originator issue_date)))
         None None None None None None)
      (mk_world (clock w) (S (ticks w))).
Proof. reflexivity. Qed.

(** Re-reading the row of a record whose issue date is a midnight: the
    identity fields and the stored hash come back. *)
Lemma row_image_midnight self :
  issue_date self = midnight (date_of (issue_date self)) ->
  issue_date (row_image self) = issue_date self
  /\ reference (row_image self) = reference self
  /\ title (row_image self) = title self
  /\ originator (row_image self) = originator self
  /\ source (row_image self) = source self
  /\ url (row_image self) = url self
  /\ hash_id (row_image self) = hash_id self.
Proof.
  intros Hm. cbn [row_image issue_date reference title originator source url hash_id].
  by rewrite <- Hm.
Qed.

Lemma or_empty_or_None x : or_empty (or_None (Some (or_empty x))) = or_empty x.
Proof. destruct x as [[|c s]|]; done. Qed.

(** Writing the record that was read from a row gives the row again. *)
Lemma to_dict_row_image self : to_dict (row_image self) = to_dict self.
Proof.
  unfold to_dict.
  cbn [row_image reference title originator issue_date status alert_type source url
       medical_specialty scraped_at hash_id action_category broadcast_content
       additional_info action_underway_deadline action_complete_deadline attachments].
  by rewrite !or_empty_or_None.
Qed.

Lemma strptime_date_midnight s t :
  strptime_date s = Some t -> valid_datetimeb t = true /\ t = midnight (date_of t).
Proof.
  intros H. destruct (strptime_sound s Fmt_Y_m_d t H) as [Hv Hm]. auto.
Qed.

(** *** The loop *)

(** A record of the result was returned for one of the rows, under the
    clock of the walk. *)
Lemma collect_elem {X : Type} (parse : X -> M (option Alert)) xs :
  (forall x w,
     match parse x w with
     | Returned _ w' => clock w' = clock w
     | Raised _ w' => clock w' = clock w
     end) ->
  forall acc w alert,
  alert ∈ (fold_left (collect parse) xs (acc, w)).1 ->
  alert ∈ acc
  \/ exists x w1 w2, x ∈ xs /\ clock w1 = clock w
                     /\ parse x w1 = Returned (Some alert) w2.
Proof.
  intros parse_clock.
  induction xs as [|x xs IH]; intros acc w alert; cbn [fold_left]; [by left|].
  unfold collect at 2. cbn [fst snd]. pose proof (parse_clock x w) as Hc.
  destruct (parse x w) as [[a|] w1|e w1] eqn:E; intros Hin;
    apply IH in Hin as [Hin | (x' & w1' & w2 & Hx & Hcl & Hp)];
    try (right; exists x', w1', w2; split; [by right | split; [congruence | done]]);
    try (by left).
  apply elem_of_app in Hin as [Hin | ->%list_elem_of_singleton]; [by left|].
  right. exists x, w, w1. split; [by left | done].
Qed.

(** Two walks whose rows give records of the same hash, each for each,
    give the same list of hashes. *)
Lemma collect_hashes {X : Type} (parse parse' : X -> M (option Alert)) (f : X -> X) :
  (forall x w w',
     match parse x w, parse' (f x) w' with
     | Returned (Some a) _, Returned (Some a') _ => hash_id a = hash_id a'
     | Returned (Some _) _, _ | _, Returned (Some _) _ => False
     | _, _ => True
     end) ->
  forall xs acc acc' w w',
    hash_id <$> acc = hash_id <$> acc' ->
    hash_id <$> (fold_left (collect parse) xs (acc, w)).1
    = hash_id <$> (fold_left (collect parse') (f <$> xs) (acc', w')).1.
Proof.
  intros Hsame. induction xs as [|x xs IH]; intros acc acc' w w' Hacc; [done|].
  cbn [fmap list_fmap fold_left]. unfold collect at 2 4. cbn [fst snd].
  specialize (Hsame x w w').
  destruct (parse x w) as [[a|] w1|e w1], (parse' (f x) w') as [[a'|] w1'|e' w1'];
    try done; apply IH; try done.
  rewrite !fmap_app, Hacc. cbn [fmap list_fmap]. by rewrite Hsame.
Qed.

Section site.
Variable urljoin : string -> string -> string.
Variable base_url : string.

(** *** A row of the CAS table *)

Lemma cas_parse_row_clock row w :
  match CasMhra.parse_row urljoin base_url row w with
  | Returned _ w' => clock w' = clock w
  | Raised _ w' => clock w' = clock w
  end.
Proof.
  unfold CasMhra.parse_row.
  destruct (CasMhra.cols row) as [|c0 [|c1 [|c2 [|c3 [|c4 cols']]]]]; try done.
  by destruct (cas_issue_date (clean_text c3)).
Qed.

Lemma cas_parse_row_record row w alert w' :
  CasMhra.parse_row urljoin base_url row w = Returned (Some alert) w' ->
  source alert = "CAS"
  /\ tidy (reference alert) = true /\ tidy (title alert) = true
  /\ tidy (status alert) = true
  /\ alert_type alert ∈ ["National Patient Safety Alert"; "CMO Messaging"; "Unknown"]
  /\ cas_issue_date (clean_text (nth 3 (CasMhra.cols row) "")) = Some (issue_date alert)
  /\ valid_datetimeb (issue_date alert) = true
  /\ issue_date alert = midnight (date_of (issue_date alert))
  /\ scraped_at alert = clock w (ticks w)
  /\ hash_id alert
     = MD5.hexdigest
         (encode (content (reference alert) (title alert)
                    (clean_text (nth 2 (CasMhra.cols row) "")) (issue_date alert)))
  /\ (originator alert = clean_text (nth 2 (CasMhra.cols row) "")
      \/ exists page, CasMhra.detail row = Some page /\ url alert <> ""
           /\ originator alert = CasMhra.get_text_by_label page "Originator:"
           /\ originator alert <> "").
Proof.
  unfold CasMhra.parse_row.
  destruct (CasMhra.cols row) as [|c0 [|c1 [|c2 [|c3 [|c4 cols']]]]]; try done.
  cbn [nth].
  destruct (cas_issue_date (clean_text c3)) as [issue|] eqn:Hd; [|done].
  unfold Effects.bind. rewrite new_Alert_unset. unfold Effects.ret.
  destruct (cas_issue_date_midnight _ _ Hd) as [Hv Hm].
  assert (tidy (match CasMhra.title_element row with
                | Some a => clean_text (anchor_text a)
                | None => clean_text c1
                end) = true) as Ht
    by (destruct (CasMhra.title_element row); apply clean_text_tidy).
  assert (CasMhra.alert_type_of (clean_text c2)
          ∈ ["National Patient Safety Alert"; "CMO Messaging"; "Unknown"]) as Hty
    by (unfold CasMhra.alert_type_of; repeat case_match; set_solver).
  destruct (truthy (alert_url_of urljoin base_url (CasMhra.title_element row))) eqn:Hu;
    [destruct (CasMhra.detail row) as [page|] eqn:Hp|];
    intros [= <- <-]; unfold CasMhra.enrich_alert_with_detail;
    cbn [source reference title originator status alert_type issue_date scraped_at
         hash_id url];
    repeat split; try done; try apply clean_text_tidy; try (by left).
  destruct (truthy (CasMhra.get_text_by_label page "Originator:")) eqn:Ho; [|by left].
  right. exists page. repeat split; try done; by apply truthy_nonempty.
Qed.

(** The hash of a row's record is settled before the page of the alert is
    read, and does not wait for the clock. *)
Lemma cas_parse_row_hash row w w' :
  match CasMhra.parse_row urljoin base_url row w,
        CasMhra.parse_row urljoin base_url (Listings.row_listing_only row) w' with
  | Returned (Some a) _, Returned (Some a') _ => hash_id a = hash_id a'
  | Returned (Some _) _, _ | _, Returned (Some _) _ => False
  | _, _ => True
  end.
Proof.
  unfold CasMhra.parse_row, Listings.row_listing_only.
  cbn [CasMhra.cols CasMhra.title_element CasMhra.detail].
  destruct (CasMhra.cols row) as [|c0 [|c1 [|c2 [|c3 [|c4 cols']]]]]; try done.
  destruct (cas_issue_date (clean_text c3)) as [issue|]; [|done].
  unfold Effects.bind. rewrite !new_Alert_unset. unfold Effects.ret.
  destruct (truthy _); [|done]. by destruct (CasMhra.detail row).
Qed.

(** *** An item of the GOV.UK list *)

Lemma govuk_parse_item_clock item w :
  match GovUk.parse_item urljoin base_url item w with
  | Returned _ w' => clock w' = clock w
  | Raised _ w' => clock w' = clock w
  end.
Proof.
  unfold GovUk.parse_item. destruct (truthy _ && truthy _); [|done].
  by destruct (govuk_issue_date _).
Qed.

Lemma govuk_parse_item_record item w alert w' :
  GovUk.parse_item urljoin base_url item w = Returned (Some alert) w' ->
  source alert = "GOVUK"
  /\ originator alert = "MHRA/GOV.UK" /\ status alert = "Issued"
  /\ url alert <> ""
  /\ valid_datetimeb (issue_date alert) = true
  /\ issue_date alert = midnight (date_of (issue_date alert))
  /\ scraped_at alert = clock w (ticks w)
  /\ (exists a listed_date,
        GovUk.title_element item = Some a
        /\ clean_text (anchor_text a) <> ""
        /\ govuk_issue_date
             (clean_text (List.last (GovUk.metadata_elements item) "")) = Some listed_date
        /\ hash_id alert
           = MD5.hexdigest
               (encode (content (url alert) (clean_text (anchor_text a))
                          "MHRA/GOV.UK" listed_date))
        /\ (GovUk.detail item = None ->
            title alert = clean_text (anchor_text a) /\ issue_date alert = listed_date))
  /\ (reference alert = url alert
      \/ exists page, GovUk.detail item = Some page
           /\ GovUk.search_DMRC (GovUk.content_text page) = Some (reference alert)).
Proof.
  unfold GovUk.parse_item.
  destruct (GovUk.title_element item) as [a|] eqn:Ha; [|done].
  destruct (truthy (clean_text (anchor_text a))) eqn:Ht; [|done].
  destruct (truthy (alert_url_of urljoin base_url (Some a))) eqn:Hu; [|done].
  cbn [andb].
  destruct (GovUk.metadata_elements item) as [|m0 ms] eqn:Hmd; [done|].
  destruct (govuk_issue_date (clean_text (List.last (m0 :: ms) ""))) as [listed|] eqn:Hd;
    [|done].
  unfold Effects.bind. rewrite new_Alert_unset. unfold Effects.ret.
  destruct (govuk_issue_date_midnight _ _ Hd) as [Hv Hm].
  apply truthy_nonempty in Ht as Ht'. apply truthy_nonempty in Hu as Hu'.
  intros [= <- <-]. unfold GovUk.enrich_alert_with_detail.
  destruct (GovUk.detail item) as [page|] eqn:Hp;
    cbn [source reference title originator status url issue_date scraped_at hash_id].
  - assert (valid_datetimeb
              match GovUk.published page with
              | Some dt_val =>
                  if truthy dt_val
                  then match strptime_date (String.substring 0 10 dt_val) with
                       | Some t => t
                       | None => listed
                       end
                  else listed
              | None => listed
              end = true
            /\ match GovUk.published page with
               | Some dt_val =>
                   if truthy dt_val
                   then match strptime_date (String.substring 0 10 dt_val) with
                        | Some t => t
                        | None => listed
                        end
                   else listed
               | None => listed
               end
               = midnight (date_of
                   match GovUk.published page with
                   | Some dt_val =>
                       if truthy dt_val
                       then match strptime_date (String.substring 0 10 dt_val) with
                            | Some t => t
                            | None => listed
                            end
                       else listed
                   | None => listed
                   end)) as [Hv' Hm'].
    { destruct (GovUk.published page) as [dt_val|]; [|done].
      destruct (truthy dt_val); [|done].
      destruct (strptime_date (String.substring 0 10 dt_val)) as [t|] eqn:Et; [|done].
      by apply strptime_date_midnight in Et. }
    split_and!; try done.
    + exists a, listed. by split_and!.
    + destruct (GovUk.search_DMRC (GovUk.content_text page)) as [m|] eqn:Em.
      * right. by exists page.
      * by left.
  - split_and!; try done.
    + exists a, listed. by split_and!.
    + by left.
Qed.


End site.

End ScrapersFacts.

(** ** Reading the sheet, and the run *)

Module ProcessorFacts.
Import Text Time Effects Models Duplicates Sheets Processor FirstWins Notions RowNotions.
Import TimeFacts ModelsFacts FirstWinsFacts ExactFacts.

Lemma from_dict_bad_issue_date row w :
  bad_issue_date row = true -> from_dict row w = Raised ValueError w.
Proof.
  unfold bad_issue_date. intros [Ht Hn]%andb_true_iff. apply bool_decide_eq_true in Hn.
  unfold from_dict, Effects.bind. by rewrite Ht, Hn.
Qed.

(** A readable row is read, and the record has the row's reference and,
    if the row has a hash cell, that cell as its hash. *)
Lemma from_dict_readable row w :
  readable row = true ->
  exists alert w',
    from_dict row w = Returned alert w'
    /\ clock w' = clock w
    /\ reference alert = get_or_empty row "Reference"
    /\ (forall h, row !! "Hash ID" = Some h -> hash_id alert = h).
Proof.
  unfold readable. intros [Hi Hs]%andb_true_iff.
  unfold from_dict, Effects.bind, get.
  destruct (truthy (get_or_empty row "Issue Date")) eqn:Ei;
    destruct (truthy (get_or_empty row "Scraped At")) eqn:Es;
    cbn [negb orb] in Hi, Hs;
    repeat match goal with
      | H : bool_decide (is_Some ?x) = true |- _ =>
          apply bool_decide_eq_true in H; destruct H as [? ->]
      end;
    destruct (row !! "Hash ID") as [h|] eqn:Eh;
    eexists _, _; (split; [reflexivity|]); (split; [reflexivity|]);
    (split; [reflexivity|]); intros h' [= <-]; reflexivity.
Qed.

Lemma from_dict_unreadable row w :
  readable row = false ->
  exists w', from_dict row w = Raised ValueError w' /\ clock w' = clock w.
Proof.
  unfold readable. intros Hr. unfold from_dict, Effects.bind.
  destruct (truthy (get_or_empty row "Issue Date")) eqn:Ei.
  - destruct (strptime_date (get_or_empty row "Issue Date")) as [t|] eqn:Ed;
      [|eexists; split; reflexivity].
    cbn [negb orb or_ValueError Effects.ret] in *.
    rewrite bool_decide_eq_true_2 in Hr by eauto. cbn [andb] in Hr.
    destruct (truthy (get_or_empty row "Scraped At")) eqn:Es; [|done].
    destruct (strptime_timestamp (get_or_empty row "Scraped At")) as [t'|] eqn:Et;
      [|eexists; split; reflexivity].
    rewrite bool_decide_eq_true_2 in Hr by eauto. done.
  - cbn [negb orb andb] in Hr.
    destruct (truthy (get_or_empty row "Scraped At")) eqn:Es; [|done].
    destruct (strptime_timestamp (get_or_empty row "Scraped At")) as [t'|] eqn:Et;
      [|eexists; split; reflexivity].
    rewrite bool_decide_eq_true_2 in Hr by eauto. done.
Qed.

Lemma convert_rows_app rows1 rows2 st :
  fold_left convert_row (rows1 ++ rows2) st
  = fold_left convert_row rows2 (fold_left convert_row rows1 st).
Proof. apply fold_left_app. Qed.

(** The loop only appends, and keeps the clock's readings. *)
Lemma convert_rows_grow rows : forall acc w,
  exists more w',
    fold_left convert_row rows (acc, w) = (acc ++ more, w') /\ clock w' = clock w.
Proof.
  induction rows as [|row rows IH]; intros acc w.
  - exists [], w. by rewrite app_nil_r.
  - cbn [fold_left]. unfold convert_row at 2. cbn [fst snd].
    destruct (readable row) eqn:Hr.
    + destruct (from_dict_readable row w Hr) as (a & w1 & -> & Hc & _).
      destruct (IH (acc ++ [a]) w1) as (more & w' & -> & Hc').
      exists (a :: more), w'. rewrite <- app_assoc. split; [done | congruence].
    + destruct (from_dict_unreadable row w Hr) as (w1 & -> & Hc).
      destruct (IH acc w1) as (more & w' & -> & Hc').
      exists more, w'. split; [done | congruence].
Qed.

(** Every readable row leaves a record with its reference and hash. *)
Lemma convert_rows_elem rows : forall acc w row,
  row ∈ rows -> readable row = true ->
  exists alert,
    alert ∈ (fold_left convert_row rows (acc, w)).1
    /\ reference alert = get_or_empty row "Reference"
    /\ (forall h, row !! "Hash ID" = Some h -> hash_id alert = h).
Proof.
  induction rows as [|row0 rows IH]; intros acc w row Hin Hr; [by apply elem_of_nil in Hin|].
  cbn [fold_left]. apply elem_of_cons in Hin as [-> | Hin].
  - unfold convert_row at 2. cbn [fst snd].
    destruct (from_dict_readable row0 w Hr) as (a & w1 & -> & _ & Href & Hh).
    destruct (convert_rows_grow rows (acc ++ [a]) w1) as (more & w' & -> & _).
    exists a. split; [|done]. cbn [fst]. set_solver.
  - destruct (convert_row (acc, w) row0) as [acc1 w1]. by apply IH.
Qed.

(** What the walk keeps is matched by nothing that was known. *)
Lemma pick_not_matched {A} (R : A -> A -> bool) l : forall kept y,
  y ∈ pick R kept l -> matched R kept y = false.
Proof.
  induction l as [|x l IH]; intros kept y; cbn [pick]; [by intros ?%elem_of_nil|].
  destruct (matched R kept x) eqn:Hx; [by apply IH|].
  intros [-> | Hy%IH]%elem_of_cons; [done|].
  rewrite matched_app in Hy. by apply orb_false_iff in Hy as [Hy _].
Qed.

Lemma filter_ext_elem {A} (P Q : A -> Prop)
    `{!forall x, Decision (P x)} `{!forall x, Decision (Q x)} (l : list A) :
  (forall y, y ∈ l -> P y <-> Q y) -> filter P l = filter Q l.
Proof.
  induction l as [|x l IH]; intros Hext; [done|]. rewrite !filter_cons.
  rewrite IH by (intros y Hy; apply Hext; by right).
  destruct (Hext x) as [H1 H2]; [by left|]. repeat case_decide; first [done | tauto].
Qed.

(** On a list without a match inside, the walk is a filter against what
    was known. *)
Lemma pick_filter {A} (R : A -> A -> bool) l : forall kept,
  unmatched R l ->
  pick R kept l = filter (fun y => matched R kept y = false) l.
Proof.
  induction l as [|x l IH]; intros kept Hl; [done|].
  apply StronglySorted_inv in Hl as [Hl Hx]. cbn [pick].
  rewrite filter_cons. destruct (matched R kept x) eqn:Ex.
  - rewrite decide_False by done. by apply IH.
  - rewrite decide_True by done. f_equal. rewrite IH by done.
    apply filter_ext_elem. intros y Hy. rewrite matched_snoc.
    rewrite Forall_forall in Hx. rewrite (Hx y Hy). by rewrite orb_false_r.
Qed.

Lemma matched_exact_recorded recorded alert :
  matched exact_match recorded alert = already_recorded recorded alert.
Proof. rewrite matched_exact. apply orb_comm. Qed.

End ProcessorFacts.

(** ** The pages of the CAS table *)

Module PagesFacts.
Import Text Base Pages.
Local Open Scope Z_scope.

(** An ascending list without repetition is strictly ascending. *)
Lemma sorted_nodup_strict (l : list Z) :
  Sorted Z.le l -> NoDup l -> StronglySorted Z.lt l.
Proof.
  intros Hs%(Sorted_StronglySorted _). induction Hs as [|x l Hs IH Hx]; intros Hn.
  - constructor.
  - apply NoDup_cons in Hn as [Hx' Hn]. constructor; [by apply IH|].
    rewrite Forall_forall in Hx |- *. intros y Hy.
    specialize (Hx y Hy). assert (x <> y) by (intros ->; done). lia.
Qed.

End PagesFacts.

(** ** [clean_text] *)

Module CleanTextTheorems.
Import Text Time Base Notions TextNotions CleanTextFacts.
Local Open Scope string_scope.

(** X1. [clean_text] normalises the white space and nothing else: its
    result has no white space but single blanks between words (none at
    either end, no tab, line feed or run of blanks), and it has the
    words of the text, in order. *)
Theorem clean_text_normal_form text :
  tidy (clean_text text) = true /\ split (clean_text text) = split text.
Proof. split; [apply clean_text_tidy | apply clean_text_words]. Qed.

(** X2. [clean_text] is idempotent, and the texts it leaves as they are
    are the tidy ones: those without white space other than single
    blanks between words. *)
Theorem clean_text_idempotent text :
  clean_text (clean_text text) = clean_text text
  /\ (clean_text text = text <-> tidy text = true).
Proof.
  split.
  - rewrite (clean_text_join (clean_text text)), (clean_text_join text).
    by rewrite split_join by apply split_words.
  - split.
    + intros <-. apply clean_text_tidy.
    + rewrite clean_text_join. destruct text as [|c r]; [done|].
      cbn [tidy]. intros Ht. by apply (tidy_after_join_split r).
Qed.

End CleanTextTheorems.

(** ** The dates of the two sites *)

Module ParseDateTheorems.
Import Text Time Effects Models Base Notions TextNotions DateNotions.
Import TimeFacts ModelsFacts CleanTextFacts ParseDateFacts.
Local Open Scope string_scope.

(** X3. [parse_date] returns [None] for a text that is empty or all
    white space, whatever the formats; and whatever it returns is a
    value a [datetime] can hold, read by one of the formats from the
    stripped text, and a midnight unless the format carries a time. *)
Theorem parse_date_sound date_str formats :
  (strip date_str = "" -> Base.parse_date date_str formats = None)
  /\ (forall t, Base.parse_date date_str formats = Some t ->
        valid_datetimeb t = true
        /\ exists fmt, fmt ∈ formats /\ strptime (strip date_str) fmt = Some t
             /\ (fmt <> Fmt_Y_m_d_H_M_S -> t = midnight (date_of t))).
Proof.
  unfold Base.parse_date. split.
  - intros ->. destruct (truthy date_str); [apply first_format_empty | done].
  - intros t. destruct (truthy date_str); [|done].
    intros (fmt & Hin & Hs)%first_format_sound.
    destruct (strptime_sound _ _ _ Hs) as [Hv Hm]. eauto.
Qed.

(** X4. Each site's way of writing a day is read back as that day: the
    CAS table's [DD-Mon-YYYY] passes the pattern and parses, and the
    GOV.UK form [D Month YYYY] parses with the day padded or not. *)
Theorem site_dates_parse (d : date) (padded : bool) :
  valid_dateb d = true ->
  cas_issue_date (show_d_b_Y true d) = Some (midnight d)
  /\ govuk_issue_date (show_d_B_Y padded d) = Some (midnight d).
Proof.
  intros Hd. split.
  - unfold cas_issue_date. rewrite date_pattern_match_padded by done.
    by apply parse_date_show_d_b_Y.
  - by apply parse_date_show_d_B_Y.
Qed.

Lemma site_dates_parse_witness :
  valid_dateb (mk_date 2025 6 5) = true
  /\ cas_issue_date (show_d_b_Y true (mk_date 2025 6 5)) = Some (midnight (mk_date 2025 6 5))
  /\ govuk_issue_date (show_d_B_Y false (mk_date 2025 6 5))
     = Some (midnight (mk_date 2025 6 5)).
Proof. split; [reflexivity | apply site_dates_parse; reflexivity]. Defined.

(** X5. The pattern of the CAS scraper is stricter than the parser it
    guards: a day written without its leading zero ([5-Jun-2025]) is a
    date for [parse_date] with the format of the table, and is rejected
    by the pattern, so the row is skipped. *)
Theorem cas_pattern_rejects_plain_day (d : date) :
  valid_dateb d = true -> (day d < 10)%Z ->
  Base.parse_date (show_d_b_Y false d) [Fmt_d_b_Y] = Some (midnight d)
  /\ cas_issue_date (show_d_b_Y false d) = None.
Proof.
  intros Hd Hday. split; [by apply parse_date_show_d_b_Y|].
  unfold cas_issue_date. by rewrite date_pattern_match_plain.
Qed.

Lemma cas_pattern_rejects_plain_day_witness :
  show_d_b_Y false (mk_date 2025 6 5) = "5-Jun-2025"
  /\ Base.parse_date "5-Jun-2025" [Fmt_d_b_Y] = Some (midnight (mk_date 2025 6 5))
  /\ cas_issue_date "5-Jun-2025" = None.
Proof.
  split; [reflexivity|].
  exact (cas_pattern_rejects_plain_day (mk_date 2025 6 5) eq_refl eq_refl).
Defined.

End ParseDateTheorems.

Module UrlTheorems.
Import Text Time Base Notions TextNotions CleanTextFacts UrlFacts.
Local Open Scope string_scope.

Section urls.
Variable urljoin : string -> string -> string.

(** X6. [extract_alert_url]: an address that starts with [http] is
    returned as it is, whatever the base; an address that starts neither
    with [http] nor with a slash is put after the base and one slash,
    [urljoin] is not consulted, [lstrip] finds nothing to strip, and a
    trailing slash more or less on the base makes no difference. *)
Theorem extract_alert_url_cases base_url relative_url :
  (String.prefix "http" relative_url = true ->
     extract_alert_url urljoin base_url relative_url = relative_url)
  /\ (String.prefix "http" relative_url = false ->
      String.prefix "/" relative_url = false ->
        extract_alert_url urljoin base_url relative_url
        = rstrip_by is_slash base_url +:+ "/" +:+ relative_url
        /\ extract_alert_url urljoin (base_url +:+ "/") relative_url
           = extract_alert_url urljoin base_url relative_url).
Proof.
  unfold extract_alert_url. split.
  - by intros ->.
  - intros -> Hs. rewrite Hs, prefix_slash_false by done.
    by rewrite rstrip_by_snoc.
Qed.

End urls.

(** X7. The file name [save_raw_data] derives has the length of the
    name it was given and only letters, digits, dots, underscores and
    hyphens, so no path separator; a name made of such characters is kept
    as it is, and deriving twice changes nothing more. *)
Theorem safe_filename_safe filename :
  String.length (safe_filename filename) = String.length filename
  /\ all_chars safe_char (safe_filename filename) = true
  /\ (all_chars safe_char filename = true -> safe_filename filename = filename)
  /\ safe_filename (safe_filename filename) = safe_filename filename.
Proof.
  assert (forall f, all_chars safe_char f = true -> safe_filename f = f) as Hfix.
  { induction f as [|c r IH]; [done|]. cbn [all_chars safe_filename].
    intros [Hc Hr]%andb_true_iff. by rewrite Hc, IH. }
  assert (all_chars safe_char (safe_filename filename) = true) as Hsafe.
  { induction filename as [|c r IH]; [done|]. cbn [all_chars safe_filename].
    rewrite IH, andb_true_r. destruct (safe_char c) eqn:Hc; [exact Hc | reflexivity]. }
  repeat split; [|done|apply Hfix|by apply Hfix].
  clear. induction filename as [|c r IH]; [done|].
  cbn [safe_filename String.length]. by rewrite IH.
Qed.

End UrlTheorems.

(** ** Requests with retries *)

Module RequestsTheorems.
Import Requests.
Local Open Scope Z_scope.

Section session.
Context {Response : Type}.

Lemma retry_trace MAX_RETRIES url budget : forall retries (w : net Response),
  0 <= retries -> budget = Z.to_nat (MAX_RETRIES - retries) ->
  exists k : nat,
    Z.of_nat k <= Z.max 0 (MAX_RETRIES - retries)
    /\ sent (retry budget MAX_RETRIES url retries w).2 = (sent w + k + 1)%nat
    /\ slept (retry budget MAX_RETRIES url retries w).2
       = slept w ++ ((fun i => 2 ^ (retries + Z.of_nat i)) <$> seq 0 k)
    /\ (forall i, (i < k)%nat -> answer w url (sent w + i)%nat = None)
    /\ (retry budget MAX_RETRIES url retries w).1 = answer w url (sent w + k)%nat
    /\ ((retry budget MAX_RETRIES url retries w).1 = None ->
        Z.of_nat k = Z.max 0 (MAX_RETRIES - retries)).
Proof.
  induction budget as [|budget IH]; intros retries w Hr Hb.
  - cbn [retry get]. destruct (answer w url (sent w)) as [response|] eqn:Ha.
    + exists 0%nat. cbn. rewrite Nat.add_0_r, app_nil_r, Ha.
      repeat split; [lia | lia | lia | done].
    + assert ((retries <? MAX_RETRIES) = false) as -> by (apply Z.ltb_ge; lia).
      exists 0%nat. cbn. rewrite Nat.add_0_r, app_nil_r, Ha.
      repeat split; [lia | lia | lia | lia].
  - cbn [retry get]. destruct (answer w url (sent w)) as [response|] eqn:Ha.
    + exists 0%nat. cbn. rewrite Nat.add_0_r, app_nil_r, Ha.
      repeat split; [lia | lia | lia | done].
    + assert ((retries <? MAX_RETRIES) = true) as -> by (apply Z.ltb_lt; lia).
      specialize (IH (retries + 1)
                    (sleep (2 ^ retries) (mk_net (answer w) (S (sent w)) (slept w)))).
      destruct IH as (k & Hk & Hsent & Hslept & Hnone & Hres & Hlast); [lia | lia |].
      cbn [sleep answer sent slept] in *.
      exists (S k). repeat split.
      * lia.
      * rewrite Hsent. lia.
      * rewrite Hslept, <- app_assoc. f_equal. cbn [seq fmap list_fmap app].
        rewrite Z.add_0_r. f_equal. rewrite <- fmap_S_seq, <- list_fmap_compose.
        apply list_fmap_ext. intros _ i _. cbn. f_equal. lia.
      * intros [|i] Hi; [by rewrite Nat.add_0_r|].
        replace (sent w + S i)%nat with (S (sent w) + i)%nat by lia. apply Hnone. lia.
      * rewrite Hres. f_equal. lia.
      * intros Hn. specialize (Hlast Hn). lia.
Qed.

(** X8. [handle_request_errors], called as every caller does with no
    retries behind it: it returns the first answer that is not an error
    among at most [MAX_RETRIES + 1] requests, having slept 1, 2, 4, ...
    seconds before each request but the first, and it returns [None]
    only when all [MAX_RETRIES + 1] requests have failed (one request
    when [MAX_RETRIES] is not positive). *)
Theorem handle_request_errors_trace MAX_RETRIES url (w : net Response) :
  exists k : nat,
    Z.of_nat k <= Z.max 0 MAX_RETRIES
    /\ sent (handle_request_errors MAX_RETRIES url 0 w).2 = (sent w + k + 1)%nat
    /\ slept (handle_request_errors MAX_RETRIES url 0 w).2
       = slept w ++ ((fun i => 2 ^ Z.of_nat i) <$> seq 0 k)
    /\ (forall i, (i < k)%nat -> answer w url (sent w + i)%nat = None)
    /\ (handle_request_errors MAX_RETRIES url 0 w).1 = answer w url (sent w + k)%nat
    /\ ((handle_request_errors MAX_RETRIES url 0 w).1 = None ->
        Z.of_nat k = Z.max 0 MAX_RETRIES).
Proof.
  unfold handle_request_errors.
  destruct (retry_trace MAX_RETRIES url (Z.to_nat (MAX_RETRIES - 0)) 0 w)
    as (k & Hk & Hsent & Hslept & Hnone & Hres & Hlast); [lia | done |].
  rewrite Z.sub_0_r in *. exists k. repeat split; try done.
Qed.

End session.
End RequestsTheorems.

Module ScrapersTheorems.
Import Text Time Effects Models Base Scrapers Notions TextNotions Examples Listings.
Import TimeFacts ModelsFacts CleanTextFacts ParseDateFacts ScrapersFacts.
Local Open Scope string_scope.

Section site.
Variable urljoin : string -> string -> string.
Variable base_url : string.

(** X9. Every record [parse_alert_table] returns comes from a row after
    the header and has source [CAS], a tidy reference, title and status,
    one of the three alert types, the date cell of the row, read under the
    pattern, as issue date (a valid midnight), a reading of the clock as
    [scraped_at], and as identity hash the digest of its reference, its
    title, the originator cell of the row and its day: the originator of
    the record is that cell, or the originator the page of the alert
    names, and the hash is not renewed for it.  So the hashes of the
    records are those of the same table with every page out of reach, at
    any time. *)
Theorem parse_alert_table_records table w :
  (forall alert,
     alert ∈ (CasMhra.parse_alert_table urljoin base_url table w).1 ->
     exists rows row n,
       table = Some rows /\ row ∈ tail rows
       /\ source alert = "CAS"
       /\ tidy (reference alert) = true /\ tidy (title alert) = true
       /\ tidy (status alert) = true
       /\ alert_type alert ∈ ["National Patient Safety Alert"; "CMO Messaging"; "Unknown"]
       /\ cas_issue_date (clean_text (nth 3 (CasMhra.cols row) "")) = Some (issue_date alert)
       /\ valid_datetimeb (issue_date alert) = true
       /\ issue_date alert = midnight (date_of (issue_date alert))
       /\ scraped_at alert = clock w n
       /\ hash_id alert
          = MD5.hexdigest
              (encode (content (reference alert) (title alert)
                         (clean_text (nth 2 (CasMhra.cols row) "")) (issue_date alert)))
       /\ (originator alert = clean_text (nth 2 (CasMhra.cols row) "")
           \/ exists page, CasMhra.detail row = Some page /\ url alert <> ""
                /\ originator alert = CasMhra.get_text_by_label page "Originator:"
                /\ originator alert <> ""))
  /\ (forall w',
        hash_id <$> (CasMhra.parse_alert_table urljoin base_url table w).1
        = hash_id <$> (CasMhra.parse_alert_table urljoin base_url
                         (fmap (M:=list) row_listing_only <$> table) w').1).
Proof.
  split.
  - intros alert Hin. destruct table as [rows|]; [|by apply elem_of_nil in Hin].
    cbn [CasMhra.parse_alert_table] in Hin.
    apply (collect_elem _ _ (cas_parse_row_clock urljoin base_url)) in Hin
      as [Hin | (row & w1 & w2 & Hrow & Hcl & Hp)]; [by apply elem_of_nil in Hin|].
    apply cas_parse_row_record in Hp
      as (H1 & H2 & H3 & H4 & H5 & H6 & H7 & H8 & H9 & H10 & H11).
    exists rows, row, (ticks w1). rewrite <- Hcl. by split_and!.
  - intros w'. destruct table as [rows|]; [|done].
    cbn [CasMhra.parse_alert_table fmap option_fmap option_map].
    replace (tail (row_listing_only <$> rows)) with (row_listing_only <$> tail rows)
      by (by destruct rows).
    apply collect_hashes; [|done]. apply cas_parse_row_hash.
Qed.


(** X11. A record that either scraper returns, with its dates in the
    years from 1000 on, survives the flat row in its identity: read back
    from its own row, at any time and without the clock being read, it has
    the same issue date, reference, title, originator, source, address and
    identity hash. *)
Theorem scraped_record_roundtrip alert table alert_items w w2 :
  alert ∈ (CasMhra.parse_alert_table urljoin base_url table w).1
  \/ alert ∈ (GovUk.parse_alert_list urljoin base_url alert_items w).1 ->
  valid_datetimeb (scraped_at alert) = true ->
  (1000 <= year (date_of (scraped_at alert)))%Z ->
  (1000 <= year (date_of (issue_date alert)))%Z ->
  exists alert',
    from_dict (to_dict alert) w2 = Returned alert' w2
    /\ issue_date alert' = issue_date alert
    /\ reference alert' = reference alert
    /\ title alert' = title alert
    /\ originator alert' = originator alert
    /\ source alert' = source alert
    /\ url alert' = url alert
    /\ hash_id alert' = hash_id alert.
Proof.
  intros Hget Hs Hys Hyi.
  assert (valid_datetimeb (issue_date alert) = true
          /\ issue_date alert = midnight (date_of (issue_date alert))) as (Hv & Hm).
  { destruct Hget as [Hin | Hin].
    - destruct table as [rows|]; [|by apply elem_of_nil in Hin].
      cbn [CasMhra.parse_alert_table] in Hin.
      apply (collect_elem _ _ (cas_parse_row_clock urljoin base_url)) in Hin
        as [Hin | (row & w1 & w2' & Hrow & Hcl & Hp)]; [by apply elem_of_nil in Hin|].
      apply cas_parse_row_record in Hp. tauto.
    - unfold GovUk.parse_alert_list in Hin.
      apply (collect_elem _ _ (govuk_parse_item_clock urljoin base_url)) in Hin
        as [Hin | (item & w1 & w2' & Hitem & Hcl & Hp)]; [by apply elem_of_nil in Hin|].
      apply govuk_parse_item_record in Hp. tauto. }
  exists (row_image alert). split.
  - apply from_dict_to_dict; try done.
    by apply valid_datetimeb_bounds in Hv as [Hv _].
  - by apply row_image_midnight.
Qed.

End site.

(** The table and the list of the examples, read at [clock0]. *)
Example parse_alert_table_example :
  CasMhra.parse_alert_table no_urljoin CAS_MHRA_URL cas_table clock0
  = ([cas_returned], mk_world (clock clock0) 1).
Proof. vm_compute. reflexivity. Qed.

Example parse_alert_list_example :
  GovUk.parse_alert_list no_urljoin GOVUK_ALERTS_URL govuk_items clock0
  = ([govuk_returned], mk_world (clock clock0) 1).
Proof. vm_compute. reflexivity. Qed.

(** The record of the list item carries the hash of the listing, which is
    not the digest of the fields it has after the page was read. *)
Example enriched_hash_is_of_the_listing :
  hash_id govuk_returned = generate_hash govuk_listed
  /\ hash_id govuk_returned <> generate_hash govuk_returned.
Proof. split; [vm_compute; reflexivity|]. vm_compute. discriminate. Qed.

Lemma scraped_record_roundtrip_witness :
  (govuk_returned ∈ (GovUk.parse_alert_list no_urljoin GOVUK_ALERTS_URL govuk_items clock0).1)
  /\ exists alert',
       from_dict (to_dict govuk_returned) clock0 = Returned alert' clock0
       /\ issue_date alert' = issue_date govuk_returned
       /\ reference alert' = reference govuk_returned
       /\ title alert' = title govuk_returned
       /\ originator alert' = originator govuk_returned
       /\ source alert' = source govuk_returned
       /\ url alert' = url govuk_returned
       /\ hash_id alert' = hash_id govuk_returned.
Proof.
  assert (govuk_returned
          ∈ (GovUk.parse_alert_list no_urljoin GOVUK_ALERTS_URL govuk_items clock0).1) as Hin
    by (rewrite parse_alert_list_example; by left).
  split; [exact Hin|].
  apply (scraped_record_roundtrip no_urljoin GOVUK_ALERTS_URL govuk_returned None
           govuk_items clock0 clock0); [by right | reflexivity | done | done].
Defined.

End ScrapersTheorems.

Module ProcessorTheorems.
Import Text Time Effects Models Duplicates Sheets Processor FirstWins Notions RowNotions.
Import Examples SheetExamples.
Import TimeFacts ModelsFacts FirstWinsFacts ExactFacts FuzzyFacts ProcessorFacts.

(** X12. [from_dict] rejects an issue date that is followed by anything,
    a time of day for one: it raises [ValueError] before the clock is
    read, and [dataframe_to_alerts] counts the row as one it skips. *)
Theorem from_dict_rejects_trailing_text (d : date) (rest : string) row w :
  valid_dateb d = true -> rest <> ""%string ->
  row !! "Issue Date"%string = Some (strftime_date_into d rest) ->
  from_dict row w = Raised ValueError w /\ bad_issue_date row = true.
Proof.
  intros Hd Hrest Hrow.
  assert (bad_issue_date row = true) as Hbad.
  { unfold bad_issue_date, get_or_empty. rewrite Hrow. cbn [default from_option id].
    apply andb_true_iff. split; [apply truthy_year_text|]. apply bool_decide_eq_true.
    unfold strptime_date, Time.bind.
    destruct (Z.le_gt_cases 1000 (year d)) as [Hmodern | Hearly].
    - rewrite parse_date_strftime by done. unfold Time.ret, finish. by destruct rest.
    - by rewrite parse_date_strftime_early by (done || lia). }
  split; [by apply from_dict_bad_issue_date | done].
Qed.

Lemma from_dict_rejects_trailing_text_witness :
  stamped_row !! "Issue Date"%string
  = Some (strftime_date_into (mk_date 2025 6 26) "T00:00:00")
  /\ from_dict stamped_row clock0 = Raised ValueError clock0
  /\ bad_issue_date stamped_row = true.
Proof.
  split; [reflexivity|].
  by apply (from_dict_rejects_trailing_text (mk_date 2025 6 26) "T00:00:00" stamped_row clock0).
Defined.

(** X13. [dataframe_to_alerts] skips a row whose date cell holds text
    that is not a date, and the row costs nothing: the records and the
    clock are what they are for the frame without the row. *)
Theorem dataframe_to_alerts_skips columns rows1 row rows2 w :
  bad_issue_date row = true ->
  dataframe_to_alerts (mk_DataFrame columns (rows1 ++ row :: rows2)) w
  = dataframe_to_alerts (mk_DataFrame columns (rows1 ++ rows2)) w.
Proof.
  intros Hbad. unfold dataframe_to_alerts, empty. cbn [Processor.rows Processor.columns].
  destruct (bool_decide (columns = [])) eqn:Hc; [by rewrite !orb_true_r|].
  rewrite !orb_false_r.
  assert (fold_left convert_row (rows1 ++ row :: rows2) ([], w)
          = fold_left convert_row (rows1 ++ rows2) ([], w)) as Hfold.
  { rewrite !convert_rows_app. cbn [fold_left]. f_equal.
    destruct (fold_left convert_row rows1 ([], w)) as [acc w1].
    unfold convert_row. cbn [fst snd]. by rewrite from_dict_bad_issue_date. }
  rewrite Hfold. rewrite bool_decide_eq_false_2 by (by destruct rows1).
  destruct (bool_decide (rows1 ++ rows2 = [])) eqn:He; [|done].
  apply bool_decide_eq_true in He. by rewrite He.
Qed.

Lemma dataframe_to_alerts_skips_witness :
  bad_issue_date stamped_row = true
  /\ dataframe_to_alerts (mk_DataFrame headers ([chain_w_row] ++ stamped_row :: [])) clock0
     = dataframe_to_alerts (mk_DataFrame headers ([chain_w_row] ++ [])) clock0.
Proof.
  split; [vm_compute; reflexivity|].
  apply (dataframe_to_alerts_skips headers [chain_w_row] stamped_row [] clock0).
  vm_compute. reflexivity.
Defined.

(** X14. Reading a frame whose rows are the rows of valid records dated
    to the years from 1000 on returns one record per row, in order, each
    the image of its record (the day of the issue date at midnight,
    [scraped_at] to the second), and does not read the clock. *)
Theorem dataframe_to_alerts_roundtrip columns alerts w :
  columns <> [] ->
  Forall (fun a => valid_datetimeb (issue_date a) = true
                   /\ valid_datetimeb (scraped_at a) = true
                   /\ (1000 <= year (date_of (issue_date a)))%Z
                   /\ (1000 <= year (date_of (scraped_at a)))%Z) alerts ->
  dataframe_to_alerts (mk_DataFrame columns (to_dict <$> alerts)) w
  = (row_image <$> alerts, w).
Proof.
  intros Hc Hv. unfold dataframe_to_alerts, empty. cbn [Processor.rows Processor.columns].
  rewrite (bool_decide_eq_false_2 (columns = [])), orb_false_r by done.
  destruct alerts as [|a0 alerts0]; [done|].
  rewrite bool_decide_eq_false_2 by done.
  generalize (a0 :: alerts0) Hv. clear. intros alerts Hv.
  assert (forall acc, fold_left convert_row (to_dict <$> alerts) (acc, w)
                      = (acc ++ (row_image <$> alerts), w)) as Hfold; [|apply (Hfold [])].
  induction Hv as [|a alerts (Hi & Hs & Hyi & Hys) _ IH]; intros acc;
    [by rewrite app_nil_r|].
  cbn [fmap list_fmap fold_left]. unfold convert_row at 2. cbn [fst snd].
  rewrite from_dict_to_dict;
    [|by apply valid_datetimeb_bounds in Hi as [Hi _]|done..].
  fold (fmap (M:=list) to_dict alerts). rewrite IH, <- app_assoc. done.
Qed.

Lemma dataframe_to_alerts_roundtrip_witness :
  headers <> []
  /\ dataframe_to_alerts (mk_DataFrame headers (to_dict <$> [chain_w; chain_x])) clock0
     = (row_image <$> [chain_w; chain_x], clock0).
Proof.
  split; [done|].
  apply (dataframe_to_alerts_roundtrip headers [chain_w; chain_x] clock0); [done|].
  repeat constructor; done.
Defined.

Section pipeline.
Variable fuzz_ratio : string -> string -> Z.
Variable duplicate_manager : DuplicateManager.

Local Abbreviation dedup := (process_and_deduplicate fuzz_ratio duplicate_manager).
Local Abbreviation run := (run_additions fuzz_ratio duplicate_manager).

Lemma run_additions_eq sheet cas_alerts govuk_alerts w :
  (run sheet cas_alerts govuk_alerts w).1
  = plan_additions (get_existing_alerts sheet w).1 (dedup (cas_alerts ++ govuk_alerts)).
Proof. unfold run_additions. by destruct (get_existing_alerts sheet w). Qed.

Lemma dedup_unmatched alerts : unmatched exact_match (dedup alerts).
Proof.
  unfold process_and_deduplicate, remove_duplicates. rewrite phase2_pick, phase1_pick.
  eapply unmatched_sublist; [apply pick_sublist|].
  apply (pick_unmatched exact_match [] alerts). constructor.
Qed.

(** X15. In a run the engine has already removed every exact match
    inside the batch, so the planner decides each record against the
    sheet alone: the additions are the deduplicated records that no
    record read from the sheet matches by hash or reference, in order;
    and when the sheet cannot be read, every deduplicated record is
    added. *)
Theorem run_additions_filter sheet cas_alerts govuk_alerts w :
  (run sheet cas_alerts govuk_alerts w).1
  = filter (fun a => already_recorded (get_existing_alerts sheet w).1 a = false)
      (dedup (cas_alerts ++ govuk_alerts))
  /\ (run None cas_alerts govuk_alerts w).1 = dedup (cas_alerts ++ govuk_alerts).
Proof.
  split.
  - rewrite run_additions_eq, plan_additions_pick.
    rewrite pick_filter by apply dedup_unmatched.
    apply filter_ext_elem. intros a _. by rewrite matched_exact_recorded.
  - rewrite run_additions_eq, plan_additions_pick. cbn [get_existing_alerts fst].
    apply pick_fixpoint, dedup_unmatched.
Qed.

(** X16. A scraped record whose hash stands in the hash cell of a
    readable row of the sheet is never added again, whatever else the
    row and the record hold; the same for a reference. *)
Theorem run_additions_skips_recorded df row alert cas_alerts govuk_alerts w :
  row ∈ Processor.rows df -> Processor.columns df <> [] -> readable row = true ->
  (hash_id alert <> ""%string /\ row !! "Hash ID"%string = Some (hash_id alert))
  \/ (reference alert <> ""%string /\ row !! "Reference"%string = Some (reference alert)) ->
  alert ∉ (run (Some df) cas_alerts govuk_alerts w).1.
Proof.
  intros Hrow Hcols Hread Hcell Hin.
  rewrite run_additions_eq, plan_additions_pick in Hin.
  apply pick_not_matched in Hin. rewrite matched_exact_recorded in Hin.
  cbn [get_existing_alerts] in Hin. unfold dataframe_to_alerts, empty in Hin.
  rewrite (bool_decide_eq_false_2 (Processor.columns df = [])), orb_false_r in Hin by done.
  rewrite bool_decide_eq_false_2 in Hin by (intros E; rewrite E in Hrow; by apply elem_of_nil in Hrow).
  destruct (convert_rows_elem (Processor.rows df) [] w row Hrow Hread)
    as (known & Hknown & Href & Hhash).
  unfold already_recorded in Hin. apply orb_false_iff in Hin as [Hh Hr].
  destruct Hcell as [[Hne Hc] | [Hne Hc]].
  - apply truthy_nonempty in Hne. rewrite Hne in Hh. cbn [andb] in Hh.
    apply bool_decide_eq_false in Hh. apply Hh, elem_of_hashes_of.
    exists known. split; [done|]. split; [by apply Hhash | done].
  - apply truthy_nonempty in Hne. rewrite Hne in Hr. cbn [andb] in Hr.
    apply bool_decide_eq_false in Hr. apply Hr, elem_of_references_of.
    exists known. split; [done|]. split; [|done].
    rewrite Href. unfold get_or_empty. by rewrite Hc.
Qed.

End pipeline.

Lemma run_additions_skips_recorded_witness :
  readable chain_w_row = true
  /\ chain_w_row !! "Hash ID"%string = Some (hash_id chain_w)
  /\ chain_w ∉ (run_additions Fuzz.ratio default_manager
                  (Some (mk_DataFrame headers [chain_w_row])) [chain_w; chain_x] [] clock0).1.
Proof.
  split; [vm_compute; reflexivity|]. split; [reflexivity|].
  apply (run_additions_skips_recorded Fuzz.ratio default_manager
           (mk_DataFrame headers [chain_w_row]) chain_w_row chain_w [chain_w; chain_x] []
           clock0).
  - by left.
  - done.
  - vm_compute. reflexivity.
  - left. split; [|reflexivity]. apply truthy_nonempty, truthy_generate_hash.
Defined.

End ProcessorTheorems.

(** ** The row, once more *)

Module RowTheorems.
Import Text Time Effects Models Notions Examples Listings.
Import TimeFacts ModelsFacts ScrapersFacts.

(** X17. The flat row is stable: the record read from the row of a
    valid record dated to the years from 1000 on writes that same row
    again, cell for cell, and reading that row returns the same record
    once more; no clock is read. *)
Theorem row_stable self w :
  valid_datetimeb (issue_date self) = true ->
  valid_datetimeb (scraped_at self) = true ->
  (1000 <= year (date_of (issue_date self)))%Z ->
  (1000 <= year (date_of (scraped_at self)))%Z ->
  exists self',
    from_dict (to_dict self) w = Returned self' w
    /\ to_dict self' = to_dict self
    /\ from_dict (to_dict self') w = Returned self' w.
Proof.
  intros Hi Hs Hyi Hys. apply valid_datetimeb_bounds in Hi as [Hi _].
  exists (row_image self). rewrite to_dict_row_image.
  by rewrite from_dict_to_dict.
Qed.

Lemma row_stable_witness :
  exists self',
    from_dict (to_dict cas_listed) clock0 = Returned self' clock0
    /\ to_dict self' = to_dict cas_listed
    /\ from_dict (to_dict self') clock0 = Returned self' clock0.
Proof. apply (row_stable cas_listed clock0); [reflexivity | reflexivity | done | done]. Defined.

End RowTheorems.

Module PagesTheorems.
Import Text Base Pages PagesFacts.
Local Open Scope Z_scope.

(** X18. The pages [scrape] goes on to request from the CAS table are
    strictly ascending, so no page is requested twice, and they are
    exactly the numbers written on the links whose text is all digits
    and differs from the text of the current page. *)
Theorem page_numbers_ascending link_texts current_page_text :
  StronglySorted Z.lt (page_numbers link_texts current_page_text)
  /\ (forall n, n ∈ page_numbers link_texts current_page_text <->
        exists t, t ∈ link_texts /\ isdigit t = true
                  /\ Some t <> current_page_text /\ int t = n).
Proof.
  unfold page_numbers. split.
  - apply sorted_nodup_strict.
    + apply (Sorted_merge_sort Z.le).
    + rewrite merge_sort_Permutation. apply NoDup_elements.
  - intros n. rewrite merge_sort_Permutation, elem_of_elements, elem_of_list_to_set.
    rewrite list_elem_of_fmap. split.
    + intros (t & -> & [Hp Ht]%list_elem_of_filter). exists t.
      unfold is_page_link in Hp. apply andb_true_iff in Hp as [Hd Hc].
      apply negb_true_iff, bool_decide_eq_false in Hc. done.
    + intros (t & Ht & Hd & Hc & <-). exists t. split; [done|].
      apply list_elem_of_filter. split; [|done].
      unfold is_page_link. rewrite Hd. cbn [andb].
      by apply negb_true_iff, bool_decide_eq_false.
Qed.

End PagesTheorems.
